(** * SDE-EDG: dataset loader and feature extractors

    A shallow embedding of [datasets/sine.py] and [network/model_func.py].

    - [Py]        : Python exceptions and the state-and-exception monad in
                    which the constructors and forward passes are written.
    - [Numpy]     : the part of numpy the loader calls (axis-0 [mean] and
                    [std], broadcasting, boolean-mask indexing, [astype]),
                    over IEEE 754 binary32/binary64 as specified by
                    [SpecFloat].
    - [Sine]      : [MultipleEnvironmentSine] and [ToySine].
    - [ModelFunc] : [LinearFeatExtractor], [MNIST_CNN], [ResNet], [Identity].
*)

From Stdlib Require Import ZArith List Bool Lia String.
From Stdlib Require Import Floats.SpecFloat.
From stdpp Require Import base option list list_numbers.
Import ListNotations.

Local Open Scope Z_scope.

(* ===================================================================== *)
(** * Python: exceptions, results, state                                  *)
(* ===================================================================== *)

Module Py.

Inductive exn : Type :=
| ValueError (msg : string)
| NotImplementedError
| IndexError
| AssertionError
| AttributeError
| RuntimeError.

Inductive result (A : Type) : Type :=
| Ok (a : A)
| Raise (e : exn).
Arguments Ok {A} a.
Arguments Raise {A} e.

Definition is_ok {A} (r : result A) : bool :=
  match r with Ok _ => true | Raise _ => false end.

(** A method body on an object of state [S]: it runs from a state to a
    state and either returns or raises.  The state reached when an
    exception is raised is kept: attributes assigned before the [raise]
    stay assigned. *)
Definition M (S A : Type) : Type := S -> S * result A.

Definition ret {S A} (a : A) : M S A := fun s => (s, Ok a).
Definition raise {S A} (e : exn) : M S A := fun s => (s, Raise e).
Definition bind {S A B} (m : M S A) (k : A -> M S B) : M S B :=
  fun s => match m s with
           | (s', Ok a) => k a s'
           | (s', Raise e) => (s', Raise e)
           end.
Definition modify {S} (f : S -> S) : M S unit := fun s => (f s, Ok tt).
Definition lift {S A} (r : result A) : M S A := fun s => (s, r).

(** [for x in xs: body x] *)
Fixpoint for_each {S A} (xs : list A) (body : A -> M S unit) : M S unit :=
  match xs with
  | [] => ret tt
  | x :: xs' => bind (body x) (fun _ => for_each xs' body)
  end.

(** [range(n)] *)
Definition range (n : nat) : list nat := seq 0 n.

(** [xs[-1]]; [IndexError] on the empty list. *)
Definition index_last {A} (xs : list A) : result A :=
  match last xs with Some x => Ok x | None => Raise IndexError end.

(** [xs[0]]; [IndexError] on the empty list. *)
Definition index_first {A} (xs : list A) : result A :=
  match xs with x :: _ => Ok x | [] => Raise IndexError end.

End Py.

Import Py.

Declare Scope py_scope.
Delimit Scope py_scope with py.
Notation "x <~ m ;; k" := (Py.bind m (fun x => k))
  (at level 200, m at level 99, right associativity) : py_scope.
Notation "m ;;; k" := (Py.bind m (fun _ => k))
  (at level 200, right associativity) : py_scope.

(* ===================================================================== *)
(** * numpy: the array operations the loader uses                         *)
(* ===================================================================== *)

Module Numpy.

(** Floating-point element types; every operation of an array of dtype
    [dt] rounds to nearest-even in the format of [dt]. *)
Inductive dtype : Type := float32 | float64.

Definition prec (dt : dtype) : Z :=
  match dt with float32 => 24 | float64 => 53 end.
Definition emax (dt : dtype) : Z :=
  match dt with float32 => 128 | float64 => 1024 end.

Definition add dt := SFadd (prec dt) (emax dt).
Definition sub dt := SFsub (prec dt) (emax dt).
Definition mul dt := SFmul (prec dt) (emax dt).
Definition div dt := SFdiv (prec dt) (emax dt).
Definition sqrt dt := SFsqrt (prec dt) (emax dt).

(** An integer converted to the format of [dt] (the sample count that
    [mean] and [std] divide by; also used to write test data). *)
Definition of_Z dt (z : Z) : spec_float :=
  binary_normalize (prec dt) (emax dt) z 0 false.


(** A two-dimensional array: [rows] has one entry per sample (axis 0),
    each a list of feature values (axis 1). *)
Record ndarray : Type := { dt : dtype; rows : list (list spec_float) }.

Definition len (a : ndarray) : nat := length (rows a).

(** The sum of a value and a run of values, added from the left. *)
Definition sum_from dt (x : spec_float) (xs : list spec_float) : spec_float :=
  fold_left (add dt) xs x.

(** numpy's pairwise summation of a contiguous run of [n] values
    ([pairwise_sum] of [loops_utils.h]).

    The unrolled block: the first eight values start eight accumulators,
    [r[j] += a[i + j]] for every further full group of eight, the
    accumulators are added as a balanced tree, and what is left of the
    run is added from the left. *)
Fixpoint add_groups dt (r xs : list spec_float) (k : nat)
    : list spec_float * list spec_float :=
  match k with
  | O => (r, xs)
  | S k' => add_groups dt (zip_with (add dt) r (take 8 xs)) (drop 8 xs) k'
  end.

Definition add_tree dt (r : list spec_float) : spec_float :=
  match r with
  | [r0; r1; r2; r3; r4; r5; r6; r7] =>
      add dt (add dt (add dt r0 r1) (add dt r2 r3))
             (add dt (add dt r4 r5) (add dt r6 r7))
  | _ => sum_from dt (S754_zero true) r
  end.

Definition block_sum dt (a : list spec_float) : spec_float :=
  let '(r, rest) :=
    add_groups dt (take 8 a) (drop 8 a) (length a / 8 - 1)%nat in
  sum_from dt (add_tree dt r) rest.

(** Fewer than 8 values are added from the left; up to 128 values are
    one unrolled block; a longer run is split at half its length rounded
    down to a multiple of 8, and the two sums are added.  [fuel] bounds
    the depth of the splitting; the length of the run is enough. *)
Fixpoint pairwise_sum dt (fuel : nat) (a : list spec_float) : spec_float :=
  if Nat.ltb (length a) 8 then
    match a with
    | [] => S754_zero true
    | x :: xs => sum_from dt x xs
    end
  else if Nat.leb (length a) 128 then block_sum dt a
  else
    match fuel with
    | O => block_sum dt a
    | S fuel' =>
        let n2 := (length a / 2 - (length a / 2) mod 8)%nat in
        add dt (pairwise_sum dt fuel' (take n2 a))
               (pairwise_sum dt fuel' (drop n2 a))
    end.

(** [numpy.add.reduce(a, axis=0)] on a C-contiguous [(N, F)] array.

    With one feature the column is one contiguous run and is summed
    pairwise.  With more features the rows are added to the accumulator
    row one after the other.  In both cases the sum starts from the first
    value (adding it to the identity [-0.0] gives the value itself).  For
    an array without rows the result is unused by every caller below. *)
Definition add_reduce0 dt (rs : list (list spec_float)) : list spec_float :=
  match rs with
  | [] => []
  | r :: rs' =>
      if Nat.eqb (length r) 1
      then [pairwise_sum dt (length rs) (concat rs)]
      else fold_left (fun acc row => zip_with (add dt) acc row) rs' r
  end.

(** [a.mean(0, keepdims=True)]: column sums divided by the number of
    rows. *)
Definition mean0 dt (rs : list (list spec_float)) : list spec_float :=
  map (fun s => div dt s (of_Z dt (Z.of_nat (length rs)))) (add_reduce0 dt rs).

(** Broadcasting a [(1, F)] row against an [(N, F)] array. *)
Definition broadcast (op : spec_float -> spec_float -> spec_float)
    (rs : list (list spec_float)) (v : list spec_float) : list (list spec_float) :=
  map (fun r => zip_with op r v) rs.

(** [a.std(0, keepdims=True)] (ddof = 0):
    [sqrt(sum((a - mean)**2, axis=0) / N)]. *)
Definition std0 dt (rs : list (list spec_float)) : list spec_float :=
  let x := broadcast (sub dt) rs (mean0 dt rs) in
  let x2 := map (map (fun v => mul dt v v)) x in
  map (fun s => sqrt dt (div dt s (of_Z dt (Z.of_nat (length rs)))))
      (add_reduce0 dt x2).

(** [a[mask]] with a boolean [mask] over axis 0: the entries at the
    positions where the mask is [True], in order; [IndexError] when the
    mask and the axis differ in length. *)
Fixpoint select {A} (mask : list bool) (xs : list A) : result (list A) :=
  match mask, xs with
  | [], [] => Ok []
  | b :: mask', x :: xs' =>
      match select mask' xs' with
      | Ok ys => Ok (if b then x :: ys else ys)
      | Raise e => Raise e
      end
  | _, _ => Raise IndexError
  end.

(** [domain == domain_id], elementwise. *)
Definition eq_scalar (domain : list Z) (domain_id : Z) : list bool :=
  map (fun v => Z.eqb v domain_id) domain.

(** One value rounded to binary32. *)
Definition to_float32 (x : spec_float) : spec_float :=
  match x with
  | S754_finite s m e => binary_round (prec float32) (emax float32) s m e
  | _ => x
  end.

(** [a.astype(np.float32)]: a copy when the array already is float32. *)
Definition astype_float32 (a : ndarray) : ndarray :=
  match dt a with
  | float32 => a
  | float64 => {| dt := float32; rows := map (map to_float32) (rows a) |}
  end.

(** [labels.astype(np.int64)] on an integer array: two's complement
    wrap-around to 64 bits. *)
Definition to_int64 (z : Z) : Z := (z + 2 ^ 63) mod 2 ^ 64 - 2 ^ 63.
Definition astype_int64 (l : list Z) : list Z := map to_int64 l.

End Numpy.

Import Numpy.

(* ===================================================================== *)
(** * datasets/sine.py                                                    *)
(* ===================================================================== *)

Module Sine.

(** The dict stored in the cache file: the keys ['data'], ['label'] and
    ['domain'] that the constructor reads. *)
Record pickle : Type := {
  data : ndarray;
  label : list Z;
  domain : list Z
}.

Definition set_data (d : ndarray) (p : pickle) : pickle :=
  {| data := d; label := label p; domain := domain p |}.

(** The file system as the loader sees it: [os.path.exists(path)] holds
    when the path is mapped, and [pickle.load] then yields the dict. *)
Definition filesystem : Type := string -> option pickle.

Section MultipleEnvironmentSine.

(** What [dataset_transform] returns. *)
Context {D : Type}.

(** The instance attributes; [None] is an attribute that has not been
    assigned. *)
Record obj : Type := {
  Environments : option (list Z);
  input_shape : option (list Z);
  num_classes : option Z;
  normalize : option bool;
  data_pkl : option pickle;
  datasets : option (list D)
}.

(** An object without attributes. *)
Definition new_obj : obj :=
  {| Environments := None; input_shape := None; num_classes := None;
     normalize := None; data_pkl := None; datasets := None |}.

Definition set_Environments v (o : obj) : obj :=
  {| Environments := Some v; input_shape := input_shape o;
     num_classes := num_classes o; normalize := normalize o;
     data_pkl := data_pkl o; datasets := datasets o |}.
Definition set_input_shape v (o : obj) : obj :=
  {| Environments := Environments o; input_shape := Some v;
     num_classes := num_classes o; normalize := normalize o;
     data_pkl := data_pkl o; datasets := datasets o |}.
Definition set_num_classes v (o : obj) : obj :=
  {| Environments := Environments o; input_shape := input_shape o;
     num_classes := Some v; normalize := normalize o;
     data_pkl := data_pkl o; datasets := datasets o |}.
Definition set_normalize v (o : obj) : obj :=
  {| Environments := Environments o; input_shape := input_shape o;
     num_classes := num_classes o; normalize := Some v;
     data_pkl := data_pkl o; datasets := datasets o |}.
Definition set_data_pkl v (o : obj) : obj :=
  {| Environments := Environments o; input_shape := input_shape o;
     num_classes := num_classes o; normalize := normalize o;
     data_pkl := Some v; datasets := datasets o |}.
Definition set_datasets v (o : obj) : obj :=
  {| Environments := Environments o; input_shape := input_shape o;
     num_classes := num_classes o; normalize := normalize o;
     data_pkl := data_pkl o; datasets := Some v |}.

(** Reading an attribute; [AttributeError] when it is not assigned. *)
Definition getattr {A} (f : obj -> option A) : M obj A :=
  fun o => match f o with
           | Some v => (o, Ok v)
           | None => (o, Raise AttributeError)
           end.

(** [_load_cache]: the dict when the file exists, otherwise
    [NotImplementedError].  (The message printed on the way is not
    modelled.) *)
Definition _load_cache (fs : filesystem) (cache_path : string) : M obj pickle :=
  match fs cache_path with
  | Some data_pkl => ret data_pkl
  | None => raise NotImplementedError
  end.

(** Lines 29-32: [(data - data.mean(0)) / data.std(0)], in the dtype of
    [data]. *)
Definition normalized (a : ndarray) : ndarray :=
  let data_mean := mean0 (dt a) (rows a) in
  let data_std := std0 (dt a) (rows a) in
  {| dt := dt a;
     rows := broadcast (div (dt a))
               (broadcast (sub (dt a)) (rows a) data_mean) data_std |}.

(** [a[idx]] on the data array. *)
Definition select_rows (idx : list bool) (a : ndarray) : result ndarray :=
  match select idx (rows a) with
  | Ok rs => Ok {| dt := dt a; rows := rs |}
  | Raise e => Raise e
  end.

(** The body of the loop of lines 35-40. *)
Definition loop_body (dataset_transform : ndarray -> list Z -> result D)
    (domain_id : nat) : M obj unit :=
  (pkl <~ getattr data_pkl ;;
   let idx := eq_scalar (domain pkl) (Z.of_nat domain_id) in
   pkl <~ getattr data_pkl ;;
   sel <~ lift (select_rows idx (data pkl)) ;;
   let data := astype_float32 sel in
   pkl <~ getattr data_pkl ;;
   sel <~ lift (select idx (label pkl)) ;;
   let labels := astype_int64 sel in
   ds <~ lift (dataset_transform data labels) ;;
   cur <~ getattr datasets ;;
   modify (set_datasets (cur ++ [ds])))%py.

(** [MultipleEnvironmentSine.__init__], run on the object as
    [super().__init__()] left it. *)
Definition __init__ (fs : filesystem) (root : option string)
    (environments : list Z)
    (dataset_transform : ndarray -> list Z -> result D)
    (input_shape_ : list Z) (num_classes_ : Z) : M obj unit :=
  (modify (set_Environments environments) ;;;
   modify (set_input_shape input_shape_) ;;;
   modify (set_num_classes num_classes_) ;;;
   modify (set_normalize true) ;;;
   match root with
   | None => raise (ValueError "Data directory not specified!")
   | Some root =>
       pkl <~ _load_cache fs root ;;
       modify (set_data_pkl pkl) ;;;
       nrm <~ getattr normalize ;;
       (if nrm : bool then
          pkl <~ getattr data_pkl ;;
          modify (set_data_pkl (set_data (normalized (data pkl)) pkl))
        else ret tt) ;;;
       modify (set_datasets []) ;;;
       for_each (range (length environments)) (loop_body dataset_transform)
   end)%py.

End MultipleEnvironmentSine.
Arguments obj : clear implicits.

(** What [torch.utils.data.TensorDataset(x, y)] holds. *)
Record TensorDataset : Type := { tensor_x : ndarray; tensor_y : list Z }.

Module ToySine.

(** [torch.tensor(data).float()]: a float32 tensor is returned as it
    is, any other is converted. *)
Definition float (x : ndarray) : ndarray := astype_float32 x.

(** [torch.tensor(labels).long()] on an int64 array keeps the values;
    converting wraps to 64 bits. *)
Definition long (y : list Z) : list Z := astype_int64 y.

(** [process_dataset]; [TensorDataset] asserts that its tensors have
    the same size along axis 0. *)
Definition process_dataset (data : ndarray) (labels : list Z)
    : result TensorDataset :=
  let x := float data in
  let y := long labels in
  if Nat.eqb (len x) (length y)
  then Ok {| tensor_x := x; tensor_y := y |}
  else Raise AssertionError.

Definition num_domains : nat := 24.

(** [list(np.arange(num_domains))] *)
Definition environments : list Z := map Z.of_nat (seq 0 num_domains).

Definition __init__ (fs : filesystem) (root : option string)
    (input_shape_ : list Z) (num_classes_ : Z) : M (obj TensorDataset) unit :=
  Sine.__init__ fs root environments process_dataset input_shape_ num_classes_.

End ToySine.

End Sine.

(* ===================================================================== *)
(** * torch: the interface the feature extractors are written against    *)
(* ===================================================================== *)

Module Torch.

(** Tensors [T] and the state [G] of the random generator, with the
    functional operations that the layers of [model_func.py] call. *)
Class Ops (T G : Type) : Type := {
(** [F.linear(x, weight, bias)] *)
F_linear : T -> T -> T -> result T;
(** [F.relu(x)] *)
F_relu : T -> T;
(** [F.dropout(x, p, training)]: draws its mask from the generator
    when [training] holds. *)
F_dropout : spec_float -> bool -> T -> G -> T * G;
(** [F.conv2d(x, weight, bias, stride, padding)] *)
F_conv2d : T -> T -> option T -> Z -> Z -> result T;
(** [F.group_norm(x, num_groups, weight, bias)] *)
F_group_norm : T -> Z -> T -> T -> result T;
(** [F.adaptive_avg_pool2d(x, (h, w))] *)
F_adaptive_avg_pool2d : T -> Z * Z -> result T;
(** [len(x)] *)
size0 : T -> result Z;
(** [x.view(n, -1)] *)
view_rows : T -> Z -> result T;
(** A new parameter of the given shape, initialised from the
    generator. *)
init_param : list Z -> G -> T * G;
(** [torch.ones(shape)], [torch.zeros(shape)] *)
ones : list Z -> T;
zeros : list Z -> T
  }.

(** [1.0] as a Python float. *)
Definition float_one : spec_float := S754_finite false 4503599627370496 (-52).

(** The test of [nn.Dropout.__init__]: [p < 0 or p > 1].  Both
    comparisons are false on NaN. *)
Definition rate_out_of_range (rate : spec_float) : bool :=
  SFltb rate (S754_zero false) || SFltb float_one rate.

Section Layers.
Context {T G : Type} `{Ops T G}.

Definition draw (shape : list Z) : M G T :=
  fun g => let '(t, g') := init_param shape g in (g', Ok t).

(** ** nn.Linear *)
Record Linear : Type := {
  in_features : Z; out_features : Z; lin_weight : T; lin_bias : T
}.

(** [nn.Linear(n_in, n_out)]: allocating the weight raises
    [RuntimeError] on a negative size, before anything is drawn. *)
Definition nn_Linear (n_in n_out : Z) : M G Linear :=
  if Z.ltb n_in 0 || Z.ltb n_out 0 then raise RuntimeError
  else
  (w <~ draw [n_out; n_in] ;;
   b <~ draw [n_out] ;;
   ret {| in_features := n_in; out_features := n_out;
          lin_weight := w; lin_bias := b |})%py.

Definition Linear_call (l : Linear) (x : T) : M G T :=
  lift (F_linear x (lin_weight l) (lin_bias l)).

(** ** nn.Dropout *)
Record Dropout : Type := { p : spec_float; drop_training : bool }.

(** [nn.Dropout(rate)]: [ValueError] when the rate is below 0 or above
    1.  (The rate that torch appends to the message is not modelled.) *)
Definition nn_Dropout (rate : spec_float) : M G Dropout :=
  if rate_out_of_range rate
  then raise (ValueError "dropout probability has to be between 0 and 1")
  else ret {| p := rate; drop_training := true |}.

Definition Dropout_call (d : Dropout) (x : T) : M G T :=
  fun g => let '(y, g') := F_dropout (p d) (drop_training d) x g in (g', Ok y).

(** ** nn.Conv2d with a square kernel, one stride and one padding *)
Record Conv2d : Type := {
  in_channels : Z; out_channels : Z; kernel_size : Z;
  stride : Z; padding : Z; conv_weight : T; conv_bias : option T
}.

(** [nn.Conv2d(c_in, c_out, k, s, pad)]: allocating the weight raises
    [RuntimeError] on a negative size, before anything is drawn. *)
Definition nn_Conv2d (c_in c_out k s pad : Z) : M G Conv2d :=
  if Z.ltb c_in 0 || Z.ltb c_out 0 || Z.ltb k 0 then raise RuntimeError
  else
  (w <~ draw [c_out; c_in; k; k] ;;
   b <~ draw [c_out] ;;
   ret {| in_channels := c_in; out_channels := c_out; kernel_size := k;
          stride := s; padding := pad; conv_weight := w;
          conv_bias := Some b |})%py.

Definition Conv2d_call (c : Conv2d) (x : T) : M G T :=
  lift (F_conv2d x (conv_weight c) (conv_bias c) (stride c) (padding c)).

(** ** nn.GroupNorm *)
Record GroupNorm : Type := {
  num_groups : Z; num_channels : Z; gn_weight : T; gn_bias : T
}.

(** [nn.GroupNorm(groups, channels)]: the divisibility test comes
    first, then the allocation of the weight, which raises
    [RuntimeError] on a negative size. *)
Definition nn_GroupNorm (groups channels : Z) : M G GroupNorm :=
  if Z.eqb groups 0 then raise RuntimeError   (* ZeroDivisionError *)
  else if negb (Z.eqb (channels mod groups) 0)
  then raise (ValueError "num_channels must be divisible by num_groups")
  else if Z.ltb channels 0 then raise RuntimeError
  else ret {| num_groups := groups; num_channels := channels;
              gn_weight := ones [channels]; gn_bias := zeros [channels] |}.

Definition GroupNorm_call (n : GroupNorm) (x : T) : M G T :=
  lift (F_group_norm x (num_groups n) (gn_weight n) (gn_bias n)).

(** ** nn.AdaptiveAvgPool2d *)
Record AdaptiveAvgPool2d : Type := { output_size : Z * Z }.

Definition AdaptiveAvgPool2d_call (a : AdaptiveAvgPool2d) (x : T) : M G T :=
  lift (F_adaptive_avg_pool2d x (output_size a)).

End Layers.
Arguments Linear : clear implicits.
Arguments Conv2d : clear implicits.
Arguments GroupNorm : clear implicits.

(** ** Shapes

    The interface read on shapes alone: a tensor is its list of
    dimensions, and each operation maps shapes as torch documents it
    for batched input, raising where torch raises. *)
Module Shape.

Definition numel (s : list Z) : Z := fold_right Z.mul 1 s.

Definition linear (x w b : list Z) : result (list Z) :=
  match w, last x with
  | [n_out; n_in], Some d =>
      if Z.eqb d n_in && bool_decide (b = [n_out])
      then Ok (removelast x ++ [n_out]) else Raise RuntimeError
  | _, _ => Raise RuntimeError
  end.

(** [floor((n + 2*pad - k) / s) + 1] *)
Definition conv_out (n k s pad : Z) : Z := (n + 2 * pad - k) / s + 1.

Definition conv2d (x w : list Z) (b : option (list Z)) (s pad : Z)
    : result (list Z) :=
  match x, w with
  | [n; c; h; wd], [c_out; c_in; kh; kw] =>
      if Z.eqb c c_in && Z.ltb 0 s && Z.leb 0 pad
         && Z.leb kh (h + 2 * pad) && Z.leb kw (wd + 2 * pad)
         && Z.ltb 0 c_in && Z.ltb 0 c_out
         && match b with Some bs => bool_decide (bs = [c_out]) | None => true end
      then Ok [n; c_out; conv_out h kh s pad; conv_out wd kw s pad]
      else Raise RuntimeError
  | _, _ => Raise RuntimeError
  end.

(** [F.group_norm] first verifies the batch size: with
    [size = [n * c // groups, groups] + spatial], it raises [ValueError]
    when [size[0]] times the spatial dimensions is 1.  (The input size
    that torch appends to the message is not modelled.) *)
Definition group_norm (x : list Z) (groups : Z) (w b : list Z)
    : result (list Z) :=
  match x with
  | n :: c :: spatial =>
      if Z.eqb groups 0 then Raise RuntimeError   (* ZeroDivisionError *)
      else if Z.eqb ((n * c / groups) * numel spatial) 1
      then Raise (ValueError
                    "Expected more than 1 value per channel when training")
      else if Z.eqb (c mod groups) 0
              && bool_decide (w = [c]) && bool_decide (b = [c])
      then Ok x else Raise RuntimeError
  | _ => Raise RuntimeError
  end.

Definition adaptive_avg_pool2d (x : list Z) (out : Z * Z) : result (list Z) :=
  match x with
  | [n; c; h; wd] =>
      if Z.ltb 0 h && Z.ltb 0 wd then Ok [n; c; fst out; snd out]
      else Raise RuntimeError
  | _ => Raise RuntimeError
  end.

Definition len (x : list Z) : result Z :=
  match x with n :: _ => Ok n | [] => Raise RuntimeError end.

(** [x.view(n, -1)]: the second dimension is inferred, which needs
    [n] to be positive and to divide the number of elements. *)
Definition view (x : list Z) (n : Z) : result (list Z) :=
  if Z.ltb 0 n && Z.eqb (numel x mod n) 0
  then Ok [n; numel x / n] else Raise RuntimeError.

#[global] Instance ops : Ops (list Z) unit := {|
  F_linear := linear;
  F_relu := fun x => x;
  F_dropout := fun _ _ x g => (x, g);
  F_conv2d := conv2d;
  F_group_norm := group_norm;
  F_adaptive_avg_pool2d := adaptive_avg_pool2d;
  size0 := len;
  view_rows := view;
  init_param := fun s g => (s, g);
  ones := fun s => s;
  zeros := fun s => s
|}.

End Shape.

End Torch.

Import Torch.

(* ===================================================================== *)
(** * network/model_func.py                                               *)
(* ===================================================================== *)

(** The entries of [hparams] that the extractors read. *)
Record hparams : Type := {
  mlp_depth : Z;
  mlp_width : Z;
  mlp_dropout : spec_float
}.

(** An attribute that the constructor assigns on one branch only. *)
Definition attr {S A} (a : option A) : M S A :=
  match a with Some v => ret v | None => raise AttributeError end.

(** A list comprehension [[f() for _ in range(n)]] whose element draws
    from the state. *)
Fixpoint comprehension {S A} (n : nat) (f : M S A) : M S (list A) :=
  match n with
  | O => ret []
  | S n' => (x <~ f ;; xs <~ comprehension n' f ;; ret (x :: xs))%py
  end.

Module LinearFeatExtractor.
Section Class.
Context {T G : Type} `{Ops T G}.

Record t : Type := {
  num_layers : Z;
  input : Linear T;
  dropout : option Dropout;
  hiddens : option (list (Linear T));
  output : option (Linear T);
  n_outputs : Z
}.

Definition __init__ (input_shape : list Z) (output_dim : Z) (hp : hparams)
    : M G t :=
  (n_inputs <~ lift (index_last input_shape) ;;
   let num_layers_ := mlp_depth hp in
   input_ <~ nn_Linear n_inputs (mlp_width hp) ;;
   if Z.ltb 1 num_layers_ then
     dropout_ <~ nn_Dropout (mlp_dropout hp) ;;
     hiddens_ <~ comprehension (Z.to_nat (mlp_depth hp - 2))
                   (nn_Linear (mlp_width hp) (mlp_width hp)) ;;
     output_ <~ nn_Linear (mlp_width hp) output_dim ;;
     ret {| num_layers := num_layers_; input := input_;
            dropout := Some dropout_; hiddens := Some hiddens_;
            output := Some output_; n_outputs := output_dim |}
   else
     ret {| num_layers := num_layers_; input := input_;
            dropout := None; hiddens := None; output := None;
            n_outputs := output_dim |})%py.

(** The body of [for hidden in self.hiddens], threading [x]. *)
Fixpoint hidden_loop (self : t) (hs : list (Linear T)) (x : T) : M G T :=
  match hs with
  | [] => ret x
  | hidden :: hs' =>
      (x <~ Linear_call hidden x ;;
       d <~ attr (dropout self) ;;
       x <~ Dropout_call d x ;;
       let x := F_relu x in
       hidden_loop self hs' x)%py
  end.

Definition forward (self : t) (x : T) : M G T :=
  (x <~ Linear_call (input self) x ;;
   if Z.ltb 1 (num_layers self) then
     d <~ attr (dropout self) ;;
     x <~ Dropout_call d x ;;
     let x := F_relu x in
     hs <~ attr (hiddens self) ;;
     x <~ hidden_loop self hs x ;;
     out <~ attr (output self) ;;
     x <~ Linear_call out x ;;
     ret x
   else ret x)%py.

(** *** The forward pass as the specification words it

    A pipeline of stages composed left to right. *)
Definition stage : Type := T -> M G T.

Fixpoint pipeline (stages : list stage) (x : T) : M G T :=
  match stages with
  | [] => ret x
  | s :: rest => (y <~ s x ;; pipeline rest y)%py
  end.

(** "dropout and ReLU" *)
Definition dropout_relu (d : Dropout) : stage :=
  fun x => (y <~ Dropout_call d x ;; ret (F_relu y))%py.

(** "the input linear layer, then dropout and ReLU, then for each
    hidden linear layer a linear map followed by dropout and ReLU,
    then the output linear layer" *)
Definition deep_stages (inp : Linear T) (d : Dropout)
    (hs : list (Linear T)) (out : Linear T) : list stage :=
  [Linear_call inp; dropout_relu d]
  ++ concat (map (fun h => [Linear_call h; dropout_relu d]) hs)
  ++ [Linear_call out].

End Class.
Arguments t : clear implicits.
End LinearFeatExtractor.

Module MNIST_CNN.
Section Class.
Context {T G : Type} `{Ops T G}.

Record t : Type := {
  conv1 : Conv2d T; conv2 : Conv2d T; conv3 : Conv2d T; conv4 : Conv2d T;
  bn0 : GroupNorm T; bn1 : GroupNorm T; bn2 : GroupNorm T; bn3 : GroupNorm T;
  avgpool : AdaptiveAvgPool2d;
  n_outputs : Z
}.

Definition __init__ (input_shape : list Z) (output_dim : Z) (hp : hparams)
    : M G t :=
  (c_in <~ lift (index_first input_shape) ;;
   conv1_ <~ nn_Conv2d c_in 64 3 1 1 ;;
   conv2_ <~ nn_Conv2d 64 128 3 2 1 ;;
   conv3_ <~ nn_Conv2d 128 128 3 1 1 ;;
   conv4_ <~ nn_Conv2d 128 output_dim 3 1 1 ;;
   bn0_ <~ nn_GroupNorm 8 64 ;;
   bn1_ <~ nn_GroupNorm 8 128 ;;
   bn2_ <~ nn_GroupNorm 8 128 ;;
   bn3_ <~ nn_GroupNorm 8 output_dim ;;
   ret {| conv1 := conv1_; conv2 := conv2_; conv3 := conv3_;
          conv4 := conv4_; bn0 := bn0_; bn1 := bn1_; bn2 := bn2_;
          bn3 := bn3_; avgpool := {| output_size := (1, 1) |};
          n_outputs := output_dim |})%py.

Definition forward (self : t) (x : T) : M G T :=
  (x <~ Conv2d_call (conv1 self) x ;;
   x <~ GroupNorm_call (bn0 self) (F_relu x) ;;
   x <~ Conv2d_call (conv2 self) x ;;
   x <~ GroupNorm_call (bn1 self) (F_relu x) ;;
   x <~ Conv2d_call (conv3 self) x ;;
   x <~ GroupNorm_call (bn2 self) (F_relu x) ;;
   x <~ Conv2d_call (conv4 self) x ;;
   x <~ GroupNorm_call (bn3 self) (F_relu x) ;;
   x <~ AdaptiveAvgPool2d_call (avgpool self) x ;;
   n <~ lift (size0 x) ;;
   x <~ lift (view_rows x n) ;;
   ret x)%py.

End Class.
Arguments t : clear implicits.
End MNIST_CNN.

Module Identity.
Section Class.
Context {T G : Type}.

Record t : Type := { n_outputs : Z }.

Definition __init__ (input_shape : list Z) (output_dim : Z) (hp : hparams)
    : M G t :=
  (n <~ lift (index_last input_shape) ;;
   ret {| n_outputs := n |})%py.

Definition forward (self : t) (x : T) : M G T := ret x.

End Class.
End Identity.

(** ** ResNet

    The torchvision network is a tree of modules.  Each node carries the
    attribute name it has in its parent, its class, its [training] flag
    and its children in registration order. *)
Module ResNet.
Section Class.
(** One [kernel_size x kernel_size] slice [w[o, i, :, :]] of a
    convolution weight. *)
Context {K : Type}.

(** A weight of shape [(out, in, kh, kw)]: one row per output channel,
    one slice per input channel. *)
Definition weight : Type := list (list K).

Record conv_params : Type := {
  in_channels : Z; out_channels : Z;
  kernel_size : Z * Z; stride : Z * Z; padding : Z * Z;
  has_bias : bool;
  conv_weight : weight
}.

Inductive class : Type :=
| Conv2d (c : conv_params)
| BatchNorm2d
| nn_Identity
| nn_Dropout (p : spec_float)
| Other (class_name : string).

#[warnings="-register-all"] Inductive module : Type :=
| Module_ (name : string) (cls : class) (training : bool)
          (children : list module).

Definition name (m : module) := let 'Module_ n _ _ _ := m in n.
Definition cls (m : module) := let 'Module_ _ c _ _ := m in c.
Definition training (m : module) := let 'Module_ _ _ t _ := m in t.
Definition children (m : module) := let 'Module_ _ _ _ cs := m in cs.

(** [isinstance(m, nn.BatchNorm2d)] *)
Definition is_BatchNorm2d (m : module) : bool :=
  match cls m with BatchNorm2d => true | _ => false end.

(** [nn.Module.train(mode)]: sets the flag of the module and of every
    descendant. *)
Fixpoint Module_train (mode : bool) (m : module) : module :=
  let 'Module_ n c _ cs := m in
Module_ n c mode (map (Module_train mode) cs).

(** [m.eval()] is [m.train(False)]. *)
Definition Module_eval (m : module) : module := Module_train false m.

(** [freeze_bn] on one subtree, in the order of [modules()]: a
    [BatchNorm2d] node gets [m.eval()], which clears its flag and the
    flags of its descendants (visiting those afterwards changes
    nothing more); any other node is kept and its children are
    visited. *)
Fixpoint freeze (m : module) : module :=
  let 'Module_ n c t cs := m in
  match c with
  | BatchNorm2d => Module_ n c false (map (Module_train false) cs)
  | _ => Module_ n c t (map freeze cs)
  end.

(** [getattr(m, attr)] for a submodule. *)
Definition get_child (attr_name : string) (m : module) : result module :=
  match List.find (fun c => String.eqb (name c) attr_name) (children m) with
  | Some c => Ok c
  | None => Raise AttributeError
  end.

(** [setattr(m, attr, child)]: an existing entry keeps its place, a new
    one goes last. *)
Fixpoint assign (attr_name : string) (child : module) (cs : list module)
    : list module :=
  match cs with
  | [] => [child]
  | c :: cs' =>
      if String.eqb (name c) attr_name then child :: cs'
      else c :: assign attr_name child cs'
  end.

Definition set_child (attr_name : string) (child : module) (m : module)
    : module :=
  let 'Module_ n c t cs := m in
  let 'Module_ _ c' t' cs' := child in
Module_ n c t (assign attr_name (Module_ attr_name c' t' cs') cs).

(** [del m.attr] *)
Fixpoint remove (attr_name : string) (cs : list module)
    : result (list module) :=
  match cs with
  | [] => Raise AttributeError
  | c :: cs' =>
      if String.eqb (name c) attr_name then Ok cs'
      else match remove attr_name cs' with
           | Ok r => Ok (c :: r)
           | Raise e => Raise e
           end
  end.

Definition del_child (attr_name : string) (m : module) : result module :=
  let 'Module_ n c t cs := m in
  match remove attr_name cs with
  | Ok cs' => Ok (Module_ n c t cs')
  | Raise e => Raise e
  end.

(** [w[:, i, :, :]]: the slices of input channel [i], one per output
    channel. *)
Fixpoint channel (i : nat) (w : weight) : result (list K) :=
  match w with
  | [] => Ok []
  | row :: w' =>
      match row !! i, channel i w' with
      | Some k, Ok ks => Ok (k :: ks)
      | None, _ => Raise IndexError
      | _, Raise e => Raise e
      end
  end.

(** [w[:, i, :, :] = src]: writes one slice per output channel;
    [IndexError] when [i] is not an input channel of [w],
    [RuntimeError] when the numbers of output channels differ. *)
Fixpoint assign_channel (i : nat) (src : list K) (w : weight)
    : result weight :=
  match w, src with
  | [], [] => Ok []
  | row :: w', k :: src' =>
      if Nat.ltb i (length row) then
        match assign_channel i src' w' with
        | Ok r => Ok (<[i := k]> row :: r)
        | Raise e => Raise e
        end
      else Raise IndexError
  | _, _ => Raise RuntimeError
  end.

(** The loop of lines 98-99 over the remaining channel indices. *)
Fixpoint copy_channels (tmp : weight) (idxs : list nat) (w : weight)
    : result weight :=
  match idxs with
  | [] => Ok w
  | i :: is' =>
      match channel (i mod 3)%nat tmp with
      | Ok src =>
          match assign_channel i src w with
          | Ok w' => copy_channels tmp is' w'
          | Raise e => Raise e
          end
      | Raise e => Raise e
      end
  end.

(** What the environment supplies: the torchvision constructors
    [resnet18] and [resnet50], and the initial weight that
    [nn.Conv2d] gives a new layer with [c_out] output and [c_in]
    input channels. *)
Variable torchvision_models : string -> bool -> module.
Variable fresh_weight : nat -> nat -> weight.

Record t : Type := {
  network : module;
  n_outputs : Z;
  dropout : option module;
  self_training : bool
}.

(** [self.freeze_bn()] *)
Definition freeze_bn (self : t) : t :=
  {| network := freeze (network self); n_outputs := n_outputs self;
     dropout := dropout self; self_training := self_training self |}.

(** [self.network.conv1.weight.data.clone()] *)
Definition conv1_weight (net : module) : result weight :=
  match get_child "conv1" net with
  | Ok c => match cls c with
            | Conv2d cp => Ok (conv_weight cp)
            | _ => Raise AttributeError
            end
  | Raise e => Raise e
  end.

(** Lines 90-99. *)
Definition adapt_channels (input_shape : list Z) (net : module)
    : result module :=
  match index_first input_shape with
  | Raise e => Raise e
  | Ok nc =>
      if negb (Z.eqb nc 3) then
        match conv1_weight net with
        | Raise e => Raise e
        | Ok tmp =>
            if Z.ltb nc 0 then Raise RuntimeError
            else
              let w0 := fresh_weight 64 (Z.to_nat nc) in
              match copy_channels tmp (range (Z.to_nat nc)) w0 with
              | Raise e => Raise e
              | Ok w =>
                  Ok (set_child "conv1"
                        (Module_ "conv1"
                           (Conv2d {| in_channels := nc; out_channels := 64;
                                      kernel_size := (7, 7); stride := (2, 2);
                                      padding := (3, 3); has_bias := false;
                                      conv_weight := w |})
                           true [])
                        net)
              end
        end
      else Ok net
  end.

Definition __init__ (arch : string) (input_shape : list Z)
    (pretrained : bool) (drop_rate : spec_float) : result t :=
  let '(net, n_out) :=
    if String.eqb arch "resnet18"
    then (torchvision_models "resnet18" pretrained, 512)
    else (torchvision_models "resnet50" pretrained, 2048) in
  match adapt_channels input_shape net with
  | Raise e => Raise e
  | Ok net =>
      match del_child "fc" net with
      | Raise e => Raise e
      | Ok net =>
          let net := set_child "fc" (Module_ "fc" nn_Identity true []) net in
          let self := freeze_bn {| network := net; n_outputs := n_out;
                                   dropout := None; self_training := true |} in
          if rate_out_of_range drop_rate
          then Raise (ValueError
                        "dropout probability has to be between 0 and 1")
          else
          Ok {| network := network self; n_outputs := n_outputs self;
                dropout := Some (Module_ "dropout" (nn_Dropout drop_rate) true []);
                self_training := self_training self |}
      end
  end.

(** [train(self, mode=True)]: [super().train(mode)], then
    [self.freeze_bn()]. *)
Definition train (self : t) (mode : bool) : t :=
  let self := {| network := Module_train mode (network self);
                 n_outputs := n_outputs self;
                 dropout := option_map (Module_train mode) (dropout self);
                 self_training := mode |} in
  freeze_bn self.

(** Every [BatchNorm2d] module of a tree is in eval mode. *)
Fixpoint all_bn_eval (m : module) : bool :=
  let 'Module_ _ _ t cs := m in
  (if is_BatchNorm2d m then negb t else true) && forallb all_bn_eval cs.

End Class.
Arguments module : clear implicits.
Arguments class : clear implicits.
Arguments t : clear implicits.
Arguments conv_params : clear implicits.

Section Forward.
Context {K T G : Type}.

(** [m(x)] for a module of the tree: the forward pass torch runs for it,
    which reads the flags and the weights of [m]. *)
Variable module_call : module K -> T -> M G T.

(** [forward]: [self.dropout(self.network(x))]. *)
Definition forward (self : t K) (x : T) : M G T :=
  (y <~ module_call (network self) x ;;
   d <~ attr (dropout self) ;;
   module_call d y)%py.

End Forward.

(** Every module that is neither a [BatchNorm2d] nor below one has its
    [training] flag equal to [mode]. *)
Fixpoint others_in_mode {K} (mode : bool) (m : module K) : bool :=
  let 'Module_ _ c t cs := m in
  match c with
  | BatchNorm2d => true
  | _ => Bool.eqb t mode && forallb (others_in_mode mode) cs
  end.

(** Every module of a tree has its [training] flag equal to [mode]. *)
Fixpoint all_in_mode {K} (mode : bool) (m : module K) : bool :=
  let 'Module_ _ _ t cs := m in
  Bool.eqb t mode && forallb (all_in_mode mode) cs.

End ResNet.

(** The default [drop_rate] of [ResNet.__init__]: 0.5. *)
Definition default_drop_rate : spec_float :=
  S754_finite false 4503599627370496 (-53).

(** [resnet18(input_shape, output_dim, hparams=None)] *)
Definition resnet18 {K} (torchvision_models : string -> bool -> ResNet.module K)
    (fresh_weight : nat -> nat -> list (list K))
    (input_shape : list Z) (output_dim : Z) (hp : option hparams)
    : result (ResNet.t K) :=
  ResNet.__init__ torchvision_models fresh_weight "resnet18" input_shape
    false default_drop_rate.

(** [resnet50(input_shape, output_dim, hparams=None)] *)
Definition resnet50 {K} (torchvision_models : string -> bool -> ResNet.module K)
    (fresh_weight : nat -> nat -> list (list K))
    (input_shape : list Z) (output_dim : Z) (hp : option hparams)
    : result (ResNet.t K) :=
  ResNet.__init__ torchvision_models fresh_weight "resnet50" input_shape
    false default_drop_rate.

(* ===================================================================== *)
(** * Specification-side definitions                                      *)
(* ===================================================================== *)

Import Sine.

(** ** The loader *)

(** The three arrays of a cache describe the same samples. *)
Definition well_formed (p : pickle) : Prop :=
  length (rows (data p)) = length (domain p)
  /\ length (label p) = length (domain p).

(** "the samples whose 'domain' entry equals d, in their original order" *)
Definition samples_of_domain {A} (d : Z) (xs : list A) (dom : list Z) : list A :=
  (filter (fun q => q.2 = d) (zip xs dom)).*1.

(** The d-th partition: the normalized samples
    of domain [d], data as float32 and labels as int64. *)
Definition partition_data (d : nat) (p : pickle) : ndarray :=
  astype_float32
    {| dt := dt (data p);
       rows := samples_of_domain (Z.of_nat d)
                 (rows (normalized (data p))) (domain p) |}.

Definition partition_labels (d : nat) (p : pickle) : list Z :=
  astype_int64 (samples_of_domain (Z.of_nat d) (label p) (domain p)).

(** "cast to float32": a float32 value is kept; a float64 value becomes
    the binary32 value nearest to it, ties to even. *)
Definition as_float32 (t : dtype) (x : spec_float) : spec_float :=
  match t, x with
  | float64, S754_finite s m e => binary_round 24 128 s m e
  | _, _ => x
  end.

(** "cast to int64": the low 64 bits read as a two's complement number. *)
Definition as_int64 (z : Z) : Z :=
  let u := Z.land z (Z.ones 64) in
  if u <? 2 ^ 63 then u else u - 2 ^ 64.

(** "(x - mean) / std", one row against the per-feature statistics. *)
Definition standardized (t : dtype) (data_mean data_std r : list spec_float)
    : list spec_float :=
  zip_with (fun v s => div t v s) (zip_with (fun x m => sub t x m) r data_mean)
    data_std.

(** The data of the d-th dataset in the words of the claim: the samples
    whose domain equals [d], in their original order, each
    [(x - mean) / std] with the statistics of the whole cache, cast to
    float32. *)
Definition claimed_data (d : nat) (p : pickle) : ndarray :=
  let t := dt (data p) in
  let data_mean := mean0 t (rows (data p)) in
  let data_std := std0 t (rows (data p)) in
  {| dt := float32;
     rows := map (fun r => map (as_float32 t) (standardized t data_mean data_std r))
               (samples_of_domain (Z.of_nat d) (rows (data p)) (domain p)) |}.

(** The labels of the d-th dataset in the words of the claim. *)
Definition claimed_labels (d : nat) (p : pickle) : list Z :=
  map as_int64 (samples_of_domain (Z.of_nat d) (label p) (domain p)).

(** A dropout rate that [nn.Dropout] accepts: not below 0 and not above
    1. *)
Definition rate_in_range (rate : spec_float) : Prop :=
  SFltb rate (S754_zero false) = false /\ SFltb float_one rate = false.

(** The raw samples of one domain. *)
Definition domain_rows (d : nat) (p : pickle) : ndarray :=
  {| dt := dt (data p);
     rows := samples_of_domain (Z.of_nat d) (rows (data p)) (domain p) |}.

(** Rows normalized by given statistics. *)
Definition normalized_with (data_mean data_std : list spec_float) (a : ndarray)
    : ndarray :=
  {| dt := dt a;
     rows := broadcast (div (dt a)) (broadcast (sub (dt a)) (rows a) data_mean)
               data_std |}.

(** Per-domain normalization: the samples of domain [d] normalized by the
    mean and standard deviation of those samples. *)
Definition per_domain_normalized (d : nat) (p : pickle) : ndarray :=
  let a := domain_rows d p in
  astype_float32
    (normalized_with (mean0 (dt a) (rows a)) (std0 (dt a) (rows a)) a).

(** Global normalization: the samples of domain [d] normalized by the mean
    and standard deviation of all samples of the cache. *)
Definition globally_normalized (d : nat) (p : pickle) : ndarray :=
  astype_float32
    (normalized_with (mean0 (dt (data p)) (rows (data p)))
                     (std0 (dt (data p)) (rows (data p)))
                     (domain_rows d p)).


(** The state in which [ToySine.__init__] leaves the object when it
    returns. *)
Definition loaded {D} (envs : list Z) (shape : list Z) (classes : Z)
    (p : pickle) (ds : list D) : obj D :=
  {| Environments := Some envs; input_shape := Some shape;
     num_classes := Some classes; normalize := Some true;
     data_pkl := Some (set_data (normalized (data p)) p);
     datasets := Some ds |}.

(** The datasets [ToySine] builds from a cache. *)
Definition toy_datasets (p : pickle) : list TensorDataset :=
  map (fun d => {| tensor_x := partition_data d p;
                   tensor_y := partition_labels d p |})
      (seq 0 ToySine.num_domains).

(** The number of samples held by a list of datasets. *)
Definition total_samples (ds : list TensorDataset) : nat :=
  sum_list_with (fun td => length (tensor_y td)) ds.

(** ** Test data *)

Definition f64 (z : Z) : spec_float := of_Z float64 z.

(** Four samples with one feature, two per domain. *)
Definition two_domains : pickle :=
  {| data := {| dt := float64;
                rows := [[f64 0]; [f64 2]; [f64 10]; [f64 12]] |};
     label := [0; 1; 0; 1];
     domain := [0; 0; 1; 1] |}.

(** The float64 nearest to 0.1. *)
Definition tenth : spec_float := S754_finite false 7205759403792794 (-56).


(** Three samples whose one feature is 5 in each. *)
Definition constant_five : pickle :=
  {| data := {| dt := float64; rows := [[f64 5]; [f64 5]; [f64 5]] |};
     label := [0; 1; 0];
     domain := [0; 1; 30] |}.

(** A file system holding one cache. *)
Definition one_file (path : string) (p : pickle) : filesystem :=
  fun q => if String.eqb q path then Some p else None.

(** ** The feature extractors *)

Definition shallow_hparams : hparams :=
  {| mlp_depth := 1; mlp_width := 4; mlp_dropout := S754_zero false |}.

Definition deep_hparams : hparams :=
  {| mlp_depth := 4; mlp_width := 8; mlp_dropout := S754_zero false |}.

(** A linear layer as the shape instance builds it: the weight and the
    bias are their shapes. *)
Definition shape_Linear (n_in n_out : Z) : Linear (list Z) :=
  {| in_features := n_in; out_features := n_out;
     lin_weight := [n_out; n_in]; lin_bias := [n_out] |}.

(** A batch for [MNIST_CNN]: [B] images of [C] channels, [H] by [W]. *)
Definition image_batch (x : list Z) (channels : Z) : Prop :=
  exists b h w, x = [b; channels; h; w] /\ 0 < b /\ 0 < h /\ 0 < w.

(** The test of the last group norm of [MNIST_CNN] on a batch
    [(b, c, h, w)]: one image, eight output channels and a map that the
    second convolution reduces to one by one. *)
Definition single_value (output_dim b h w : Z) : bool :=
  Z.eqb b 1 && Z.eqb output_dim 8 && Z.leb h 2 && Z.leb w 2.

(** ** ResNet *)

(** What the constructor relies on in a torchvision ResNet: the root is
    not itself a batch norm, [conv1] is a convolution without submodules
    whose weight has 64 output and 3 input channels, and there is an
    [fc]. *)
Definition torchvision_resnet {K} (net : ResNet.module K) : Prop :=
  ResNet.is_BatchNorm2d net = false
  /\ (exists cp tr,
        ResNet.get_child "conv1" net
        = Ok (ResNet.Module_ "conv1" (ResNet.Conv2d cp) tr [])
        /\ length (ResNet.conv_weight cp) = 64%nat
        /\ Forall (fun row => length row = 3%nat) (ResNet.conv_weight cp))
  /\ is_ok (ResNet.del_child "fc" net) = true.

(** A new convolution weight has the shape it was asked for. *)
Definition fresh_shaped {K} (fresh_weight : nat -> nat -> list (list K)) : Prop :=
  forall c_out c_in,
    length (fresh_weight c_out c_in) = c_out
    /\ Forall (fun row => length row = c_in) (fresh_weight c_out c_in).

(** The architecture name the constructor asks torchvision for. *)
Definition zoo_name (arch : string) : string :=
  if String.eqb arch "resnet18" then "resnet18" else "resnet50".

(** A small network in the layout of a torchvision ResNet, with weight
    slices named by integers: slice [(o, i)] of [conv1] is [3 * o + i]. *)
Definition tiny_conv1_weight : list (list Z) :=
  map (fun o => [3 * Z.of_nat o; 3 * Z.of_nat o + 1; 3 * Z.of_nat o + 2])
      (seq 0 64).

Definition tiny_conv (w : list (list Z)) : ResNet.conv_params Z :=
  {| ResNet.in_channels := 3; ResNet.out_channels := 64;
     ResNet.kernel_size := (7, 7); ResNet.stride := (2, 2);
     ResNet.padding := (3, 3); ResNet.has_bias := false;
     ResNet.conv_weight := w |}.

Definition tiny_resnet : ResNet.module Z :=
  ResNet.Module_ "" (ResNet.Other "ResNet") true
    [ ResNet.Module_ "conv1" (ResNet.Conv2d (tiny_conv tiny_conv1_weight)) true [];
      ResNet.Module_ "bn1" ResNet.BatchNorm2d true [];
      ResNet.Module_ "relu" (ResNet.Other "ReLU") true [];
      ResNet.Module_ "layer1" (ResNet.Other "Sequential") true
        [ ResNet.Module_ "0" (ResNet.Other "BasicBlock") true
            [ ResNet.Module_ "conv1" (ResNet.Conv2d (tiny_conv [])) true [];
              ResNet.Module_ "bn1" ResNet.BatchNorm2d true [] ] ];
      ResNet.Module_ "fc" (ResNet.Other "Linear") true [] ].

Definition tiny_zoo : string -> bool -> ResNet.module Z :=
  fun _ _ => tiny_resnet.

Definition zero_weight : nat -> nat -> list (list Z) :=
  fun c_out c_in => replicate c_out (replicate c_in 0).


(** The samples whose domain index lies in [0..n-1], in their order. *)
Definition samples_in_range {A} (n : nat) (xs : list A) (dom : list Z) : list A :=
  (filter (fun q => 0 <= q.2 < Z.of_nat n) (zip xs dom)).*1.

(** A rectangular array: every row has [width] entries. *)
Definition rectangular (width : nat) (rs : list (list spec_float)) : Prop :=
  Forall (fun r => length r = width) rs.

(** A cache with a NaN in its second sample. *)
Definition with_nan : pickle :=
  {| data := {| dt := float64;
                rows := [[f64 1; f64 2]; [S754_nan; f64 4]; [f64 5; f64 7]] |};
     label := [0; 1; 1];
     domain := [0; 0; 1] |}.

(** A cache whose domain array is one entry short. *)
Definition short_domain : pickle :=
  {| data := {| dt := float64; rows := [[f64 1]; [f64 2]] |};
     label := [0; 1];
     domain := [0] |}.

(** A transform that accepts the partitions of the first [k] domains it
    is called on with data, and rejects an empty partition. *)
Definition reject_empty (data : ndarray) (labels : list Z) : result TensorDataset :=
  if Nat.eqb (len data) 0 then Raise (ValueError "empty domain")
  else ToySine.process_dataset data labels.

(** [module(x)] on shapes for the small network: every module keeps the
    shape. *)
Definition shape_module_call (m : ResNet.module Z) (x : list Z) : M unit (list Z) :=
  ret x.

(* ===================================================================== *)
(** * The loader: proofs                                                  *)
(* ===================================================================== *)

Section Select.
Context {A : Type}.

Lemma select_eq_scalar (d : Z) (dom : list Z) : forall xs : list A,
  length xs = length dom ->
  select (eq_scalar dom d) xs = Ok (samples_of_domain d xs dom).
Proof.
  induction dom as [|v dom IH]; intros [|x xs] Hlen; simpl in Hlen; try lia.
  - reflexivity.
  - cbn [eq_scalar map select]. fold (eq_scalar dom d).
    rewrite IH by lia. unfold samples_of_domain. cbn [zip zip_with].
    rewrite filter_cons. cbn [snd].
    destruct (Z.eqb_spec v d) as [->|Hne].
    + rewrite decide_True by reflexivity. reflexivity.
    + rewrite decide_False by assumption. reflexivity.
Qed.

Lemma select_length_mismatch (mask : list bool) (xs : list A) :
  length mask <> length xs -> select mask xs = Raise IndexError.
Proof.
  revert xs. induction mask as [|b mask IH]; intros [|x xs] Hlen;
    simpl in *; try congruence.
  rewrite IH by lia. reflexivity.
Qed.

Lemma samples_of_domain_length (d : Z) (dom : list Z) : forall xs : list A,
  length xs = length dom ->
  length (samples_of_domain d xs dom) = length (filter (fun v => v = d) dom).
Proof.
  induction dom as [|v dom IH]; intros [|x xs] Hlen; simpl in Hlen; try lia.
  - reflexivity.
  - unfold samples_of_domain in *. cbn [zip zip_with].
    rewrite !filter_cons. cbn [snd].
    destruct (decide (v = d)); cbn; rewrite IH by lia; reflexivity.
Qed.

Lemma samples_of_domain_absent (d : Z) (dom : list Z) (xs : list A) :
  d ∉ dom -> samples_of_domain d xs dom = [].
Proof.
  revert xs. induction dom as [|v dom IH]; intros [|x xs] Hd; try reflexivity.
  unfold samples_of_domain in *. cbn [zip zip_with].
  rewrite filter_cons. cbn [snd].
  rewrite decide_False by (intros ->; apply Hd; left).
  apply IH. intros Hin. apply Hd. right. exact Hin.
Qed.

Lemma samples_of_domain_map {B} (f : A -> B) (d : Z) (dom : list Z) :
  forall xs : list A,
  samples_of_domain d (map f xs) dom = map f (samples_of_domain d xs dom).
Proof.
  induction dom as [|v dom IH]; intros [|x xs]; try reflexivity.
  unfold samples_of_domain in *. cbn [map zip zip_with].
  rewrite !filter_cons. cbn [snd].
  destruct (decide (v = d)); cbn; rewrite <- IH; reflexivity.
Qed.

End Select.

Lemma broadcast_length op rs v : length (broadcast op rs v) = length rs.
Proof. unfold broadcast. apply length_map. Qed.

Lemma normalized_length (a : ndarray) : length (rows (normalized a)) = length (rows a).
Proof. cbn. rewrite !broadcast_length. reflexivity. Qed.

Lemma normalized_is_normalized_with (a : ndarray) :
  normalized a = normalized_with (mean0 (dt a) (rows a)) (std0 (dt a) (rows a)) a.
Proof. reflexivity. Qed.

Lemma astype_float32_len (a : ndarray) : len (astype_float32 a) = len a.
Proof.
  unfold astype_float32, len. destruct (dt a); [reflexivity|].
  cbn. apply length_map.
Qed.

Lemma astype_float32_dt (a : ndarray) : dt (astype_float32 a) = float32.
Proof. unfold astype_float32. destruct (dt a) eqn:E; [exact E | reflexivity]. Qed.

Lemma astype_float32_idem (a : ndarray) :
  astype_float32 (astype_float32 a) = astype_float32 a.
Proof.
  unfold astype_float32 at 1. rewrite astype_float32_dt. reflexivity.
Qed.

Lemma to_int64_range (z : Z) : - 2 ^ 63 <= to_int64 z < 2 ^ 63.
Proof.
  unfold to_int64.
  pose proof (Z.mod_pos_bound (z + 2 ^ 63) (2 ^ 64) ltac:(lia)). lia.
Qed.

Lemma to_int64_small (z : Z) : - 2 ^ 63 <= z < 2 ^ 63 -> to_int64 z = z.
Proof.
  intros Hz. unfold to_int64. rewrite Z.mod_small by lia. lia.
Qed.

Lemma astype_int64_idem (l : list Z) : astype_int64 (astype_int64 l) = astype_int64 l.
Proof.
  unfold astype_int64. rewrite map_map. apply map_ext.
  intros z. apply to_int64_small, to_int64_range.
Qed.

(** The globally normalized partition is the partition the loader cuts out
    of the normalized array: selecting rows commutes with a row-wise
    normalization. *)
Lemma partition_data_global (d : nat) (p : pickle) :
  partition_data d p = globally_normalized d p.
Proof.
  unfold partition_data, globally_normalized, normalized_with, domain_rows.
  cbn [dt rows normalized]. unfold broadcast.
  rewrite <- !samples_of_domain_map. reflexivity.
Qed.

Lemma bind_lift {S A B} (a : A) (k : A -> M S B) (s : S) :
  bind (lift (Ok a)) k s = k a s.
Proof. reflexivity. Qed.

Lemma bind_modify {S B} (f : S -> S) (k : unit -> M S B) (s : S) :
  bind (modify f) k s = k tt (f s).
Proof. reflexivity. Qed.

Lemma bind_getattr {D A B} (f : obj D -> option A) (k : A -> M (obj D) B)
    (o : obj D) (v : A) :
  f o = Some v -> bind (getattr f) k o = k v o.
Proof. intros Hf. unfold bind, getattr. rewrite Hf. reflexivity. Qed.

Section LoaderRun.
Context {D : Type}.
Variable dataset_transform : ndarray -> list Z -> result D.
Variable p : pickle.
Hypothesis Hwf : well_formed p.

Lemma loop_body_run (d : nat) (r : D) (o : obj D) (acc : list D) :
  data_pkl o = Some (set_data (normalized (data p)) p) ->
  datasets o = Some acc ->
  dataset_transform (partition_data d p) (partition_labels d p) = Ok r ->
  loop_body dataset_transform d o = (set_datasets (acc ++ [r]) o, Ok tt).
Proof.
  intros Hpkl Hds Htr. destruct Hwf as [Hrows Hlab].
  unfold loop_body.
  rewrite (bind_getattr _ _ _ _ Hpkl). cbn [data domain label set_data].
  rewrite (bind_getattr _ _ _ _ Hpkl). cbn [data domain label set_data].
  unfold select_rows.
  rewrite select_eq_scalar by (rewrite normalized_length; exact Hrows).
  rewrite bind_lift.
  rewrite (bind_getattr _ _ _ _ Hpkl). cbn [data domain label set_data].
  rewrite select_eq_scalar by exact Hlab.
  rewrite bind_lift.
  fold (partition_labels d p).
  change (astype_float32 _) with (partition_data d p).
  rewrite Htr, bind_lift.
  rewrite (bind_getattr _ _ _ _ Hds). reflexivity.
Qed.

Lemma loop_run (F : nat -> D) : forall (n a : nat) (acc : list D) (o : obj D),
  data_pkl o = Some (set_data (normalized (data p)) p) ->
  datasets o = Some acc ->
  (forall d, (a <= d < a + n)%nat ->
     dataset_transform (partition_data d p) (partition_labels d p) = Ok (F d)) ->
  for_each (seq a n) (loop_body dataset_transform) o
  = (set_datasets (acc ++ map F (seq a n)) o, Ok tt).
Proof.
  induction n as [|n IH]; intros a acc o Hpkl Hds Htr.
  - cbn. rewrite app_nil_r. destruct o; cbn in *; subst; reflexivity.
  - cbn [seq for_each map]. unfold bind at 1.
    rewrite (loop_body_run a (F a) o acc Hpkl Hds) by (apply Htr; lia).
    rewrite (IH (S a) (acc ++ [F a])); [| exact Hpkl | reflexivity |].
    + rewrite <- app_assoc. reflexivity.
    + intros d Hd. apply Htr. lia.
Qed.

Lemma init_run (fs : filesystem) (root : string) (envs shape : list Z)
    (classes : Z) (F : nat -> D) (o0 : obj D) :
  fs root = Some p ->
  (forall d, (d < length envs)%nat ->
     dataset_transform (partition_data d p) (partition_labels d p) = Ok (F d)) ->
  Sine.__init__ fs (Some root) envs dataset_transform shape classes o0
  = (loaded envs shape classes p (map F (seq 0 (length envs))), Ok tt).
Proof.
  intros Hfs Htr.
  unfold Sine.__init__, _load_cache, range.
  rewrite !bind_modify, Hfs. unfold bind, modify, getattr, ret.
  cbn -[for_each normalized].
  rewrite (loop_run F (length envs) 0%nat []); [reflexivity | reflexivity | reflexivity |].
  intros d Hd. apply Htr. lia.
Qed.

End LoaderRun.

(** The first pass of the loop on a cache that is not well formed. *)
Lemma loop_body_malformed {D} (tr : ndarray -> list Z -> result D)
    (q : pickle) (d : nat) (o : obj D) :
  data_pkl o = Some q ->
  ~ (length (rows (data q)) = length (domain q)
     /\ length (label q) = length (domain q)) ->
  loop_body tr d o = (o, Raise IndexError).
Proof.
  intros Hpkl Hbad. unfold loop_body.
  rewrite (bind_getattr _ _ _ _ Hpkl), (bind_getattr _ _ _ _ Hpkl).
  unfold select_rows.
  destruct (decide (length (rows (data q)) = length (domain q))) as [Hrows | Hrows].
  - rewrite select_eq_scalar by exact Hrows. rewrite bind_lift.
    rewrite (bind_getattr _ _ _ _ Hpkl).
    rewrite select_length_mismatch; [reflexivity |].
    unfold eq_scalar. rewrite length_map. intros Heq. apply Hbad.
    split; [exact Hrows | symmetry; exact Heq].
  - rewrite select_length_mismatch; [reflexivity |].
    unfold eq_scalar. rewrite length_map. intros Heq. apply Hrows.
    symmetry. exact Heq.
Qed.

Lemma loop_body_transform_raises {D} (tr : ndarray -> list Z -> result D)
    (p : pickle) (d : nat) (e : exn) (o : obj D) :
  well_formed p ->
  data_pkl o = Some (set_data (normalized (data p)) p) ->
  tr (partition_data d p) (partition_labels d p) = Raise e ->
  loop_body tr d o = (o, Raise e).
Proof.
  intros [Hrows Hlab] Hpkl Htr. unfold loop_body.
  rewrite (bind_getattr _ _ _ _ Hpkl). cbn [data domain label set_data].
  rewrite (bind_getattr _ _ _ _ Hpkl). cbn [data domain label set_data].
  unfold select_rows.
  rewrite select_eq_scalar by (rewrite normalized_length; exact Hrows).
  rewrite bind_lift.
  rewrite (bind_getattr _ _ _ _ Hpkl). cbn [data domain label set_data].
  rewrite select_eq_scalar by exact Hlab.
  rewrite bind_lift.
  fold (partition_labels d p).
  change (astype_float32 _) with (partition_data d p).
  rewrite Htr. reflexivity.
Qed.

(** The constructor up to its loop: the attributes are set, the cache is
    loaded and normalized, [datasets] is the empty list. *)
Lemma init_loop {D} (tr : ndarray -> list Z -> result D) (fs : filesystem)
    (root : string) (p : pickle) (envs shape : list Z) (classes : Z)
    (o0 : obj D) :
  fs root = Some p ->
  Sine.__init__ fs (Some root) envs tr shape classes o0
  = for_each (seq 0 (length envs)) (loop_body tr)
      (loaded envs shape classes p []).
Proof.
  intros Hfs. unfold Sine.__init__, _load_cache, range.
  rewrite !bind_modify, Hfs. unfold bind, modify, getattr, ret.
  cbn -[for_each normalized loop_body]. reflexivity.
Qed.

(** Whatever the outcome of the loop, the datasets it has appended are,
    in order, the results of the transform on the partitions of its
    passes; when it returns there is one for every pass. *)
Lemma loop_datasets {D} (tr : ndarray -> list Z -> result D) (p : pickle) :
  forall (n a : nat) (acc : list D) (o o' : obj D) (res : result unit),
  data_pkl o = Some (set_data (normalized (data p)) p) ->
  datasets o = Some acc ->
  for_each (seq a n) (loop_body tr) o = (o', res) ->
  exists rs,
    datasets o' = Some (acc ++ rs)
    /\ (res = Ok tt -> length rs = n)
    /\ forall i r, rs !! i = Some r ->
         tr (partition_data (a + i) p) (partition_labels (a + i) p) = Ok r.
Proof.
  induction n as [|n IH]; intros a acc o o' res Hpkl Hds Hrun.
  - cbn in Hrun. injection Hrun as <- <-. exists [].
    rewrite app_nil_r. split; [exact Hds | split; [reflexivity |]].
    intros i r Hi. discriminate.
  - cbn [seq for_each] in Hrun. unfold bind at 1 in Hrun.
    destruct (decide (length (rows (data p)) = length (domain p)
                      /\ length (label p) = length (domain p))) as [Hwf | Hbad].
    + destruct (tr (partition_data a p) (partition_labels a p)) as [r|e] eqn:Htr.
      * rewrite (loop_body_run tr p Hwf a r o acc Hpkl Hds Htr) in Hrun.
        destruct (IH (S a) (acc ++ [r]) (set_datasets (acc ++ [r]) o) o' res
                    Hpkl eq_refl Hrun) as (rs & Hds' & Hlen & Hall).
        exists (r :: rs). split; [| split].
        -- rewrite Hds', <- app_assoc. reflexivity.
        -- intros Hres. cbn. rewrite (Hlen Hres). reflexivity.
        -- intros [|i] r' Hi.
           ++ injection Hi as <-. rewrite Nat.add_0_r. exact Htr.
           ++ replace (a + S i)%nat with (S a + i)%nat by lia.
              apply Hall. exact Hi.
      * rewrite (loop_body_transform_raises tr p a e o Hwf Hpkl Htr) in Hrun.
        injection Hrun as <- <-. exists [].
        rewrite app_nil_r. split; [exact Hds | split; [discriminate |]].
        intros i r Hi. discriminate.
    + rewrite (loop_body_malformed tr (set_data (normalized (data p)) p) a o
                 Hpkl) in Hrun.
      * injection Hrun as <- <-. exists [].
        rewrite app_nil_r. split; [exact Hds | split; [discriminate |]].
        intros i r Hi. discriminate.
      * cbn [data label domain set_data]. rewrite normalized_length. exact Hbad.
Qed.

(** The loop returns when the transform accepts every partition. *)
Lemma loop_returns {D} (tr : ndarray -> list Z -> result D) (p : pickle) :
  well_formed p ->
  forall (n a : nat) (acc : list D) (o : obj D),
  data_pkl o = Some (set_data (normalized (data p)) p) ->
  datasets o = Some acc ->
  (forall d, (a <= d < a + n)%nat ->
     is_ok (tr (partition_data d p) (partition_labels d p)) = true) ->
  exists o', for_each (seq a n) (loop_body tr) o = (o', Ok tt).
Proof.
  intros Hwf. induction n as [|n IH]; intros a acc o Hpkl Hds Hok.
  - exists o. reflexivity.
  - cbn [seq for_each]. unfold bind at 1.
    destruct (tr (partition_data a p) (partition_labels a p)) as [r|e] eqn:Htr.
    + rewrite (loop_body_run tr p Hwf a r o acc Hpkl Hds Htr).
      apply (IH (S a) (acc ++ [r])); [exact Hpkl | reflexivity |].
      intros d Hd. apply Hok. lia.
    + specialize (Hok a ltac:(lia)). rewrite Htr in Hok. discriminate.
Qed.

(** On a cache that is not well formed the first pass raises. *)
Lemma init_malformed {D} (tr : ndarray -> list Z -> result D) (fs : filesystem)
    (root : string) (p : pickle) (envs shape : list Z) (classes : Z)
    (o0 : obj D) :
  fs root = Some p ->
  ~ well_formed p ->
  envs <> [] ->
  Sine.__init__ fs (Some root) envs tr shape classes o0
  = (loaded envs shape classes p [], Raise IndexError).
Proof.
  intros Hfs Hbad Henvs. rewrite (init_loop tr fs root p envs shape classes o0 Hfs).
  destruct envs as [|e envs]; [congruence |].
  cbn [length seq for_each]. unfold bind at 1.
  erewrite loop_body_malformed; [reflexivity | reflexivity |].
  cbn [data label domain set_data]. rewrite normalized_length. exact Hbad.
Qed.

(** The two readings of the casts agree. *)
Lemma to_int64_as_int64 (z : Z) : to_int64 z = as_int64 z.
Proof.
  unfold to_int64, as_int64. rewrite Z.land_ones by lia.
  change (2 ^ 64) with 18446744073709551616.
  change (2 ^ 63) with 9223372036854775808.
  pose proof (Z.mod_pos_bound z 18446744073709551616 ltac:(lia)) as Hu.
  pose proof (Z.div_mod z 18446744073709551616 ltac:(lia)) as Hz.
  destruct (Z.ltb_spec (z mod 18446744073709551616) 9223372036854775808)
    as [Hlt | Hge].
  - replace (z + 9223372036854775808)
      with (z mod 18446744073709551616 + 9223372036854775808
            + (z / 18446744073709551616) * 18446744073709551616) by lia.
    rewrite Z.mod_add by lia. rewrite Z.mod_small by lia. lia.
  - replace (z + 9223372036854775808)
      with (z mod 18446744073709551616 - 9223372036854775808
            + (z / 18446744073709551616 + 1) * 18446744073709551616) by lia.
    rewrite Z.mod_add by lia. rewrite Z.mod_small by lia. lia.
Qed.

Lemma partition_labels_claimed (d : nat) (p : pickle) :
  partition_labels d p = claimed_labels d p.
Proof.
  unfold partition_labels, claimed_labels, astype_int64.
  apply map_ext. intros z. apply to_int64_as_int64.
Qed.

Lemma partition_data_claimed (d : nat) (p : pickle) :
  partition_data d p = claimed_data d p.
Proof.
  unfold partition_data, claimed_data, astype_float32, standardized.
  cbn [dt rows normalized]. unfold broadcast.
  rewrite map_map, <- !samples_of_domain_map.
  destruct (dt (data p)) eqn:Edt; cbn [dt rows].
  - assert (Hrows :
      map (fun r : list spec_float =>
             map (as_float32 float32)
               (zip_with (fun v s : spec_float => div float32 v s)
                  (zip_with (fun x m : spec_float => sub float32 x m) r
                     (mean0 float32 (rows (data p))))
                  (std0 float32 (rows (data p))))) (rows (data p))
      = map (fun x : list spec_float =>
               zip_with (div float32)
                 (zip_with (sub float32) x (mean0 float32 (rows (data p))))
                 (std0 float32 (rows (data p)))) (rows (data p))).
    { apply map_ext. intros r. apply map_id. }
    rewrite Hrows. reflexivity.
  - rewrite map_map. reflexivity.
Qed.

(** ** ToySine *)

Lemma partition_lengths (d : nat) (p : pickle) :
  well_formed p ->
  len (partition_data d p) = length (partition_labels d p).
Proof.
  intros [Hrows Hlab]. unfold partition_data, partition_labels.
  rewrite astype_float32_len. unfold len, astype_int64. cbn [rows].
  rewrite length_map, !samples_of_domain_length;
    [reflexivity | exact Hlab | rewrite normalized_length; exact Hrows].
Qed.

Lemma process_dataset_partition (d : nat) (p : pickle) :
  well_formed p ->
  ToySine.process_dataset (partition_data d p) (partition_labels d p)
  = Ok {| tensor_x := partition_data d p; tensor_y := partition_labels d p |}.
Proof.
  intros Hwf. unfold ToySine.process_dataset, ToySine.float, ToySine.long.
  unfold partition_data at 1 2. rewrite astype_float32_idem.
  fold (partition_data d p).
  unfold partition_labels at 1 2. rewrite astype_int64_idem.
  fold (partition_labels d p).
  rewrite (partition_lengths d p Hwf), Nat.eqb_refl. reflexivity.
Qed.

Lemma ToySine_run (fs : filesystem) (root : string) (p : pickle)
    (shape : list Z) (classes : Z) (o0 : obj TensorDataset) :
  fs root = Some p ->
  well_formed p ->
  ToySine.__init__ fs (Some root) shape classes o0
  = (loaded ToySine.environments shape classes p (toy_datasets p), Ok tt).
Proof.
  intros Hfs Hwf. unfold ToySine.__init__.
  rewrite (init_run ToySine.process_dataset p Hwf fs root ToySine.environments
             shape classes
             (fun d => {| tensor_x := partition_data d p;
                          tensor_y := partition_labels d p |}) o0 Hfs).
  - reflexivity.
  - intros d _. apply process_dataset_partition, Hwf.
Qed.

Lemma toy_datasets_lookup (p : pickle) (d : nat) :
  (d < 24)%nat ->
  toy_datasets p !! d
  = Some {| tensor_x := partition_data d p; tensor_y := partition_labels d p |}.
Proof.
  intros Hd. unfold toy_datasets. rewrite list_lookup_fmap.
  rewrite lookup_seq_lt by exact Hd. reflexivity.
Qed.

(** Counting: over the domain indices below [n], the samples of each
    index add up to the samples whose index is below [n]. *)
Lemma count_by_domain (dom : list Z) : forall n : nat,
  sum_list_with (fun d => length (filter (fun v => v = Z.of_nat d) dom)) (seq 0 n)
  = length (filter (fun v => 0 <= v < Z.of_nat n) dom).
Proof.
  induction n as [|n IH].
  - cbn. symmetry. apply length_zero_iff_nil.
    induction dom as [|v dom IHd]; [reflexivity|].
    rewrite filter_cons, decide_False by lia. exact IHd.
  - rewrite seq_S, sum_list_with_app, IH. cbn [sum_list_with Nat.add].
    rewrite Nat.add_0_r.
    clear IH. induction dom as [|v dom IHd]; [reflexivity|].
    rewrite !filter_cons.
    destruct (decide (0 <= v < Z.of_nat n)), (decide (v = Z.of_nat n)),
      (decide (0 <= v < Z.of_nat (S n))); cbn [length]; lia.
Qed.

Lemma toy_datasets_total (p : pickle) :
  well_formed p ->
  total_samples (toy_datasets p)
  = length (filter (fun v => 0 <= v < 24) (domain p)).
Proof.
  intros [Hrows Hlab]. unfold total_samples, toy_datasets.
  transitivity
    (sum_list_with
       (fun d => length (filter (fun v => v = Z.of_nat d) (domain p)))
       (seq 0 24)); [| exact (count_by_domain (domain p) 24)].
  unfold ToySine.num_domains.
  generalize (seq 0 24). intros l. induction l as [|d l IH]; [reflexivity|].
  cbn [map sum_list_with tensor_y]. rewrite IH. f_equal.
  unfold partition_labels, astype_int64.
  rewrite length_map. apply samples_of_domain_length, Hlab.
Qed.

(** ** Division by a zero standard deviation *)






(* ===================================================================== *)
(** * The loader: main results                                            *)
(* ===================================================================== *)

(** C1, as the code has it: normalization is global.  The mean and the
    standard deviation are computed once, over all samples of the cache,
    and stored back into the cache; the data handed to
    [dataset_transform] for domain [d] are the samples of domain [d]
    normalized by those statistics of the whole cache.  Whenever the
    transform accepts these partitions the constructor returns, and the
    d-th dataset is what the transform made of the d-th partition. *)
Theorem C1_normalization_is_global {D : Type} (fs : filesystem) (root : string)
    (p : pickle) (envs shape : list Z) (classes : Z)
    (dataset_transform : ndarray -> list Z -> result D) (F : nat -> D)
    (o0 : obj D) :
  fs root = Some p ->
  well_formed p ->
  (forall d, (d < length envs)%nat ->
     dataset_transform (globally_normalized d p) (partition_labels d p)
     = Ok (F d)) ->
  exists o ds,
    Sine.__init__ fs (Some root) envs dataset_transform shape classes o0
    = (o, Ok tt)
    /\ data_pkl o
       = Some (set_data
                 (normalized_with (mean0 (dt (data p)) (rows (data p)))
                                  (std0 (dt (data p)) (rows (data p)))
                                  (data p)) p)
    /\ datasets o = Some ds
    /\ forall d, (d < length envs)%nat -> ds !! d = Some (F d).
Proof.
  intros Hfs Hwf Htr.
  exists (loaded envs shape classes p (map F (seq 0 (length envs)))).
  exists (map F (seq 0 (length envs))).
  split; [| split; [reflexivity | split; [reflexivity |]]].
  - apply (init_run dataset_transform p Hwf fs root envs shape classes F o0 Hfs).
    intros d Hd. rewrite partition_data_global. apply Htr, Hd.
  - intros d Hd. rewrite list_lookup_fmap, lookup_seq_lt by exact Hd.
    reflexivity.
Qed.

Lemma C1_normalization_is_global_witness :
  exists o ds,
    Sine.__init__ (one_file "toy.pkl" two_domains) (Some "toy.pkl"%string)
      ToySine.environments ToySine.process_dataset [1; 1] 2 new_obj
    = (o, Ok tt)
    /\ data_pkl o
       = Some (set_data
                 (normalized_with
                    (mean0 (dt (data two_domains)) (rows (data two_domains)))
                    (std0 (dt (data two_domains)) (rows (data two_domains)))
                    (data two_domains)) two_domains)
    /\ datasets o = Some ds
    /\ forall d, (d < length ToySine.environments)%nat ->
         ds !! d = Some {| tensor_x := globally_normalized d two_domains;
                           tensor_y := partition_labels d two_domains |}.
Proof.
  apply (C1_normalization_is_global (one_file "toy.pkl" two_domains) "toy.pkl"
           two_domains ToySine.environments [1; 1] 2 ToySine.process_dataset
           (fun d => {| tensor_x := globally_normalized d two_domains;
                        tensor_y := partition_labels d two_domains |})
           new_obj).
  - reflexivity.
  - split; reflexivity.
  - intros d _. rewrite <- partition_data_global.
    apply process_dataset_partition. split; reflexivity.
Defined.

(** C1 as stated fails: on a cache of four samples 0, 2 (domain 0) and
    10, 12 (domain 1) the loader's dataset for domain 0 holds
    (0 - 6)/sqrt(26) and (2 - 6)/sqrt(26), where normalizing domain 0 by
    its own mean 1 and standard deviation 1 would give -1 and 1. *)
Lemma C1_counterexample :
  exists o td,
    ToySine.__init__ (one_file "toy.pkl" two_domains) (Some "toy.pkl"%string)
      [1; 1] 2 new_obj = (o, Ok tt)
    /\ (datasets o ≫= (fun ds => ds !! 0%nat)) = Some td
    /\ tensor_x td
       = {| dt := float32;
            rows := [[S754_finite true 9870848 (-23)];
                     [S754_finite true 13161131 (-24)]] |}
    /\ per_domain_normalized 0 two_domains
       = {| dt := float32;
            rows := [[S754_finite true 8388608 (-23)];
                     [S754_finite false 8388608 (-23)]] |}
    /\ tensor_x td <> per_domain_normalized 0 two_domains
    /\ mean0 float64 (rows (data two_domains)) = [f64 6]
    /\ mean0 float64 (rows (domain_rows 0 two_domains)) = [f64 1]
    /\ ~ (forall (p : pickle) (d : nat),
            well_formed p -> partition_data d p = per_domain_normalized d p).
Proof.
  eexists. eexists.
  split; [apply (ToySine_run _ "toy.pkl" two_domains); [reflexivity | split; reflexivity] |].
  split; [vm_compute; reflexivity |].
  split; [vm_compute; reflexivity |].
  split; [vm_compute; reflexivity |].
  split; [vm_compute; discriminate |].
  split; [vm_compute; reflexivity |].
  split; [vm_compute; reflexivity |].
  intros Hall.
  specialize (Hall two_domains 0%nat (conj eq_refl eq_refl)).
  vm_compute in Hall. discriminate.
Qed.

(** C2: the partition by domain.  For every cached pickle and whatever
    the outcome of the constructor, every dataset it has stored in
    [self.datasets] is, at position [d], what [dataset_transform]
    returned on exactly the samples whose ['domain'] entry equals [d],
    in their original order: the data rows [(x - mean) / std], with the
    mean and standard deviation of the whole cache, cast to float32, and
    the labels cast to int64.  When the constructor returns there is one
    dataset for every environment.  It returns when the three arrays of
    the cache have the same number of samples and the transform accepts
    each of these partitions; when the arrays differ in length and there
    is an environment, it raises [IndexError] and builds no dataset. *)
Theorem C2_partition_by_domain {D : Type} (fs : filesystem) (root : string)
    (p : pickle) (envs shape : list Z) (classes : Z)
    (dataset_transform : ndarray -> list Z -> result D) (o0 : obj D) :
  fs root = Some p ->
  (forall o res,
     Sine.__init__ fs (Some root) envs dataset_transform shape classes o0
     = (o, res) ->
     exists ds,
       datasets o = Some ds
       /\ (res = Ok tt -> length ds = length envs)
       /\ forall d r, ds !! d = Some r ->
            dataset_transform (claimed_data d p) (claimed_labels d p) = Ok r)
  /\ (well_formed p ->
      (forall d, (d < length envs)%nat ->
         is_ok (dataset_transform (claimed_data d p) (claimed_labels d p))
         = true) ->
      exists o,
        Sine.__init__ fs (Some root) envs dataset_transform shape classes o0
        = (o, Ok tt))
  /\ (~ well_formed p -> envs <> [] ->
      exists o,
        Sine.__init__ fs (Some root) envs dataset_transform shape classes o0
        = (o, Raise IndexError)
        /\ datasets o = Some []).
Proof.
  intros Hfs.
  rewrite (init_loop dataset_transform fs root p envs shape classes o0 Hfs).
  split; [| split].
  - intros o res Hrun.
    destruct (loop_datasets dataset_transform p (length envs) 0%nat []
                (loaded envs shape classes p []) o res eq_refl eq_refl Hrun)
      as (rs & Hds & Hlen & Hall).
    exists rs. split; [exact Hds | split; [exact Hlen |]].
    intros d r Hr.
    rewrite <- partition_data_claimed, <- partition_labels_claimed.
    exact (Hall d r Hr).
  - intros Hwf Hok.
    apply (loop_returns dataset_transform p Hwf (length envs) 0%nat []);
      [reflexivity | reflexivity |].
    intros d Hd. rewrite partition_data_claimed, partition_labels_claimed.
    apply Hok. lia.
  - intros Hbad Henvs.
    rewrite <- (init_loop dataset_transform fs root p envs shape classes o0 Hfs).
    rewrite (init_malformed dataset_transform fs root p envs shape classes o0
               Hfs Hbad Henvs).
    eexists. split; reflexivity.
Qed.

Lemma C2_partition_by_domain_witness :
  exists o ds,
    Sine.__init__ (one_file "toy.pkl" two_domains) (Some "toy.pkl"%string)
      ToySine.environments ToySine.process_dataset [1; 1] 2 new_obj
    = (o, Ok tt)
    /\ datasets o = Some ds
    /\ length ds = length ToySine.environments
    /\ (forall d r, ds !! d = Some r ->
          ToySine.process_dataset (claimed_data d two_domains)
            (claimed_labels d two_domains) = Ok r)
    /\ ds !! 1%nat
       = Some {| tensor_x :=
                   {| dt := float32;
                      rows := [[S754_finite false 13161131 (-24)];
                               [S754_finite false 9870848 (-23)]] |};
                 tensor_y := [0; 1] |}.
Proof.
  destruct (C2_partition_by_domain (one_file "toy.pkl" two_domains) "toy.pkl"
              two_domains ToySine.environments [1; 1] 2 ToySine.process_dataset
              new_obj eq_refl) as (Hbuilt & Hreturns & _).
  destruct Hreturns as [o Hrun].
  { split; reflexivity. }
  { intros d _. rewrite <- partition_data_claimed, <- partition_labels_claimed.
    rewrite (process_dataset_partition d two_domains); [reflexivity |].
    split; reflexivity. }
  destruct (Hbuilt o (Ok tt) Hrun) as (ds & Hds & Hlen & Hall).
  specialize (Hlen eq_refl).
  exists o, ds.
  split; [exact Hrun |]. split; [exact Hds |]. split; [exact Hlen |].
  split; [exact Hall |].
  destruct (lookup_lt_is_Some_2 ds 1%nat) as [r Hr]; [rewrite Hlen; cbn; lia |].
  rewrite Hr. f_equal. pose proof (Hall 1%nat r Hr) as Htr.
  vm_compute in Htr. injection Htr as <-. reflexivity.
Defined.

(** C7: the loader reads a cache and generates nothing.  With [root]
    [None] the constructor raises [ValueError]; with a path that does not
    exist [_load_cache] raises [NotImplementedError] and so does the
    constructor.  In both cases [self.datasets] is not assigned -- it is
    what it was before the call, unset on a new object -- and the outcome
    does not depend on [dataset_transform], which is never called. *)
Theorem C7_errors_without_cache {D : Type} (fs : filesystem)
    (envs shape : list Z) (classes : Z)
    (dataset_transform : ndarray -> list Z -> result D) (o0 : obj D) :
  (exists o,
     Sine.__init__ fs None envs dataset_transform shape classes o0
     = (o, Raise (ValueError "Data directory not specified!"))
     /\ datasets o = datasets o0
     /\ forall other : ndarray -> list Z -> result D,
          Sine.__init__ fs None envs other shape classes o0
          = (o, Raise (ValueError "Data directory not specified!")))
  /\ (forall root : string, fs root = None ->
        (forall o1 : obj D, _load_cache fs root o1 = (o1, Raise NotImplementedError))
        /\ exists o,
             Sine.__init__ fs (Some root) envs dataset_transform shape classes o0
             = (o, Raise NotImplementedError)
             /\ datasets o = datasets o0
             /\ forall other : ndarray -> list Z -> result D,
                  Sine.__init__ fs (Some root) envs other shape classes o0
                  = (o, Raise NotImplementedError))
  /\ datasets (new_obj (D := D)) = None.
Proof.
  split; [| split; [| reflexivity]].
  - eexists. split; [reflexivity | split; [reflexivity | intros; reflexivity]].
  - intros root Hfs. split.
    + intros o1. unfold _load_cache. rewrite Hfs. reflexivity.
    + unfold Sine.__init__, _load_cache. rewrite Hfs.
      eexists. split; [reflexivity | split; [reflexivity | intros; reflexivity]].
Qed.

Lemma C7_errors_without_cache_witness :
  exists o,
    ToySine.__init__ (one_file "toy.pkl" two_domains) (Some "other.pkl"%string)
      [1; 1] 2 new_obj = (o, Raise NotImplementedError)
    /\ datasets o = None.
Proof.
  destruct (C7_errors_without_cache (one_file "toy.pkl" two_domains)
              ToySine.environments [1; 1] 2 ToySine.process_dataset new_obj)
    as (_ & Hmissing & _).
  destruct (Hmissing "other.pkl"%string eq_refl) as (_ & o & Hrun & Hds & _).
  exists o. split; [exact Hrun | exact Hds].
Defined.

(** C9, as the code has it: on every cache whose three arrays have the
    same number of samples [ToySine] builds exactly 24 datasets, whatever
    the domain values are.  Dataset [d] holds the samples of domain [d]
    -- the rows [(x - mean) / std] as float32 and the labels as int64;
    the datasets together hold as many samples as the cache has with a
    domain in 0..23, so the others are dropped; and a domain index that
    no sample carries gets an empty dataset. *)
Theorem C9_ToySine_24_datasets (fs : filesystem) (root : string) (p : pickle)
    (shape : list Z) (classes : Z) (o0 : obj TensorDataset) :
  fs root = Some p ->
  well_formed p ->
  exists o ds,
    ToySine.__init__ fs (Some root) shape classes o0 = (o, Ok tt)
    /\ datasets o = Some ds
    /\ length ds = 24%nat
    /\ (forall d, (d < 24)%nat ->
          ds !! d = Some {| tensor_x := claimed_data d p;
                            tensor_y := claimed_labels d p |})
    /\ total_samples ds = length (filter (fun v => 0 <= v < 24) (domain p))
    /\ (forall d, (d < 24)%nat -> Z.of_nat d ∉ domain p ->
          ds !! d = Some {| tensor_x := {| dt := float32; rows := [] |};
                            tensor_y := [] |}).
Proof.
  intros Hfs Hwf.
  exists (loaded ToySine.environments shape classes p (toy_datasets p)).
  exists (toy_datasets p).
  split; [apply ToySine_run; assumption |].
  split; [reflexivity |].
  split; [unfold toy_datasets; rewrite length_map, length_seq; reflexivity |].
  split.
  { intros d Hd. rewrite <- partition_data_claimed, <- partition_labels_claimed.
    apply toy_datasets_lookup, Hd. }
  split; [apply toy_datasets_total, Hwf |].
  intros d Hd Habs. rewrite toy_datasets_lookup by exact Hd.
  unfold partition_data, partition_labels.
  rewrite !samples_of_domain_absent by exact Habs.
  unfold astype_float32. cbn [dt rows]. destruct (dt (data p)); reflexivity.
Qed.

Lemma C9_ToySine_24_datasets_witness :
  exists o ds,
    ToySine.__init__ (one_file "toy.pkl" constant_five) (Some "toy.pkl"%string)
      [1; 1] 2 new_obj = (o, Ok tt)
    /\ datasets o = Some ds
    /\ length ds = 24%nat
    /\ (forall d, (d < 24)%nat ->
          ds !! d = Some {| tensor_x := claimed_data d constant_five;
                            tensor_y := claimed_labels d constant_five |})
    /\ total_samples ds
       = length (filter (fun v => 0 <= v < 24) (domain constant_five))
    /\ (forall d, (d < 24)%nat -> Z.of_nat d ∉ domain constant_five ->
          ds !! d = Some {| tensor_x := {| dt := float32; rows := [] |};
                            tensor_y := [] |}).
Proof.
  apply (C9_ToySine_24_datasets (one_file "toy.pkl" constant_five) "toy.pkl"
           constant_five [1; 1] 2 new_obj).
  - reflexivity.
  - split; reflexivity.
Defined.

(** C9 as stated fails: [ToySine] does not build 24 datasets whatever
    the cache holds.  On a cache with two samples whose ['domain'] array
    has one entry, the first boolean-mask selection raises [IndexError]
    and [self.datasets] is left empty. *)
Lemma C9_counterexample :
  (exists o,
     ToySine.__init__ (one_file "toy.pkl" short_domain) (Some "toy.pkl"%string)
       [1; 1] 2 new_obj = (o, Raise IndexError)
     /\ datasets o = Some [])
  /\ ~ (forall p : pickle,
          exists o ds,
            ToySine.__init__ (one_file "toy.pkl" p) (Some "toy.pkl"%string)
              [1; 1] 2 new_obj = (o, Ok tt)
            /\ datasets o = Some ds
            /\ length ds = 24%nat).
Proof.
  assert (Hrun : exists o,
            ToySine.__init__ (one_file "toy.pkl" short_domain)
              (Some "toy.pkl"%string) [1; 1] 2 new_obj = (o, Raise IndexError)
            /\ datasets o = Some []).
  { eexists. split; vm_compute; reflexivity. }
  split; [exact Hrun |].
  intros Hall. destruct (Hall short_domain) as (o & ds & Hok & _).
  destruct Hrun as (o' & Hraise & _). rewrite Hraise in Hok. discriminate.
Qed.




(** A constant column whose mean is computed exactly: three samples 5
    have mean 5 and standard deviation 0, and the normalized column is
    0/0, NaN, in every row. *)
Example constant_five_is_nan :
  std0 float64 (rows (data constant_five)) = [S754_zero false]
  /\ rows (normalized (data constant_five))
     = [[S754_nan]; [S754_nan]; [S754_nan]].
Proof. split; vm_compute; reflexivity. Qed.

(** With eight samples the column is summed pairwise: eight times 0.1
    add up to 0.8 without a rounding error, the mean is 0.1 again, the
    standard deviation is 0 and the normalized column is NaN. *)
Example eight_tenths_are_nan :
  mean0 float64 (replicate 8 [tenth]) = [tenth]
  /\ std0 float64 (replicate 8 [tenth]) = [S754_zero false]
  /\ rows (normalized {| dt := float64; rows := replicate 8 [tenth] |})
     = replicate 8 [S754_nan].
Proof. repeat split; vm_compute; reflexivity. Qed.

(** Why the caches are taken well formed: when the ['domain'] array and
    the data differ in length, the first boolean-mask selection raises
    [IndexError] and no dataset is appended. *)
Lemma ToySine_length_mismatch (fs : filesystem) (root : string) (p : pickle)
    (shape : list Z) (classes : Z) (o0 : obj TensorDataset) :
  fs root = Some p ->
  length (domain p) <> length (rows (data p)) ->
  exists o,
    ToySine.__init__ fs (Some root) shape classes o0 = (o, Raise IndexError)
    /\ datasets o = Some [].
Proof.
  intros Hfs Hlen.
  unfold ToySine.__init__, Sine.__init__, _load_cache, range.
  rewrite !bind_modify, Hfs. unfold bind, modify, getattr, ret.
  cbn -[for_each normalized eq_scalar select].
  cbn [for_each]. unfold bind at 1.
  unfold loop_body, bind, getattr, lift, select_rows.
  cbn -[normalized eq_scalar select for_each].
  rewrite select_length_mismatch.
  - eexists. split; reflexivity.
  - unfold eq_scalar. rewrite length_map, normalized_length. exact Hlen.
Qed.

(* ===================================================================== *)
(** * The feature extractors: proofs                                      *)
(* ===================================================================== *)

Section Monad.
Context {S : Type}.

Lemma bind_assoc {A B C} (m : M S A) (k : A -> M S B) (h : B -> M S C) (s : S) :
  bind (bind m k) h s = bind m (fun a => bind (k a) h) s.
Proof. unfold bind. destruct (m s) as [s' [a|e]]; reflexivity. Qed.

Lemma bind_ret_l {A B} (a : A) (k : A -> M S B) (s : S) :
  bind (ret a) k s = k a s.
Proof. reflexivity. Qed.

Lemma bind_ret_r {A} (m : M S A) (s : S) : bind m ret s = m s.
Proof. unfold bind, ret. destruct (m s) as [s' [a|e]]; reflexivity. Qed.

Lemma bind_ext {A B} (m : M S A) (k k' : A -> M S B) (s : S) :
  (forall a s', k a s' = k' a s') -> bind m k s = bind m k' s.
Proof.
  intros Hk. unfold bind. destruct (m s) as [s' [a|e]]; [apply Hk | reflexivity].
Qed.

Lemma bind_cong {A B} (m m' : M S A) (k k' : A -> M S B) (s : S) :
  m s = m' s -> (forall a s', k a s' = k' a s') -> bind m k s = bind m' k' s.
Proof.
  intros Hm Hk. unfold bind. rewrite Hm.
  destruct (m' s) as [s' [a|e]]; [apply Hk | reflexivity].
Qed.

End Monad.

Section LinearFeatExtractorForward.
Context {T G : Type} `{Ops T G}.
Import LinearFeatExtractor.

Lemma pipeline_app (a b : list stage) (x : T) (g : G) :
  pipeline (a ++ b) x g = bind (pipeline a x) (pipeline b) g.
Proof.
  revert x g. induction a as [|s a IH]; intros x g.
  - reflexivity.
  - cbn [app pipeline]. rewrite bind_assoc. apply bind_ext. exact IH.
Qed.

(** The loop over [self.hiddens] is the pipeline of the hidden stages. *)
Lemma hidden_loop_pipeline (self : t T) (d : Dropout) (hs : list (Linear T))
    (x : T) (g : G) :
  dropout self = Some d ->
  hidden_loop self hs x g
  = pipeline (concat (map (fun h => [Linear_call h; dropout_relu d]) hs)) x g.
Proof.
  intros Hd. revert x g. induction hs as [|h hs IH]; intros x g.
  - reflexivity.
  - cbn [hidden_loop map concat app pipeline]. apply bind_ext. intros y g1.
    rewrite Hd. cbn [attr]. rewrite bind_ret_l.
    unfold dropout_relu at 1. rewrite bind_assoc. apply bind_ext.
    intros z g2. rewrite bind_ret_l. apply IH.
Qed.

Lemma forward_shallow (self : t T) (x : T) (g : G) :
  num_layers self <= 1 -> forward self x g = Linear_call (input self) x g.
Proof.
  intros Hn. unfold forward.
  replace (Z.ltb 1 (num_layers self)) with false by (symmetry; apply Z.ltb_ge; lia).
  apply bind_ret_r.
Qed.

Lemma forward_deep (self : t T) (d : Dropout) (hs : list (Linear T))
    (out : Linear T) (x : T) (g : G) :
  1 < num_layers self ->
  dropout self = Some d -> hiddens self = Some hs -> output self = Some out ->
  forward self x g = pipeline (deep_stages (input self) d hs out) x g.
Proof.
  intros Hn Hd Hh Ho. unfold forward, deep_stages.
  replace (Z.ltb 1 (num_layers self)) with true by (symmetry; apply Z.ltb_lt; lia).
  cbn [app pipeline]. apply bind_ext. intros y g1.
  rewrite Hd, Hh, Ho. cbn [attr]. rewrite bind_ret_l.
  unfold dropout_relu at 1. rewrite bind_assoc. apply bind_ext. intros z g2.
  rewrite !bind_ret_l. rewrite pipeline_app.
  apply bind_cong; [exact (hidden_loop_pipeline self d hs (F_relu z) g2 Hd) |].
  intros u g3. rewrite bind_ret_l. cbn [pipeline].
  apply bind_ext. intros; reflexivity.
Qed.

Lemma nn_Linear_run (n_in n_out : Z) (g : G) :
  0 <= n_in -> 0 <= n_out ->
  exists l g', nn_Linear n_in n_out g = (g', Ok l)
               /\ in_features l = n_in /\ out_features l = n_out.
Proof.
  intros Hin Hout. unfold nn_Linear.
  replace (Z.ltb n_in 0) with false by (symmetry; apply Z.ltb_ge; lia).
  replace (Z.ltb n_out 0) with false by (symmetry; apply Z.ltb_ge; lia).
  cbn [orb]. unfold bind, draw, ret.
  destruct (init_param [n_out; n_in] g) as [w g1].
  destruct (init_param [n_out] g1) as [b g2].
  eexists. eexists. split; [reflexivity | split; reflexivity].
Qed.

Lemma nn_Linear_negative (n_in n_out : Z) (g : G) :
  n_in < 0 \/ n_out < 0 -> nn_Linear n_in n_out g = (g, Raise RuntimeError).
Proof.
  intros Hneg. unfold nn_Linear.
  replace (Z.ltb n_in 0 || Z.ltb n_out 0) with true; [reflexivity |].
  symmetry. apply orb_true_iff. rewrite !Z.ltb_lt. exact Hneg.
Qed.

Lemma nn_Dropout_run (rate : spec_float) (g : G) :
  rate_in_range rate ->
  nn_Dropout rate g = (g, Ok {| p := rate; drop_training := true |}).
Proof.
  intros [Hlo Hhi]. unfold nn_Dropout, rate_out_of_range.
  rewrite Hlo, Hhi. reflexivity.
Qed.

Lemma comprehension_Linear_run (n_in n_out : Z) :
  0 <= n_in -> 0 <= n_out ->
  forall (n : nat) (g : G),
  exists ls g', comprehension n (nn_Linear n_in n_out) g = (g', Ok ls)
                /\ length ls = n
                /\ Forall (fun l => in_features l = n_in /\ out_features l = n_out) ls.
Proof.
  intros Hnin Hnout.
  induction n as [|n IH]; intros g.
  - exists [], g. split; [reflexivity | split; [reflexivity | constructor]].
  - destruct (nn_Linear_run n_in n_out g Hnin Hnout) as (l & g1 & Hl & Hin & Hout).
    destruct (IH g1) as (ls & g2 & Hls & Hlen & Hall).
    exists (l :: ls), g2. cbn [comprehension]. unfold bind at 1. rewrite Hl.
    unfold bind at 1. rewrite Hls. split; [reflexivity |].
    split; [cbn; lia | constructor; [split; assumption | assumption]].
Qed.

End LinearFeatExtractorForward.

Section LinearFeatExtractorInit.
Context {T G : Type} `{Ops T G}.
Import LinearFeatExtractor.

Lemma LinearFeatExtractor_init_run (input_shape : list Z) (output_dim : Z)
    (hp : hparams) (g : G) (n : Z) :
  last input_shape = Some n ->
  0 <= n -> 0 <= mlp_width hp ->
  (1 < mlp_depth hp -> 0 <= output_dim /\ rate_in_range (mlp_dropout hp)) ->
  exists self g',
    __init__ input_shape output_dim hp g = (g', Ok self)
    /\ num_layers self = mlp_depth hp
    /\ n_outputs self = output_dim
    /\ in_features (input self) = n
    /\ out_features (input self) = mlp_width hp
    /\ (mlp_depth hp <= 1 ->
          dropout self = None /\ hiddens self = None /\ output self = None)
    /\ (1 < mlp_depth hp ->
          exists d hs out,
            dropout self = Some d /\ hiddens self = Some hs
            /\ output self = Some out
            /\ p d = mlp_dropout hp
            /\ Z.of_nat (length hs) = mlp_depth hp - 2
            /\ Forall (fun l => in_features l = mlp_width hp
                                /\ out_features l = mlp_width hp) hs
            /\ in_features out = mlp_width hp
            /\ out_features out = output_dim).
Proof.
  intros Hlast Hn Hw Hvalid. unfold __init__, index_last. rewrite Hlast.
  rewrite bind_lift.
  destruct (nn_Linear_run n (mlp_width hp) g Hn Hw)
    as (inp & g1 & Hinp & Hin & Hout).
  unfold bind at 1. rewrite Hinp.
  destruct (Z.ltb_spec 1 (mlp_depth hp)) as [Hdeep | Hshallow].
  - destruct (Hvalid Hdeep) as [Hod Hrate].
    destruct (comprehension_Linear_run (mlp_width hp) (mlp_width hp) Hw Hw
                (Z.to_nat (mlp_depth hp - 2)) g1) as (hs & g2 & Hhs & Hlen & Hall).
    destruct (nn_Linear_run (mlp_width hp) output_dim g2 Hw Hod)
      as (out & g3 & Hout' & Hoin & Hoout).
    unfold bind at 1. rewrite (nn_Dropout_run _ g1 Hrate).
    unfold bind at 1. rewrite Hhs. unfold bind at 1. rewrite Hout'.
    eexists. eexists. split; [reflexivity |]. cbn.
    repeat split; try assumption; try lia.
    intros _. exists {| p := mlp_dropout hp; drop_training := true |}, hs, out.
    repeat split; try assumption; try reflexivity. lia.
  - eexists. eexists. split; [reflexivity |]. cbn.
    repeat split; try assumption; try lia.
Qed.

End LinearFeatExtractorInit.

(* ===================================================================== *)
(** * The feature extractors: main results                                *)
(* ===================================================================== *)

(** C3: the forward pass of [LinearFeatExtractor] depends on the depth.
    The constructor returns when [input_shape] is not empty, the sizes
    are positive and, for [mlp_depth > 1], the dropout rate is one that
    [nn.Dropout] accepts (it raises otherwise).  For the module it
    builds and every input [x]: with
    [mlp_depth <= 1] the output is the input linear layer applied to [x]
    and nothing else; with [mlp_depth > 1] it is the input linear layer,
    dropout and ReLU, then for each of the [mlp_depth - 2] hidden layers
    a linear map, dropout and ReLU, then the output linear layer. *)
Theorem C3_forward_by_depth {T G : Type} `{Ops T G} (input_shape : list Z)
    (output_dim : Z) (hp : hparams) (g : G) (n : Z) :
  last input_shape = Some n ->
  0 < n -> 0 < mlp_width hp ->
  (1 < mlp_depth hp -> 0 < output_dim /\ rate_in_range (mlp_dropout hp)) ->
  exists self g',
    LinearFeatExtractor.__init__ input_shape output_dim hp g = (g', Ok self)
    /\ (mlp_depth hp <= 1 ->
          forall x gen,
            LinearFeatExtractor.forward self x gen
            = Linear_call (LinearFeatExtractor.input self) x gen)
    /\ (1 < mlp_depth hp ->
          exists d hs out,
            LinearFeatExtractor.dropout self = Some d
            /\ LinearFeatExtractor.hiddens self = Some hs
            /\ LinearFeatExtractor.output self = Some out
            /\ Z.of_nat (length hs) = mlp_depth hp - 2
            /\ forall x gen,
                 LinearFeatExtractor.forward self x gen
                 = LinearFeatExtractor.pipeline
                     ([Linear_call (LinearFeatExtractor.input self);
                       LinearFeatExtractor.dropout_relu d]
                      ++ concat (map (fun h => [Linear_call h;
                                                LinearFeatExtractor.dropout_relu d])
                                     hs)
                      ++ [Linear_call out]) x gen).
Proof.
  intros Hlast Hn Hw Hvalid.
  assert (Hvalid' : 1 < mlp_depth hp ->
                    0 <= output_dim /\ rate_in_range (mlp_dropout hp)).
  { intros Hd. destruct (Hvalid Hd) as [Hod Hrate]. split; [lia | exact Hrate]. }
  destruct (LinearFeatExtractor_init_run input_shape output_dim hp g n Hlast
              (Z.lt_le_incl _ _ Hn) (Z.lt_le_incl _ _ Hw) Hvalid')
    as (self & g' & Hrun & Hnum & _ & _ & _ & _ & Hdeep).
  exists self, g'. split; [exact Hrun | split].
  - intros Hd x gen. apply forward_shallow. rewrite Hnum. exact Hd.
  - intros Hd. destruct (Hdeep Hd) as (d & hs & out & Hdr & Hhs & Hout & _ & Hlen & _).
    exists d, hs, out. repeat split; try assumption.
    intros x gen. apply forward_deep; try assumption. rewrite Hnum. exact Hd.
Qed.

Lemma C3_forward_by_depth_witness :
  exists (self : LinearFeatExtractor.t (list Z)) (g' : unit),
    LinearFeatExtractor.__init__ [1; 2] 2 deep_hparams tt = (g', Ok self)
    /\ (mlp_depth deep_hparams <= 1 ->
          forall x gen,
            LinearFeatExtractor.forward self x gen
            = Linear_call (LinearFeatExtractor.input self) x gen)
    /\ (1 < mlp_depth deep_hparams ->
          exists d hs out,
            LinearFeatExtractor.dropout self = Some d
            /\ LinearFeatExtractor.hiddens self = Some hs
            /\ LinearFeatExtractor.output self = Some out
            /\ Z.of_nat (length hs) = mlp_depth deep_hparams - 2
            /\ forall x gen,
                 LinearFeatExtractor.forward self x gen
                 = LinearFeatExtractor.pipeline
                     ([Linear_call (LinearFeatExtractor.input self);
                       LinearFeatExtractor.dropout_relu d]
                      ++ concat (map (fun h => [Linear_call h;
                                                LinearFeatExtractor.dropout_relu d])
                                     hs)
                      ++ [Linear_call out]) x gen).
Proof.
  apply (C3_forward_by_depth [1; 2] 2 deep_hparams tt 2);
    [reflexivity | lia | cbn; lia |].
  intros _. split; [lia | split; reflexivity].
Defined.

(** The constructor outside these bounds: a negative width is rejected
    by the first [nn.Linear], a rate of 1.5 by [nn.Dropout] -- but only
    for a depth above 1, where a dropout is built. *)
Example LinearFeatExtractor_invalid_hparams :
  LinearFeatExtractor.__init__ (T := list Z) [1; 2] 2
    {| mlp_depth := 4; mlp_width := -1; mlp_dropout := S754_zero false |} tt
  = (tt, Raise RuntimeError)
  /\ LinearFeatExtractor.__init__ (T := list Z) [1; 2] 2
       {| mlp_depth := 4; mlp_width := 8;
          mlp_dropout := S754_finite false 6755399441055744 (-52) |} tt
     = (tt, Raise (ValueError "dropout probability has to be between 0 and 1"))
  /\ is_ok (LinearFeatExtractor.__init__ (T := list Z) [1; 2] 2
              {| mlp_depth := 1; mlp_width := 8;
                 mlp_dropout := S754_finite false 6755399441055744 (-52) |}
              tt).2 = true.
Proof. repeat split; vm_compute; reflexivity. Qed.

(** C6: the identity extractor is an identity.  Its constructor sets
    [n_outputs] to [input_shape[-1]], and [forward] returns its input
    unchanged, for every input and without touching the generator. *)
Theorem C6_identity {T G : Type} (input_shape : list Z) (output_dim : Z)
    (hp : hparams) (g : G) (n : Z) :
  last input_shape = Some n ->
  exists self,
    Identity.__init__ (G := G) input_shape output_dim hp g = (g, Ok self)
    /\ Identity.n_outputs self = n
    /\ forall (x : T) (gen : G), Identity.forward self x gen = (gen, Ok x).
Proof.
  intros Hlast. unfold Identity.__init__, index_last. rewrite Hlast.
  eexists. split; [reflexivity | split; [reflexivity | intros; reflexivity]].
Qed.

Lemma C6_identity_witness :
  exists self,
    Identity.__init__ (G := unit) [1; 2] 7 deep_hparams tt = (tt, Ok self)
    /\ Identity.n_outputs self = 2
    /\ forall (x : list Z) (gen : unit), Identity.forward self x gen = (gen, Ok x).
Proof.
  apply (C6_identity (T := list Z) (G := unit) [1; 2] 7 deep_hparams tt 2).
  reflexivity.
Defined.

(** C5 at the input where it fails: a [LinearFeatExtractor] of depth 1
    and width 4 built for [output_dim = 2] reports [n_outputs = 2], and
    its forward pass maps a batch of shape [(4, 2)] to shape [(4, 4)]:
    the last dimension is [mlp_width], not [n_outputs]. *)
Theorem C5_shallow_mlp_width_mismatch :
  exists self : LinearFeatExtractor.t (list Z),
    LinearFeatExtractor.__init__ [1; 2] 2 shallow_hparams tt = (tt, Ok self)
    /\ LinearFeatExtractor.n_outputs self = 2
    /\ LinearFeatExtractor.forward self [4; 2] tt = (tt, Ok [4; 4])
    /\ last [4; 4] = Some (mlp_width shallow_hparams)
    /\ last [4; 4] <> Some (LinearFeatExtractor.n_outputs self).
Proof.
  eexists. split; [cbv; reflexivity |].
  split; [reflexivity |]. split; [cbv; reflexivity |].
  split; [reflexivity | discriminate].
Qed.

(** ** The output width on shapes *)

Lemma shape_nn_Linear (a b : Z) :
  0 <= a -> 0 <= b ->
  nn_Linear (T := list Z) a b tt = (tt, Ok (shape_Linear a b)).
Proof.
  intros Ha Hb. unfold nn_Linear.
  replace (Z.ltb a 0) with false by (symmetry; apply Z.ltb_ge; lia).
  replace (Z.ltb b 0) with false by (symmetry; apply Z.ltb_ge; lia).
  reflexivity.
Qed.

Lemma shape_comprehension (a b : Z) (n : nat) :
  0 <= a -> 0 <= b ->
  comprehension n (nn_Linear (T := list Z) a b) tt
  = (tt, Ok (replicate n (shape_Linear a b))).
Proof.
  intros Ha Hb.
  induction n as [|n IH]; [reflexivity |].
  cbn [comprehension replicate]. unfold bind at 1.
  rewrite (shape_nn_Linear a b Ha Hb).
  cbv iota beta. unfold bind at 1. rewrite IH. reflexivity.
Qed.

(** The constructor on shapes, for a depth above 1. *)
Lemma shape_LinearFeatExtractor_init (input_shape : list Z) (output_dim : Z)
    (hp : hparams) (n : Z) :
  last input_shape = Some n ->
  1 < mlp_depth hp ->
  0 <= n -> 0 <= mlp_width hp -> 0 <= output_dim ->
  rate_in_range (mlp_dropout hp) ->
  LinearFeatExtractor.__init__ input_shape output_dim hp tt
  = (tt, Ok {| LinearFeatExtractor.num_layers := mlp_depth hp;
               LinearFeatExtractor.input := shape_Linear n (mlp_width hp);
               LinearFeatExtractor.dropout :=
                 Some {| p := mlp_dropout hp; drop_training := true |};
               LinearFeatExtractor.hiddens :=
                 Some (replicate (Z.to_nat (mlp_depth hp - 2))
                         (shape_Linear (mlp_width hp) (mlp_width hp)));
               LinearFeatExtractor.output :=
                 Some (shape_Linear (mlp_width hp) output_dim);
               LinearFeatExtractor.n_outputs := output_dim |}).
Proof.
  intros Hshape Hdeep Hn Hw Hod Hrate.
  assert (Hlt : Z.ltb 1 (mlp_depth hp) = true) by (apply Z.ltb_lt; exact Hdeep).
  unfold LinearFeatExtractor.__init__, index_last. rewrite Hshape, bind_lift.
  unfold bind at 1. rewrite (shape_nn_Linear n (mlp_width hp) Hn Hw).
  cbv iota beta. rewrite Hlt. unfold bind at 1.
  rewrite (nn_Dropout_run _ tt Hrate).
  unfold bind at 1. rewrite (shape_comprehension _ _ _ Hw Hw).
  unfold bind at 1. rewrite (shape_nn_Linear _ _ Hw Hod).
  reflexivity.
Qed.

(** The constructor on shapes, for a depth of at most 1. *)
Lemma shape_LinearFeatExtractor_init_shallow (input_shape : list Z)
    (output_dim : Z) (hp : hparams) (n : Z) :
  last input_shape = Some n ->
  mlp_depth hp <= 1 ->
  0 <= n -> 0 <= mlp_width hp ->
  LinearFeatExtractor.__init__ input_shape output_dim hp tt
  = (tt, Ok {| LinearFeatExtractor.num_layers := mlp_depth hp;
               LinearFeatExtractor.input := shape_Linear n (mlp_width hp);
               LinearFeatExtractor.dropout := None;
               LinearFeatExtractor.hiddens := None;
               LinearFeatExtractor.output := None;
               LinearFeatExtractor.n_outputs := output_dim |}).
Proof.
  intros Hshape Hshallow Hn Hw.
  assert (Hlt : Z.ltb 1 (mlp_depth hp) = false) by (apply Z.ltb_ge; exact Hshallow).
  unfold LinearFeatExtractor.__init__, index_last. rewrite Hshape, bind_lift.
  unfold bind at 1. rewrite (shape_nn_Linear n (mlp_width hp) Hn Hw).
  cbv iota beta. rewrite Hlt. reflexivity.
Qed.

Lemma shape_Linear_call (a b : Z) (x : list Z) :
  last x = Some a ->
  Linear_call (shape_Linear a b) x tt = (tt, Ok (removelast x ++ [b])).
Proof.
  intros Hx. unfold Linear_call, lift, shape_Linear. cbn.
  unfold Shape.linear. rewrite Hx, Z.eqb_refl, bool_decide_eq_true_2 by reflexivity.
  reflexivity.
Qed.

Lemma shape_hidden_loop (self : LinearFeatExtractor.t (list Z)) (d : Dropout)
    (w : Z) (n : nat) (x : list Z) :
  LinearFeatExtractor.dropout self = Some d ->
  last x = Some w ->
  LinearFeatExtractor.hidden_loop self (replicate n (shape_Linear w w)) x tt
  = (tt, Ok x).
Proof.
  intros Hd. revert x. induction n as [|n IH]; intros x Hx; [reflexivity |].
  cbn [replicate LinearFeatExtractor.hidden_loop]. unfold bind at 1.
  rewrite (shape_Linear_call w w x Hx), Hd. cbn [attr]. rewrite bind_ret_l.
  assert (Hsame : removelast x ++ [w] = x).
  { destruct (last_Some x w) as [[l' ->] _]; [exact Hx |].
    rewrite removelast_last. reflexivity. }
  rewrite Hsame. unfold bind at 1. cbn. apply IH, Hx.
Qed.

(** With a depth above 1 the last dimension of the output of
    [LinearFeatExtractor] is [n_outputs]. *)
Lemma LinearFeatExtractor_deep_last_dim (input_shape : list Z) (output_dim : Z)
    (hp : hparams) (n : Z) (x : list Z) :
  last input_shape = Some n ->
  1 < mlp_depth hp ->
  0 <= n -> 0 <= mlp_width hp -> 0 <= output_dim ->
  rate_in_range (mlp_dropout hp) ->
  last x = Some n ->
  exists self y,
    LinearFeatExtractor.__init__ input_shape output_dim hp tt = (tt, Ok self)
    /\ LinearFeatExtractor.forward self x tt = (tt, Ok y)
    /\ last y = Some (LinearFeatExtractor.n_outputs self).
Proof.
  intros Hshape Hdeep Hn Hw Hod Hrate Hx.
  assert (Hlt : Z.ltb 1 (mlp_depth hp) = true) by (apply Z.ltb_lt; exact Hdeep).
  eexists. exists (removelast x ++ [output_dim]). split; [| split].
  - apply (shape_LinearFeatExtractor_init input_shape output_dim hp n);
      assumption.
  - unfold LinearFeatExtractor.forward.
    cbn [LinearFeatExtractor.input LinearFeatExtractor.num_layers
         LinearFeatExtractor.dropout LinearFeatExtractor.hiddens
         LinearFeatExtractor.output attr].
    unfold bind at 1. rewrite (shape_Linear_call n (mlp_width hp) x Hx), Hlt.
    rewrite !bind_ret_l. unfold bind at 1. cbn [Dropout_call F_dropout Shape.ops F_relu].
    rewrite bind_ret_l. unfold bind at 1.
    rewrite (shape_hidden_loop _ {| p := mlp_dropout hp; drop_training := true |});
      [| reflexivity | apply last_snoc].
    rewrite bind_ret_l. unfold bind at 1.
    rewrite (shape_Linear_call (mlp_width hp) output_dim) by apply last_snoc.
    rewrite removelast_last. reflexivity.
  - cbn. apply last_snoc.
Qed.

Lemma conv_out_same (h : Z) : Shape.conv_out h 3 1 1 = h.
Proof. unfold Shape.conv_out. rewrite Z.div_1_r. lia. Qed.

Lemma conv_out_half_pos (h : Z) : 0 < h -> 0 < Shape.conv_out h 3 2 1.
Proof.
  intros Hh. unfold Shape.conv_out.
  assert (0 <= (h + 2 * 1 - 3) / 2) by (apply Z.div_pos; lia). lia.
Qed.

Lemma shape_conv2d_3x3 (b c c_out h w s : Z) :
  0 < c -> 0 < c_out -> 0 < s -> 0 < h -> 0 < w ->
  Shape.conv2d [b; c; h; w] [c_out; c; 3; 3] (Some [c_out]) s 1
  = Ok [b; c_out; Shape.conv_out h 3 s 1; Shape.conv_out w 3 s 1].
Proof.
  intros Hc Hco Hs Hh Hw. unfold Shape.conv2d.
  rewrite Z.eqb_refl, bool_decide_eq_true_2 by reflexivity.
  replace (0 <? s) with true by (symmetry; apply Z.ltb_lt; lia).
  replace (0 <? c) with true by (symmetry; apply Z.ltb_lt; lia).
  replace (0 <? c_out) with true by (symmetry; apply Z.ltb_lt; lia).
  replace (3 <=? h + 2 * 1) with true by (symmetry; apply Z.leb_le; lia).
  replace (3 <=? w + 2 * 1) with true by (symmetry; apply Z.leb_le; lia).
  reflexivity.
Qed.

Lemma conv_out_half_one (h : Z) :
  0 < h -> (Shape.conv_out h 3 2 1 = 1 <-> h <= 2).
Proof.
  intros Hh. unfold Shape.conv_out.
  replace (h + 2 * 1 - 3) with (h - 1) by lia. split.
  - intros E. assert (E0 : (h - 1) / 2 = 0) by lia.
    apply Z.div_small_iff in E0; lia.
  - intros Hle. rewrite Z.div_small by lia. reflexivity.
Qed.

(** The number of values per group that [F.group_norm] tests: it is 1
    exactly for one image, eight channels and a one-by-one map. *)
Lemma values_per_group (b c h w : Z) :
  0 < b -> 0 < c -> 0 < h -> 0 < w -> c mod 8 = 0 ->
  (b * c / 8 * (h * w) = 1 <-> b = 1 /\ c = 8 /\ h = 1 /\ w = 1).
Proof.
  intros Hb Hc Hh Hw Hmod.
  assert (Hex : c = 8 * (c / 8)) by (apply Z.div_exact; [lia | exact Hmod]).
  remember (c / 8) as m eqn:Hm. assert (Hmpos : 0 < m) by lia.
  replace (b * c) with (b * m * 8) by lia. rewrite Z.div_mul by lia.
  split.
  - intros Hp.
    assert (Hbm : 1 <= b * m) by nia.
    assert (Hhw : 1 <= h * w) by nia.
    assert (Hbm1 : b * m = 1) by nia.
    assert (Hhw1 : h * w = 1) by nia.
    assert (b = 1) by nia. assert (m = 1) by nia.
    assert (h = 1) by nia. assert (w = 1) by nia. lia.
  - intros (-> & Hc8 & -> & ->). lia.
Qed.

Lemma shape_group_norm (b c h w : Z) :
  c mod 8 = 0 -> b * c / 8 * (h * w) <> 1 ->
  Shape.group_norm [b; c; h; w] 8 [c] [c] = Ok [b; c; h; w].
Proof.
  intros Hc Hne. unfold Shape.group_norm, Shape.numel. cbn [fold_right].
  change (8 =? 0) with false. cbv iota.
  replace (h * (w * 1)) with (h * w) by lia.
  replace (b * c / 8 * (h * w) =? 1) with false
    by (symmetry; apply Z.eqb_neq; exact Hne).
  rewrite Hc, !bool_decide_eq_true_2 by reflexivity. reflexivity.
Qed.

Lemma shape_group_norm_single (b c h w : Z) :
  b * c / 8 * (h * w) = 1 ->
  Shape.group_norm [b; c; h; w] 8 [c] [c]
  = Raise (ValueError "Expected more than 1 value per channel when training").
Proof.
  intros He. unfold Shape.group_norm, Shape.numel. cbn [fold_right].
  change (8 =? 0) with false. cbv iota.
  replace (h * (w * 1)) with (h * w) by lia.
  rewrite He. reflexivity.
Qed.

Lemma shape_group_norm_wide (b c h w : Z) :
  0 < b -> 8 < c -> 0 < h -> 0 < w -> c mod 8 = 0 ->
  Shape.group_norm [b; c; h; w] 8 [c] [c] = Ok [b; c; h; w].
Proof.
  intros Hb Hc Hh Hw Hmod. apply shape_group_norm; [exact Hmod |].
  intros E. apply values_per_group in E; lia.
Qed.

(** The constructor of [MNIST_CNN] on shapes. *)
Ltac shape_MNIST_CNN_init c output_dim Hgn :=
  unfold MNIST_CNN.__init__, index_first, nn_GroupNorm, nn_Conv2d;
  rewrite bind_lift;
  replace (Z.ltb c 0) with false by (symmetry; apply Z.ltb_ge; lia);
  replace (Z.ltb output_dim 0) with false by (symmetry; apply Z.ltb_ge; lia);
  cbn -[Z.modulo]; rewrite Hgn; cbn; reflexivity.

Lemma MNIST_CNN_run (c : Z) (rest : list Z) (output_dim : Z)
    (hp : hparams) (b h w : Z) :
  0 < c -> 0 < output_dim -> output_dim mod 8 = 0 ->
  0 < b -> 0 < h -> 0 < w ->
  exists self,
    MNIST_CNN.__init__ (c :: rest) output_dim hp tt = (tt, Ok self)
    /\ MNIST_CNN.n_outputs self = output_dim
    /\ MNIST_CNN.forward self [b; c; h; w] tt
       = (tt, if single_value output_dim b h w
              then Raise (ValueError
                            "Expected more than 1 value per channel when training")
              else Ok [b; output_dim]).
Proof.
  intros Hc Hout Hmod Hb Hh Hw.
  assert (Hgn : negb (output_dim mod 8 =? 0) = false) by (rewrite Hmod; reflexivity).
  eexists. split; [| split].
  - shape_MNIST_CNN_init c output_dim Hgn.
  - reflexivity.
  - pose proof (conv_out_half_pos h Hh) as Hh2.
    pose proof (conv_out_half_pos w Hw) as Hw2.
    unfold MNIST_CNN.forward, Conv2d_call, GroupNorm_call,
      AdaptiveAvgPool2d_call.
    cbn [MNIST_CNN.conv1 MNIST_CNN.conv2 MNIST_CNN.conv3 MNIST_CNN.conv4
         MNIST_CNN.bn0 MNIST_CNN.bn1 MNIST_CNN.bn2 MNIST_CNN.bn3
         MNIST_CNN.avgpool conv_weight conv_bias stride padding
         num_groups gn_weight gn_bias output_size
         F_conv2d F_group_norm F_relu F_adaptive_avg_pool2d size0 view_rows
         Shape.ops ones zeros].
    rewrite shape_conv2d_3x3 by lia. rewrite !conv_out_same, bind_lift.
    rewrite shape_group_norm_wide by (lia || reflexivity). rewrite bind_lift.
    rewrite shape_conv2d_3x3 by lia. rewrite bind_lift.
    rewrite shape_group_norm_wide by (lia || reflexivity). rewrite bind_lift.
    rewrite shape_conv2d_3x3 by lia. rewrite !conv_out_same, bind_lift.
    rewrite shape_group_norm_wide by (lia || reflexivity). rewrite bind_lift.
    rewrite shape_conv2d_3x3 by lia. rewrite !conv_out_same, bind_lift.
    pose proof (values_per_group b output_dim (Shape.conv_out h 3 2 1)
                  (Shape.conv_out w 3 2 1) Hb Hout Hh2 Hw2 Hmod) as Hval.
    pose proof (conv_out_half_one h Hh) as Hh1.
    pose proof (conv_out_half_one w Hw) as Hw1.
    unfold single_value.
    destruct (Z.eqb_spec b 1) as [Hb1 | Hb1];
      [destruct (Z.eqb_spec output_dim 8) as [Ho8 | Ho8];
       [destruct (Z.leb_spec h 2) as [Hhs | Hhs];
        [destruct (Z.leb_spec w 2) as [Hws | Hws] |] |] |];
      cbn [andb].
    1: { rewrite shape_group_norm_single; [reflexivity |].
         apply Hval. repeat split; [exact Hb1 | exact Ho8 | |].
         - apply Hh1. exact Hhs.
         - apply Hw1. exact Hws. }
    all: rewrite shape_group_norm;
      [| exact Hmod | intros E; apply Hval in E; lia].
    all: rewrite bind_lift; unfold Shape.adaptive_avg_pool2d;
      replace (0 <? Shape.conv_out h 3 2 1) with true
        by (symmetry; apply Z.ltb_lt; lia);
      replace (0 <? Shape.conv_out w 3 2 1) with true
        by (symmetry; apply Z.ltb_lt; lia);
      cbn [andb fst snd]; rewrite bind_lift;
      unfold Shape.len; rewrite bind_lift;
      unfold Shape.view, Shape.numel; cbn [fold_right];
      replace (b * (output_dim * (1 * (1 * 1)))) with (output_dim * b) by lia;
      rewrite Z.mod_mul, Z.div_mul by lia;
      replace (0 <? b) with true by (symmetry; apply Z.ltb_lt; lia);
      reflexivity.
Qed.

(** For a batch of images the last dimension of the output of
    [MNIST_CNN] is [n_outputs], when the last group norm sees more than
    one value per group. *)
Lemma MNIST_CNN_last_dim (c : Z) (rest : list Z) (output_dim : Z)
    (hp : hparams) (x : list Z) :
  0 < c -> 0 < output_dim -> output_dim mod 8 = 0 ->
  image_batch x c ->
  1 < hd 0 x \/ 8 < output_dim ->
  exists self y,
    MNIST_CNN.__init__ (c :: rest) output_dim hp tt = (tt, Ok self)
    /\ MNIST_CNN.forward self x tt = (tt, Ok y)
    /\ last y = Some (MNIST_CNN.n_outputs self).
Proof.
  intros Hc Hout Hmod (b & h & w & -> & Hb & Hh & Hw) Hmany.
  destruct (MNIST_CNN_run c rest output_dim hp b h w Hc Hout Hmod Hb Hh Hw)
    as (self & Hinit & Hn & Hfwd).
  exists self, [b; output_dim]. split; [exact Hinit | split].
  - rewrite Hfwd. unfold single_value. cbn [hd] in Hmany.
    destruct (Z.eqb_spec b 1) as [Hb1 | Hb1];
      [destruct (Z.eqb_spec output_dim 8) as [Ho8 | Ho8]; [lia |] |];
      reflexivity.
  - rewrite Hn. reflexivity.
Qed.

(** For the identity the last dimension of the output is [n_outputs]
    whenever the input has the last dimension of [input_shape]. *)
Lemma Identity_last_dim (input_shape : list Z) (output_dim : Z) (hp : hparams)
    (n : Z) (x : list Z) :
  last input_shape = Some n ->
  last x = Some n ->
  exists self y,
    Identity.__init__ (G := unit) input_shape output_dim hp tt = (tt, Ok self)
    /\ Identity.forward self x tt = (tt, Ok y)
    /\ last y = Some (Identity.n_outputs self).
Proof.
  intros Hshape Hx. unfold Identity.__init__, index_last. rewrite Hshape.
  eexists. exists x. split; [reflexivity | split; [reflexivity | exact Hx]].
Qed.

(* ===================================================================== *)
(** * ResNet: proofs                                                      *)
(* ===================================================================== *)

Section ResNetFacts.
Context {K : Type}.
Import ResNet.
Local Abbreviation module := (ResNet.module K).

(** Induction over a module and all its descendants. *)
Lemma module_rect_nested (P : module -> Prop) :
  (forall n c t cs, Forall P cs -> P (Module_ n c t cs)) ->
  forall m, P m.
Proof.
  intros Hstep. fix IH 1. intros [n c t cs]. apply Hstep.
  induction cs as [|c' cs IHcs]; constructor; [apply IH | exact IHcs].
Qed.

Lemma name_train (mode : bool) (m : module) : name (Module_train mode m) = name m.
Proof. destruct m; reflexivity. Qed.

Lemma name_freeze (m : module) : name (freeze m) = name m.
Proof. destruct m as [n c t cs]; destruct c; reflexivity. Qed.

Lemma cls_freeze (m : module) : cls (freeze m) = cls m.
Proof. destruct m as [n c t cs]; destruct c; reflexivity. Qed.

Lemma all_bn_eval_train_false (m : module) :
  all_bn_eval (Module_train false m) = true.
Proof.
  induction m as [n c t cs IH] using module_rect_nested.
  cbn [Module_train all_bn_eval]. apply andb_true_intro. split.
  - destruct (is_BatchNorm2d _); reflexivity.
  - rewrite forallb_forall. intros m' Hin. apply in_map_iff in Hin as [m0 [<- Hin]].
    rewrite Forall_forall in IH. apply IH. apply list_elem_of_In. exact Hin.
Qed.

Lemma all_bn_eval_freeze (m : module) : all_bn_eval (freeze m) = true.
Proof.
  induction m as [n c t cs IH] using module_rect_nested.
  assert (Hrec : forallb all_bn_eval (map freeze cs) = true).
  { rewrite forallb_forall. intros m' Hin.
    apply in_map_iff in Hin as [m0 [<- Hin]].
    rewrite Forall_forall in IH. apply IH. apply list_elem_of_In. exact Hin. }
  assert (Hsub : forallb all_bn_eval (map (Module_train false) cs) = true).
  { rewrite forallb_forall. intros m' Hin.
    apply in_map_iff in Hin as [m0 [<- _]]. apply all_bn_eval_train_false. }
  destruct c; cbn [freeze all_bn_eval is_BatchNorm2d cls negb andb];
    assumption.
Qed.

(** A module without batch norm below it is not changed by [freeze]. *)
Lemma freeze_leaf (n : string) (c : class K) (t : bool) :
  c <> BatchNorm2d -> freeze (Module_ n c t []) = Module_ n c t [].
Proof. intros Hc. destruct c; try reflexivity. congruence. Qed.

Lemma find_assign_same (a : string) (child : module) (cs : list module) :
  name child = a ->
  List.find (fun c => String.eqb (name c) a) (assign a child cs) = Some child.
Proof.
  intros Hn. induction cs as [|c cs IH]; cbn [assign].
  - cbn. rewrite Hn, String.eqb_refl. reflexivity.
  - destruct (String.eqb (name c) a) eqn:E; cbn [List.find].
    + rewrite Hn, String.eqb_refl. reflexivity.
    + rewrite E. exact IH.
Qed.

Lemma find_assign_other (a b : string) (child : module) (cs : list module) :
  name child = a -> a <> b ->
  List.find (fun c => String.eqb (name c) b) (assign a child cs)
  = List.find (fun c => String.eqb (name c) b) cs.
Proof.
  intros Hn Hab. apply String.eqb_neq in Hab.
  induction cs as [|c cs IH]; cbn [assign].
  - cbn. rewrite Hn, Hab. reflexivity.
  - destruct (String.eqb (name c) a) eqn:E; cbn [List.find].
    + apply String.eqb_eq in E. rewrite Hn, E, Hab. reflexivity.
    + rewrite IH. reflexivity.
Qed.

Lemma find_remove_other (a b : string) (cs cs' : list module) :
  a <> b -> remove a cs = Ok cs' ->
  List.find (fun c => String.eqb (name c) b) cs'
  = List.find (fun c => String.eqb (name c) b) cs.
Proof.
  intros Hab. apply String.eqb_neq in Hab. revert cs'.
  induction cs as [|c cs IH]; intros cs' Hrm; cbn [remove] in Hrm.
  - discriminate.
  - destruct (String.eqb (name c) a) eqn:E.
    + injection Hrm as <-. apply String.eqb_eq in E.
      cbn [List.find]. rewrite E, Hab. reflexivity.
    + destruct (remove a cs) as [r|e]; [| discriminate].
      injection Hrm as <-. cbn [List.find]. rewrite (IH r eq_refl). reflexivity.
Qed.

Lemma remove_assign_other (a b : string) (child : module) (cs : list module) :
  name child = a -> a <> b ->
  is_ok (remove b cs) = true -> is_ok (remove b (assign a child cs)) = true.
Proof.
  intros Hn Hab. apply String.eqb_neq in Hab.
  induction cs as [|c cs IH]; cbn [assign remove]; intros Hok.
  - discriminate.
  - destruct (String.eqb (name c) a) eqn:Ea.
    + apply String.eqb_eq in Ea. cbn [remove]. rewrite Hn, Hab.
      rewrite Ea, Hab in Hok.
      destruct (remove b cs); [reflexivity | discriminate].
    + cbn [remove]. destruct (String.eqb (name c) b); [reflexivity |].
      destruct (remove b cs) as [r|e]; [| discriminate].
      specialize (IH eq_refl).
      destruct (remove b (assign a child cs)); [reflexivity | discriminate].
Qed.

Lemma find_map_freeze (b : string) (cs : list module) :
  List.find (fun c => String.eqb (name c) b) (map freeze cs)
  = option_map freeze (List.find (fun c => String.eqb (name c) b) cs).
Proof.
  induction cs as [|c cs IH]; [reflexivity |].
  cbn [map List.find]. rewrite name_freeze.
  destruct (String.eqb (name c) b); [reflexivity | exact IH].
Qed.

End ResNetFacts.

Section ChannelCopy.
Context {K : Type}.
Import ResNet.

Lemma channel_run (i : nat) (w : list (list K)) :
  Forall (fun row => (i < length row)%nat) w ->
  exists src,
    channel i w = Ok src
    /\ length src = length w
    /\ forall o row, w !! o = Some row -> src !! o = row !! i.
Proof.
  induction w as [|row0 w IH]; intros HF.
  - exists []. split; [reflexivity | split; [reflexivity |]].
    intros o row Hrow. discriminate.
  - inversion HF as [|? ? Hlt HF']; subst.
    destruct (lookup_lt_is_Some_2 row0 i Hlt) as [k Hk].
    destruct (IH HF') as (src & Hsrc & Hlen & Hlk).
    exists (k :: src). cbn [channel]. rewrite Hk, Hsrc.
    split; [reflexivity | split; [cbn; lia |]].
    intros [|o] row Hrow; cbn in Hrow |- *.
    + injection Hrow as <-. symmetry. exact Hk.
    + apply Hlk, Hrow.
Qed.

Lemma assign_channel_run (i : nat) : forall (w : list (list K)) (src : list K),
  length src = length w ->
  Forall (fun row => (i < length row)%nat) w ->
  exists w',
    assign_channel i src w = Ok w'
    /\ length w' = length w
    /\ forall o row k, w !! o = Some row -> src !! o = Some k ->
         w' !! o = Some (<[i := k]> row).
Proof.
  induction w as [|row0 w IH]; intros [|k0 src] Hlen HF; cbn in Hlen; try lia.
  - exists []. split; [reflexivity | split; [reflexivity |]].
    intros o row k Hrow. discriminate.
  - inversion HF as [|? ? Hlt HF']; subst.
    destruct (IH src ltac:(lia) HF') as (w' & Hw' & Hlen' & Hlk).
    exists (<[i := k0]> row0 :: w'). cbn [assign_channel].
    replace (Nat.ltb i (length row0)) with true
      by (symmetry; apply Nat.ltb_lt; exact Hlt).
    rewrite Hw'. split; [reflexivity | split; [cbn; lia |]].
    intros [|o] row k Hrow Hk; cbn in Hrow, Hk |- *.
    + injection Hrow as <-. injection Hk as <-. reflexivity.
    + apply Hlk; assumption.
Qed.

(** The loop writes, for each index it visits, the slices of channel
    [i mod 3] of [tmp] into channel [i], and leaves the channels it does
    not visit as they were. *)
Lemma copy_channels_run (tmp : list (list K)) (n : nat) :
  Forall (fun row => length row = 3%nat) tmp ->
  forall (idxs : list nat) (w : list (list K)),
  Forall (fun i => (i < n)%nat) idxs ->
  length w = length tmp ->
  Forall (fun row => length row = n) w ->
  exists w',
    copy_channels tmp idxs w = Ok w'
    /\ length w' = length tmp
    /\ Forall (fun row => length row = n) w'
    /\ forall o row0 roww, tmp !! o = Some row0 -> w !! o = Some roww ->
         exists row,
           w' !! o = Some row
           /\ forall i, (i ∈ idxs -> row !! i = row0 !! (i mod 3)%nat)
                        /\ (i ∉ idxs -> row !! i = roww !! i).
Proof.
  intros Htmp. induction idxs as [|i idxs IH]; intros w Hidx Hlen Hrows.
  - exists w. split; [reflexivity | split; [exact Hlen | split; [exact Hrows |]]].
    intros o row0 roww _ Hw. exists roww. split; [exact Hw |].
    intros i. split; [intros Hin; inversion Hin | reflexivity].
  - inversion Hidx as [|? ? Hi Hidx']; subst.
    assert (Hmod : Forall (fun row => (i mod 3 < length row)%nat) tmp).
    { eapply Forall_impl; [exact Htmp |]. intros row Hr. cbv beta in Hr |- *.
      rewrite Hr. apply Nat.mod_upper_bound. lia. }
    destruct (channel_run (i mod 3) tmp Hmod) as (src & Hsrc & Hsl & Hsk).
    assert (Hin : Forall (fun row => (i < length row)%nat) w).
    { eapply Forall_impl; [exact Hrows |]. intros row Hr. cbv beta in Hr |- *.
      rewrite Hr. exact Hi. }
    destruct (assign_channel_run i w src ltac:(lia) Hin) as (w1 & Hw1 & Hl1 & Hk1).
    assert (Hrows1 : Forall (fun row => length row = n) w1).
    { apply Forall_lookup. intros o row1 Hrow1.
      destruct (lookup_lt_is_Some_2 w o) as [roww Hroww].
      { rewrite <- Hl1. eapply lookup_lt_Some, Hrow1. }
      destruct (lookup_lt_is_Some_2 src o) as [k Hk].
      { rewrite Hsl, <- Hlen. eapply lookup_lt_Some, Hroww. }
      pose proof (Hk1 o roww k Hroww Hk) as E. unfold weight in E.
      assert (row1 = <[i := k]> roww) as -> by congruence.
      rewrite length_insert. eapply (proj1 (Forall_lookup _ _) Hrows), Hroww. }
    destruct (IH w1 Hidx' ltac:(lia) Hrows1) as (w' & Hw' & Hl' & Hr' & Hspec).
    exists w'. cbn [copy_channels]. rewrite Hsrc, Hw1.
    split; [exact Hw' | split; [exact Hl' | split; [exact Hr' |]]].
    intros o row0 roww Hrow0 Hroww.
    destruct (lookup_lt_is_Some_2 src o) as [k Hk].
    { rewrite Hsl. eapply lookup_lt_Some, Hrow0. }
    pose proof (Hk1 o roww k Hroww Hk) as Hrow1.
    destruct (Hspec o row0 _ Hrow0 Hrow1) as (row & Hrow & Hchar).
    exists row. split; [exact Hrow |]. intros j. split.
    + intros Hj. destruct (decide (j ∈ idxs)) as [Hjin | Hjout].
      * apply (Hchar j), Hjin.
      * apply elem_of_cons in Hj as [-> | Hj]; [| contradiction].
        rewrite (proj2 (Hchar i) Hjout).
        rewrite list_lookup_insert_eq.
        -- rewrite <- (Hsk o row0 Hrow0). symmetry. exact Hk.
        -- rewrite (proj1 (Forall_lookup _ _) Hrows o roww Hroww). exact Hi.
    + intros Hj. rewrite not_elem_of_cons in Hj. destruct Hj as [Hne Hjout].
      rewrite (proj2 (Hchar j) Hjout).
      apply list_lookup_insert_ne. congruence.
Qed.

End ChannelCopy.

Section ResNetInit.
Context {K : Type}.
Import ResNet.
Variable torchvision_models : string -> bool -> ResNet.module K.
Variable fresh_weight : nat -> nat -> list (list K).

(** [conv1] after the constructor's last three steps: removing [fc],
    adding the identity as [fc], and freezing the batch norms. *)
Lemma conv1_after_fc_and_freeze (net1 net2 c : ResNet.module K) :
  is_BatchNorm2d net1 = false ->
  del_child "fc" net1 = Ok net2 ->
  get_child "conv1" net1 = Ok c ->
  get_child "conv1"
    (freeze (set_child "fc" (Module_ "fc" nn_Identity true []) net2))
  = Ok (freeze c).
Proof.
  destruct net1 as [n cl t cs]. intros Hbn Hdel Hget.
  unfold del_child in Hdel. destruct (remove "fc" cs) as [cs2|e] eqn:Hrm;
    [| discriminate].
  injection Hdel as <-. unfold get_child in Hget. cbn [children] in Hget.
  destruct (List.find _ cs) as [c0|] eqn:Hfind; [| discriminate].
  injection Hget as ->.
  assert (Hroot : freeze (set_child "fc" (Module_ "fc" nn_Identity true [])
                            (Module_ n cl t cs2))
                  = Module_ n cl t
                      (map freeze (assign "fc" (Module_ "fc" nn_Identity true []) cs2))).
  { cbn [set_child freeze]. destruct cl; try reflexivity. discriminate. }
  rewrite Hroot. unfold get_child. cbn [children].
  rewrite find_map_freeze.
  rewrite (find_assign_other "fc" "conv1") by (reflexivity || discriminate).
  rewrite (find_remove_other "fc" "conv1" cs cs2) by (discriminate || exact Hrm).
  rewrite Hfind. reflexivity.
Qed.

Lemma ResNet_init_unfold (arch : string) (input_shape : list Z)
    (pretrained : bool) (drop_rate : spec_float) (net1 net2 : ResNet.module K) :
  adapt_channels fresh_weight input_shape
    (torchvision_models (zoo_name arch) pretrained) = Ok net1 ->
  del_child "fc" net1 = Ok net2 ->
  rate_in_range drop_rate ->
  ResNet.__init__ torchvision_models fresh_weight arch input_shape pretrained
    drop_rate
  = Ok {| network := freeze (set_child "fc" (Module_ "fc" nn_Identity true []) net2);
          n_outputs := if String.eqb arch "resnet18" then 512 else 2048;
          dropout := Some (Module_ "dropout" (nn_Dropout drop_rate) true []);
          self_training := true |}.
Proof.
  unfold ResNet.__init__, zoo_name, rate_out_of_range. intros Had Hdel [Hlo Hhi].
  destruct (String.eqb arch "resnet18"); rewrite Had, Hdel, Hlo, Hhi;
    reflexivity.
Qed.

(** A rate below 0 or above 1 is rejected when the dropout is built,
    after the network has been adapted. *)
Lemma ResNet_init_rate_rejected (arch : string) (input_shape : list Z)
    (pretrained : bool) (drop_rate : spec_float) (net1 net2 : ResNet.module K) :
  adapt_channels fresh_weight input_shape
    (torchvision_models (zoo_name arch) pretrained) = Ok net1 ->
  del_child "fc" net1 = Ok net2 ->
  rate_out_of_range drop_rate = true ->
  ResNet.__init__ torchvision_models fresh_weight arch input_shape pretrained
    drop_rate
  = Raise (ValueError "dropout probability has to be between 0 and 1").
Proof.
  unfold ResNet.__init__, zoo_name. intros Had Hdel Hrate.
  destruct (String.eqb arch "resnet18"); rewrite Had, Hdel, Hrate;
    reflexivity.
Qed.

(** The constructor returns on a torchvision network, and [conv1] of the
    result is determined by the number of input channels. *)
Lemma ResNet_init_run (arch : string) (nc : Z) (rest : list Z)
    (pretrained : bool) (drop_rate : spec_float) :
  torchvision_resnet (torchvision_models (zoo_name arch) pretrained) ->
  fresh_shaped fresh_weight ->
  0 <= nc ->
  rate_in_range drop_rate ->
  exists self tmp,
    ResNet.__init__ torchvision_models fresh_weight arch (nc :: rest)
      pretrained drop_rate = Ok self
    /\ all_bn_eval (network self) = true
    /\ self_training self = true
    /\ conv1_weight (torchvision_models (zoo_name arch) pretrained) = Ok tmp
    /\ (nc = 3 ->
          get_child "conv1" (network self)
          = get_child "conv1" (torchvision_models (zoo_name arch) pretrained))
    /\ (nc <> 3 ->
          exists w,
            get_child "conv1" (network self)
            = Ok (Module_ "conv1"
                    (Conv2d {| in_channels := nc; out_channels := 64;
                               kernel_size := (7, 7); stride := (2, 2);
                               padding := (3, 3); has_bias := false;
                               conv_weight := w |}) true [])
            /\ length w = 64%nat
            /\ Forall (fun row => length row = Z.to_nat nc) w
            /\ forall o i row0,
                 (i < Z.to_nat nc)%nat -> tmp !! o = Some row0 ->
                 exists row, w !! o = Some row
                             /\ row !! i = row0 !! (i mod 3)%nat).
Proof.
  set (net0 := torchvision_models (zoo_name arch) pretrained).
  intros (Hbn & (cp & tr & Hconv1 & Hlen & Hrows) & Hfc) Hfresh Hnc Hrate.
  assert (Htmp : conv1_weight net0 = Ok (conv_weight cp)).
  { unfold conv1_weight. rewrite Hconv1. reflexivity. }
  destruct (Z.eq_dec nc 3) as [-> | Hne].
  - (* three channels: nothing to adapt *)
    destruct (del_child "fc" net0) as [net2|e] eqn:Hdel; [| discriminate].
    eexists. exists (conv_weight cp).
    split; [apply (ResNet_init_unfold arch (3 :: rest) pretrained drop_rate net0 net2);
            [reflexivity | exact Hdel | exact Hrate] |].
    cbn [network self_training].
    split; [apply all_bn_eval_freeze |]. split; [reflexivity |].
    split; [exact Htmp |]. split; [| intros Hc; contradiction].
    intros _.
    rewrite (conv1_after_fc_and_freeze net0 net2 _ Hbn Hdel Hconv1).
    rewrite Hconv1. reflexivity.
  - (* any other number of channels *)
    destruct (Hfresh 64%nat (Z.to_nat nc)) as [Hfl Hfr].
    destruct (copy_channels_run (conv_weight cp) (Z.to_nat nc) Hrows
                (range (Z.to_nat nc)) (fresh_weight 64 (Z.to_nat nc)))
      as (w & Hw & Hwl & Hwr & Hspec).
    { apply Forall_forall. intros i Hi. unfold range in Hi.
      apply elem_of_seq in Hi. lia. }
    { rewrite Hfl, Hlen. reflexivity. }
    { exact Hfr. }
    set (newc := Module_ "conv1"
                   (Conv2d {| in_channels := nc; out_channels := 64;
                              kernel_size := (7, 7); stride := (2, 2);
                              padding := (3, 3); has_bias := false;
                              conv_weight := w |}) true []).
    assert (Hadapt : adapt_channels fresh_weight (nc :: rest) net0
                     = Ok (set_child "conv1" newc net0)).
    { unfold adapt_channels, index_first. rewrite Htmp.
      replace (Z.eqb nc 3) with false by (symmetry; apply Z.eqb_neq; exact Hne).
      replace (Z.ltb nc 0) with false by (symmetry; apply Z.ltb_ge; exact Hnc).
      cbn [negb]. rewrite Hw. reflexivity. }
    destruct net0 as [n0 c0 t0 cs0] eqn:Enet0.
    assert (Hget1 : get_child "conv1" (set_child "conv1" newc (Module_ n0 c0 t0 cs0))
                    = Ok newc).
    { unfold get_child. cbn [set_child newc children].
      rewrite find_assign_same by reflexivity. reflexivity. }
    assert (Hdel1 : is_ok (del_child "fc" (set_child "conv1" newc (Module_ n0 c0 t0 cs0)))
                    = true).
    { cbn [set_child newc del_child].
      pose proof (remove_assign_other "conv1" "fc" newc cs0 eq_refl
                    ltac:(discriminate)) as Hra.
      unfold del_child in Hfc.
      destruct (remove "fc" cs0) as [r|e]; [| discriminate].
      specialize (Hra eq_refl). cbn [newc] in Hra.
      destruct (remove "fc" (assign "conv1" _ cs0)); [reflexivity | discriminate]. }
    destruct (del_child "fc" (set_child "conv1" newc (Module_ n0 c0 t0 cs0)))
      as [net2|e] eqn:Hdel; [| discriminate].
    eexists. exists (conv_weight cp).
    split; [apply (ResNet_init_unfold arch (nc :: rest) pretrained drop_rate
                     (set_child "conv1" newc (Module_ n0 c0 t0 cs0)) net2);
            [fold net0; rewrite Enet0; exact Hadapt | exact Hdel | exact Hrate] |].
    cbn [network self_training].
    split; [apply all_bn_eval_freeze |]. split; [reflexivity |].
    split; [exact Htmp |]. split; [intros Hc; contradiction |].
    intros _. exists w.
    rewrite (conv1_after_fc_and_freeze
               (set_child "conv1" newc (Module_ n0 c0 t0 cs0)) net2 newc
               Hbn Hdel Hget1).
    split; [reflexivity |]. split; [rewrite Hwl; exact Hlen |].
    split; [exact Hwr |].
    intros o i row0 Hi Hrow0.
    destruct (lookup_lt_is_Some_2 (fresh_weight 64 (Z.to_nat nc)) o) as [roww Hroww].
    { rewrite Hfl, <- Hlen. eapply lookup_lt_Some, Hrow0. }
    destruct (Hspec o row0 roww Hrow0 Hroww) as (row & Hrow & Hchar).
    exists row. split; [exact Hrow |]. apply (Hchar i).
    unfold range. apply elem_of_seq. lia.
Qed.

End ResNetInit.

Lemma tiny_resnet_torchvision : torchvision_resnet tiny_resnet.
Proof.
  split; [reflexivity | split; [| reflexivity]].
  exists (tiny_conv tiny_conv1_weight), true.
  split; [reflexivity | split; [reflexivity |]].
  apply Forall_forall. intros row Hin. cbn [tiny_conv ResNet.conv_weight] in Hin.
  unfold tiny_conv1_weight in Hin.
  apply list_elem_of_fmap in Hin as [o [-> _]]. reflexivity.
Qed.

Lemma zero_weight_shaped : fresh_shaped zero_weight.
Proof.
  intros c_out c_in. unfold zero_weight. split.
  - apply length_replicate.
  - apply Forall_replicate, length_replicate.
Qed.

(* ===================================================================== *)
(** * ResNet: main results                                                *)
(* ===================================================================== *)

(** C4: channel adaptation.  On a torchvision network, for a number of
    channels that is not negative and a dropout rate that [nn.Dropout]
    accepts, the constructor returns; when
    [input_shape[0]] is not 3 it replaces [conv1] by a
    7x7, stride-2, padding-3 convolution without bias that takes
    [input_shape[0]] input channels and gives 64 output channels, and for
    every input channel [i] its weight slices are those of channel
    [i % 3] of the original [conv1]; when [input_shape[0]] is 3, [conv1]
    is the original one. *)
Theorem C4_channel_adaptation {K : Type}
    (torchvision_models : string -> bool -> ResNet.module K)
    (fresh_weight : nat -> nat -> list (list K))
    (arch : string) (nc : Z) (rest : list Z) (pretrained : bool)
    (drop_rate : spec_float) :
  torchvision_resnet (torchvision_models (zoo_name arch) pretrained) ->
  fresh_shaped fresh_weight ->
  0 <= nc ->
  rate_in_range drop_rate ->
  exists self tmp,
    ResNet.__init__ torchvision_models fresh_weight arch (nc :: rest)
      pretrained drop_rate = Ok self
    /\ ResNet.conv1_weight (torchvision_models (zoo_name arch) pretrained)
       = Ok tmp
    /\ (nc <> 3 ->
          exists cp tr,
            ResNet.get_child "conv1" (ResNet.network self)
            = Ok (ResNet.Module_ "conv1" (ResNet.Conv2d cp) tr [])
            /\ ResNet.in_channels cp = nc
            /\ ResNet.out_channels cp = 64
            /\ ResNet.kernel_size cp = (7, 7)
            /\ ResNet.stride cp = (2, 2)
            /\ ResNet.padding cp = (3, 3)
            /\ ResNet.has_bias cp = false
            /\ forall (o i : nat) (row0 : list K),
                 Z.of_nat i < nc -> tmp !! o = Some row0 ->
                 exists row,
                   ResNet.conv_weight cp !! o = Some row
                   /\ row !! i = row0 !! (i mod 3)%nat)
    /\ (nc = 3 ->
          ResNet.get_child "conv1" (ResNet.network self)
          = ResNet.get_child "conv1"
              (torchvision_models (zoo_name arch) pretrained)).
Proof.
  intros Hnet Hfresh Hnc Hrate.
  destruct (ResNet_init_run torchvision_models fresh_weight arch nc rest
              pretrained drop_rate Hnet Hfresh Hnc Hrate)
    as (self & tmp & Hrun & _ & _ & Htmp & Hsame & Hother).
  exists self, tmp. split; [exact Hrun | split; [exact Htmp | split]].
  - intros Hne. destruct (Hother Hne) as (w & Hget & _ & _ & Hw).
    eexists. exists true. split; [exact Hget |]. cbn.
    repeat split. intros o i row0 Hi Hrow0. apply Hw; [lia | exact Hrow0].
  - exact Hsame.
Qed.

Lemma C4_channel_adaptation_witness :
  exists self tmp,
    ResNet.__init__ tiny_zoo zero_weight "resnet18" [5; 32; 32] false
      (S754_zero false) = Ok self
    /\ ResNet.conv1_weight (tiny_zoo (zoo_name "resnet18") false) = Ok tmp
    /\ (5 <> 3 ->
          exists cp tr,
            ResNet.get_child "conv1" (ResNet.network self)
            = Ok (ResNet.Module_ "conv1" (ResNet.Conv2d cp) tr [])
            /\ ResNet.in_channels cp = 5
            /\ ResNet.out_channels cp = 64
            /\ ResNet.kernel_size cp = (7, 7)
            /\ ResNet.stride cp = (2, 2)
            /\ ResNet.padding cp = (3, 3)
            /\ ResNet.has_bias cp = false
            /\ forall (o i : nat) (row0 : list Z),
                 Z.of_nat i < 5 -> tmp !! o = Some row0 ->
                 exists row,
                   ResNet.conv_weight cp !! o = Some row
                   /\ row !! i = row0 !! (i mod 3)%nat)
    /\ (5 = 3 ->
          ResNet.get_child "conv1" (ResNet.network self)
          = ResNet.get_child "conv1" (tiny_zoo (zoo_name "resnet18") false)).
Proof.
  apply (C4_channel_adaptation tiny_zoo zero_weight "resnet18" 5 [32; 32] false
           (S754_zero false)).
  - exact tiny_resnet_torchvision.
  - exact zero_weight_shaped.
  - lia.
  - split; reflexivity.
Defined.

(** A dropout rate of 1.5 is rejected by the constructor, a negative
    number of channels by the new convolution. *)
Example ResNet_invalid_arguments :
  ResNet.__init__ tiny_zoo zero_weight "resnet18" [3; 32; 32] false
    (S754_finite false 6755399441055744 (-52))
  = Raise (ValueError "dropout probability has to be between 0 and 1")
  /\ ResNet.__init__ tiny_zoo zero_weight "resnet18" [-1; 32; 32] false
       (S754_zero false)
     = Raise RuntimeError.
Proof. split; vm_compute; reflexivity. Qed.

(** The adapted weight on the small network: with five input channels
    the slices of output channel 1 are those of channels 0, 1, 2, 0, 1 of
    the original. *)
Example adapt_five_channels :
  match ResNet.__init__ tiny_zoo zero_weight "resnet18" [5; 32; 32] false
          (S754_zero false) with
  | Ok self =>
      match ResNet.conv1_weight (ResNet.network self) with
      | Ok w => w !! 1%nat = Some [3; 4; 5; 3; 4]
      | Raise _ => False
      end
  | Raise _ => False
  end.
Proof. vm_compute. reflexivity. Qed.

(** C8: the batch norms stay frozen.  After the constructor (which
    returns on a torchvision network, for a number of channels that is
    not negative and a dropout rate that [nn.Dropout] accepts), and after
    [train(mode)] on any ResNet object and for either [mode], every
    [BatchNorm2d] module of [self.network] has its [training] flag
    cleared, while the ResNet's own flag is [mode]. *)
Theorem C8_batchnorm_frozen {K : Type}
    (torchvision_models : string -> bool -> ResNet.module K)
    (fresh_weight : nat -> nat -> list (list K))
    (arch : string) (nc : Z) (rest : list Z) (pretrained : bool)
    (drop_rate : spec_float) :
  torchvision_resnet (torchvision_models (zoo_name arch) pretrained) ->
  fresh_shaped fresh_weight ->
  0 <= nc ->
  rate_in_range drop_rate ->
  exists self,
    ResNet.__init__ torchvision_models fresh_weight arch (nc :: rest)
      pretrained drop_rate = Ok self
    /\ ResNet.all_bn_eval (ResNet.network self) = true
    /\ ResNet.self_training self = true
    /\ forall (r : ResNet.t K) (mode : bool),
         ResNet.all_bn_eval (ResNet.network (ResNet.train r mode)) = true
         /\ ResNet.self_training (ResNet.train r mode) = mode.
Proof.
  intros Hnet Hfresh Hnc Hrate.
  destruct (ResNet_init_run torchvision_models fresh_weight arch nc rest
              pretrained drop_rate Hnet Hfresh Hnc Hrate)
    as (self & tmp & Hrun & Hbn & Htr & _).
  exists self. split; [exact Hrun | split; [exact Hbn | split; [exact Htr |]]].
  intros r mode. split; [| reflexivity].
  unfold ResNet.train, ResNet.freeze_bn. cbn [ResNet.network].
  apply all_bn_eval_freeze.
Qed.

Lemma C8_batchnorm_frozen_witness :
  exists self,
    ResNet.__init__ tiny_zoo zero_weight "resnet50" [3; 32; 32] false
      (S754_zero false) = Ok self
    /\ ResNet.all_bn_eval (ResNet.network self) = true
    /\ ResNet.self_training self = true
    /\ forall (r : ResNet.t Z) (mode : bool),
         ResNet.all_bn_eval (ResNet.network (ResNet.train r mode)) = true
         /\ ResNet.self_training (ResNet.train r mode) = mode.
Proof.
  apply (C8_batchnorm_frozen tiny_zoo zero_weight "resnet50" 3 [32; 32] false
           (S754_zero false)).
  - exact tiny_resnet_torchvision.
  - exact zero_weight_shaped.
  - lia.
  - split; reflexivity.
Defined.

(** In training mode on the small network: the ResNet, its root and its
    convolutions are in training mode, its batch norms are not. *)
Example train_keeps_batchnorm_frozen :
  match ResNet.__init__ tiny_zoo zero_weight "resnet18" [3; 32; 32] false
          (S754_zero false) with
  | Ok self =>
      let r := ResNet.train (ResNet.train self false) true in
      ResNet.self_training r = true
      /\ ResNet.training (ResNet.network r) = true
      /\ (ResNet.training <$> ResNet.children (ResNet.network r))
         = [true; false; true; true; true]
  | Raise _ => False
  end.
Proof. vm_compute. repeat split; reflexivity. Qed.

(* ===================================================================== *)
(** * The loader: further properties                                      *)
(* ===================================================================== *)

Lemma for_each_app {S A} (xs ys : list A) (body : A -> M S unit) (s : S) :
  for_each (xs ++ ys) body s
  = bind (for_each xs body) (fun _ => for_each ys body) s.
Proof.
  revert s. induction xs as [|x xs IH]; intros s.
  - reflexivity.
  - cbn [app for_each]. rewrite bind_assoc. apply bind_ext.
    intros _ s'. apply IH.
Qed.

(** X1: a cache whose three arrays do not have the same number of
    samples makes the constructor fail.  With at least one environment
    the first boolean-mask selection raises [IndexError]:
    [self.datasets] is left as the empty list and [dataset_transform] is
    never called. *)
Theorem malformed_cache_raises_IndexError {D : Type} (fs : filesystem)
    (root : string) (p : pickle) (envs shape : list Z) (classes : Z)
    (dataset_transform : ndarray -> list Z -> result D) (o0 : obj D) :
  fs root = Some p ->
  ~ well_formed p ->
  envs <> [] ->
  exists o,
    Sine.__init__ fs (Some root) envs dataset_transform shape classes o0
    = (o, Raise IndexError)
    /\ datasets o = Some []
    /\ forall other : ndarray -> list Z -> result D,
         Sine.__init__ fs (Some root) envs other shape classes o0
         = (o, Raise IndexError).
Proof.
  intros Hfs Hbad Henvs.
  destruct envs as [|e envs]; [congruence |].
  assert (Hrun : forall tr : ndarray -> list Z -> result D,
            Sine.__init__ fs (Some root) (e :: envs) tr shape classes o0
            = (loaded (e :: envs) shape classes p [], Raise IndexError)).
  { intros tr. unfold Sine.__init__, _load_cache, range.
    rewrite !bind_modify, Hfs. unfold bind, modify, getattr, ret.
    cbn -[for_each normalized loop_body].
    cbn [length seq for_each]. unfold bind at 1.
    erewrite loop_body_malformed; [reflexivity | reflexivity |].
    cbn [data label domain set_data]. rewrite normalized_length. exact Hbad. }
  eexists. split; [apply Hrun | split; [reflexivity | intros; apply Hrun]].
Qed.

Lemma malformed_cache_raises_IndexError_witness :
  exists o,
    Sine.__init__ (one_file "toy.pkl" short_domain) (Some "toy.pkl"%string)
      ToySine.environments ToySine.process_dataset [1; 1] 2 new_obj
    = (o, Raise IndexError)
    /\ datasets o = Some []
    /\ forall other : ndarray -> list Z -> result TensorDataset,
         Sine.__init__ (one_file "toy.pkl" short_domain) (Some "toy.pkl"%string)
           ToySine.environments other [1; 1] 2 new_obj
         = (o, Raise IndexError).
Proof.
  apply (malformed_cache_raises_IndexError (one_file "toy.pkl" short_domain)
           "toy.pkl" short_domain ToySine.environments [1; 1] 2
           ToySine.process_dataset new_obj).
  - reflexivity.
  - intros [Hrows _]. cbn in Hrows. lia.
  - discriminate.
Defined.

(** X2: an exception of [dataset_transform] leaves the constructor with
    the datasets built so far.  When the transform accepts the
    partitions of the domains below [k] and raises on domain [k], the
    constructor raises the same exception and [self.datasets] holds
    exactly the [k] datasets of the domains before it. *)
Theorem transform_exception_propagates {D : Type} (fs : filesystem)
    (root : string) (p : pickle) (envs shape : list Z) (classes : Z)
    (dataset_transform : ndarray -> list Z -> result D) (F : nat -> D)
    (k : nat) (e : exn) (o0 : obj D) :
  fs root = Some p ->
  well_formed p ->
  (k < length envs)%nat ->
  (forall d, (d < k)%nat ->
     dataset_transform (partition_data d p) (partition_labels d p) = Ok (F d)) ->
  dataset_transform (partition_data k p) (partition_labels k p) = Raise e ->
  exists o,
    Sine.__init__ fs (Some root) envs dataset_transform shape classes o0
    = (o, Raise e)
    /\ datasets o = Some (map F (seq 0 k)).
Proof.
  intros Hfs Hwf Hk Hok Hraise.
  exists (loaded envs shape classes p (map F (seq 0 k))).
  split; [| reflexivity].
  unfold Sine.__init__, _load_cache, range.
  rewrite !bind_modify, Hfs. unfold bind, modify, getattr, ret.
  cbn -[for_each normalized loop_body].
  replace (length envs) with (k + S (length envs - S k))%nat by lia.
  rewrite seq_app, for_each_app. unfold bind at 1.
  rewrite (loop_run dataset_transform p Hwf F k 0%nat []);
    [| reflexivity | reflexivity | intros d Hd; apply Hok; lia].
  cbn [seq for_each]. unfold bind at 1.
  rewrite (loop_body_transform_raises dataset_transform p k e);
    [reflexivity | exact Hwf | reflexivity | exact Hraise].
Qed.

Lemma transform_exception_propagates_witness :
  exists o,
    Sine.__init__ (one_file "toy.pkl" two_domains) (Some "toy.pkl"%string)
      ToySine.environments reject_empty [1; 1] 2 new_obj
    = (o, Raise (ValueError "empty domain"))
    /\ datasets o
       = Some (map (fun d => {| tensor_x := partition_data d two_domains;
                                tensor_y := partition_labels d two_domains |})
                   (seq 0 2)).
Proof.
  apply (transform_exception_propagates (one_file "toy.pkl" two_domains)
           "toy.pkl" two_domains ToySine.environments [1; 1] 2 reject_empty
           (fun d => {| tensor_x := partition_data d two_domains;
                        tensor_y := partition_labels d two_domains |})
           2%nat (ValueError "empty domain") new_obj).
  - reflexivity.
  - split; reflexivity.
  - cbn. lia.
  - intros [|[|d]] Hd; [vm_compute; reflexivity | vm_compute; reflexivity | lia].
  - vm_compute. reflexivity.
Defined.

Section Lossless.
Context {A : Type}.

Lemma samples_of_domain_cons (d v : Z) (x : A) (xs : list A) (dom : list Z) :
  samples_of_domain d (x :: xs) (v :: dom)
  = if decide (v = d) then x :: samples_of_domain d xs dom
    else samples_of_domain d xs dom.
Proof.
  unfold samples_of_domain. cbn [zip zip_with]. rewrite filter_cons. cbn [snd].
  destruct (decide (v = d)); reflexivity.
Qed.

Lemma concat_no_match (v : Z) (x : A) (S : nat -> list A) (l : list nat) :
  (forall d, d ∈ l -> v <> Z.of_nat d) ->
  concat (map (fun d => if decide (v = Z.of_nat d) then x :: S d else S d) l)
  = concat (map S l).
Proof.
  induction l as [|d l IH]; intros Hno; [reflexivity |].
  cbn [map concat]. rewrite decide_False by (apply Hno; left).
  rewrite IH; [reflexivity |]. intros d' Hd'. apply Hno. right. exact Hd'.
Qed.

Lemma concat_one_match (v : Z) (x : A) (S : nat -> list A) (l : list nat)
    (k : nat) :
  NoDup l -> k ∈ l -> v = Z.of_nat k ->
  concat (map (fun d => if decide (v = Z.of_nat d) then x :: S d else S d) l)
  ≡ₚ x :: concat (map S l).
Proof.
  intros Hnd Hk ->. induction l as [|d l IH]; [inversion Hk |].
  apply NoDup_cons in Hnd as [Hd Hnd]. cbn [map concat].
  destruct (decide (Z.of_nat k = Z.of_nat d)) as [Heq | Hne].
  - apply Nat2Z.inj in Heq. subst d.
    rewrite concat_no_match; [reflexivity |].
    intros d' Hd' Heq. apply Nat2Z.inj in Heq. subst d'. contradiction.
  - apply elem_of_cons in Hk as [-> | Hk]; [congruence |].
    rewrite (IH Hnd Hk). symmetry. apply Permutation_middle.
Qed.

(** Cutting a list by domain index and putting the pieces of the domains
    [0..n-1] together again gives back, up to order, the samples whose
    index is in that range. *)
Lemma partition_lossless (n : nat) (dom : list Z) : forall xs : list A,
  concat (map (fun d => samples_of_domain (Z.of_nat d) xs dom) (seq 0 n))
  ≡ₚ samples_in_range n xs dom.
Proof.
  assert (Hnil : forall l : list nat,
            concat (map (fun _ : nat => @nil A) l) = []).
  { induction l as [|d l IH]; [reflexivity | exact IH]. }
  induction dom as [|v dom IH]; intros [|x xs].
  - cbn. rewrite Hnil. reflexivity.
  - unfold samples_of_domain, samples_in_range. cbn. rewrite Hnil. reflexivity.
  - unfold samples_of_domain, samples_in_range. cbn. rewrite Hnil. reflexivity.
  - rewrite (map_ext _ (fun d => if decide (v = Z.of_nat d)
                                 then x :: samples_of_domain (Z.of_nat d) xs dom
                                 else samples_of_domain (Z.of_nat d) xs dom))
      by (intros d; apply samples_of_domain_cons).
    unfold samples_in_range. cbn [zip zip_with]. rewrite filter_cons. cbn [snd].
    destruct (decide (0 <= v < Z.of_nat n)) as [Hin | Hout].
    + rewrite (concat_one_match v x _ (seq 0 n) (Z.to_nat v));
        [| apply NoDup_seq | apply elem_of_seq; lia | lia].
      cbn [fmap list_fmap]. apply Permutation_skip. apply IH.
    + rewrite concat_no_match; [apply IH |].
      intros d Hd ->. apply elem_of_seq in Hd. lia.
Qed.

Lemma samples_in_range_all (n : nat) (dom : list Z) : forall xs : list A,
  length xs = length dom ->
  Forall (fun v => 0 <= v < Z.of_nat n) dom ->
  samples_in_range n xs dom = xs.
Proof.
  induction dom as [|v dom IH]; intros [|x xs] Hlen Hall; cbn in Hlen; try lia.
  - reflexivity.
  - inversion Hall as [|? ? Hv Hall']; subst.
    unfold samples_in_range in *. cbn [zip zip_with].
    rewrite filter_cons, decide_True by exact Hv.
    cbn [fmap list_fmap fst]. f_equal. apply IH; [lia | exact Hall'].
Qed.

End Lossless.

Lemma concat_map_map {A B} (f : A -> B) (ls : list (list A)) :
  concat (map (map f) ls) = map f (concat ls).
Proof.
  induction ls as [|l ls IH]; [reflexivity |].
  cbn [map concat]. rewrite IH, map_app. reflexivity.
Qed.

(** X3: [ToySine] loses no sample with a domain in 0..23.  On a
    well-formed cache the labels of the 24 datasets, put together, are a
    rearrangement of the int64 labels of the samples whose domain is in
    0..23, and likewise for the data rows; when every domain value is in
    0..23 these are all the labels of the cache. *)
Theorem ToySine_partition_is_lossless (fs : filesystem) (root : string)
    (p : pickle) (shape : list Z) (classes : Z) (o0 : obj TensorDataset) :
  fs root = Some p ->
  well_formed p ->
  exists o ds,
    ToySine.__init__ fs (Some root) shape classes o0 = (o, Ok tt)
    /\ datasets o = Some ds
    /\ concat (map tensor_y ds)
       ≡ₚ astype_int64 (samples_in_range 24 (label p) (domain p))
    /\ concat (map (fun td => rows (tensor_x td)) ds)
       ≡ₚ rows (astype_float32
                  {| dt := dt (data p);
                     rows := samples_in_range 24 (rows (normalized (data p)))
                               (domain p) |})
    /\ (Forall (fun v => 0 <= v < 24) (domain p) ->
        concat (map tensor_y ds) ≡ₚ astype_int64 (label p)).
Proof.
  intros Hfs Hwf.
  exists (loaded ToySine.environments shape classes p (toy_datasets p)).
  exists (toy_datasets p).
  split; [apply ToySine_run; assumption |]. split; [reflexivity |].
  assert (Hlab : concat (map tensor_y (toy_datasets p))
                 ≡ₚ astype_int64 (samples_in_range 24 (label p) (domain p))).
  { unfold toy_datasets, ToySine.num_domains. rewrite map_map.
    cbn [tensor_y]. unfold partition_labels, astype_int64.
    rewrite <- (map_map (fun d => samples_of_domain (Z.of_nat d) (label p) (domain p))
                        (map to_int64)).
    rewrite concat_map_map. apply Permutation_map, partition_lossless. }
  split; [exact Hlab | split].
  - unfold toy_datasets, ToySine.num_domains. rewrite map_map.
    cbn [tensor_x]. unfold partition_data, astype_float32. cbn [dt rows].
    destruct (dt (data p)); cbn [rows].
    + apply partition_lossless.
    + rewrite <- (map_map (fun d => samples_of_domain (Z.of_nat d)
                                      (rows (normalized (data p))) (domain p))
                          (map (map to_float32))).
      rewrite concat_map_map. apply Permutation_map, partition_lossless.
  - intros Hall. rewrite Hlab.
    rewrite (samples_in_range_all 24 (domain p) (label p));
      [reflexivity | apply Hwf | exact Hall].
Qed.

Lemma ToySine_partition_is_lossless_witness :
  exists o ds,
    ToySine.__init__ (one_file "toy.pkl" constant_five) (Some "toy.pkl"%string)
      [1; 1] 2 new_obj = (o, Ok tt)
    /\ datasets o = Some ds
    /\ concat (map tensor_y ds)
       ≡ₚ astype_int64
            (samples_in_range 24 (label constant_five) (domain constant_five))
    /\ concat (map (fun td => rows (tensor_x td)) ds)
       ≡ₚ rows (astype_float32
                  {| dt := dt (data constant_five);
                     rows := samples_in_range 24
                               (rows (normalized (data constant_five)))
                               (domain constant_five) |})
    /\ (Forall (fun v => 0 <= v < 24) (domain constant_five) ->
        concat (map tensor_y ds) ≡ₚ astype_int64 (label constant_five)).
Proof.
  apply (ToySine_partition_is_lossless (one_file "toy.pkl" constant_five)
           "toy.pkl" constant_five [1; 1] 2 new_obj).
  - reflexivity.
  - split; reflexivity.
Defined.

Lemma astype_float32_float32 (a : ndarray) :
  dt a = float32 -> astype_float32 a = a.
Proof. intros Hdt. unfold astype_float32. rewrite Hdt. reflexivity. Qed.

Lemma astype_int64_in_range (l : list Z) :
  Forall (fun z => - 2 ^ 63 <= z < 2 ^ 63) l -> astype_int64 l = l.
Proof.
  intros Hall. unfold astype_int64. induction Hall as [|z l Hz _ IH];
    [reflexivity |].
  cbn [map]. rewrite IH, to_int64_small by exact Hz. reflexivity.
Qed.

(** X4: [process_dataset] succeeds exactly when data and labels have the
    same number of samples, and otherwise fails the size assertion of
    [TensorDataset].  Its result is float32 data over int64 labels of
    that common length, and on what the loader hands it -- float32 data
    and labels in the int64 range -- the conversions change nothing: the
    dataset holds the two arrays as they are. *)
Theorem process_dataset_behaviour (data : ndarray) (labels : list Z) :
  (len data <> length labels ->
     ToySine.process_dataset data labels = Raise AssertionError)
  /\ (len data = length labels ->
        exists td,
          ToySine.process_dataset data labels = Ok td
          /\ dt (tensor_x td) = float32
          /\ len (tensor_x td) = length labels
          /\ length (tensor_y td) = length labels
          /\ Forall (fun z => - 2 ^ 63 <= z < 2 ^ 63) (tensor_y td)
          /\ (dt data = float32 -> tensor_x td = data)
          /\ (Forall (fun z => - 2 ^ 63 <= z < 2 ^ 63) labels ->
              tensor_y td = labels)).
Proof.
  assert (Hlens : Nat.eqb (len (ToySine.float data)) (length (ToySine.long labels))
                  = Nat.eqb (len data) (length labels)).
  { unfold ToySine.float, ToySine.long, astype_int64.
    rewrite astype_float32_len, length_map. reflexivity. }
  unfold ToySine.process_dataset. rewrite Hlens. split.
  - intros Hne. apply Nat.eqb_neq in Hne. rewrite Hne. reflexivity.
  - intros Heq. rewrite Heq, Nat.eqb_refl. eexists. split; [reflexivity |].
    cbn [tensor_x tensor_y]. unfold ToySine.float, ToySine.long.
    split; [apply astype_float32_dt |].
    split; [rewrite astype_float32_len; exact Heq |].
    split; [unfold astype_int64; apply length_map |].
    split; [unfold astype_int64; apply Forall_forall; intros z Hz;
            apply list_elem_of_fmap in Hz as [z0 [-> _]]; apply to_int64_range |].
    split; [apply astype_float32_float32 | apply astype_int64_in_range].
Qed.

(** ** The shape of the normalized array *)

Lemma zip_with_rectangular (op : spec_float -> spec_float -> spec_float)
    (w : nat) (a b : list spec_float) :
  length a = w -> length b = w -> length (zip_with op a b) = w.
Proof. intros Ha Hb. rewrite length_zip_with. lia. Qed.

Lemma fold_add_length (t : dtype) (w : nat) (rs : list (list spec_float)) :
  rectangular w rs ->
  forall acc, length acc = w ->
  length (fold_left (fun acc row => zip_with (add t) acc row) rs acc) = w.
Proof.
  induction 1 as [|r rs Hr _ IH]; intros acc Hacc; [exact Hacc |].
  cbn [fold_left]. apply IH. apply zip_with_rectangular; assumption.
Qed.

Lemma add_reduce0_length (t : dtype) (w : nat) (rs : list (list spec_float)) :
  rectangular w rs -> rs <> [] -> length (add_reduce0 t rs) = w.
Proof.
  intros Hrect Hne. destruct rs as [|r rs]; [congruence |].
  inversion Hrect as [|? ? Hr Hrs]; subst. cbn [add_reduce0].
  destruct (Nat.eqb_spec (length r) 1) as [H1 | H1].
  - rewrite H1. reflexivity.
  - apply fold_add_length; [exact Hrs | reflexivity].
Qed.

Lemma broadcast_rectangular (op : spec_float -> spec_float -> spec_float)
    (w : nat) (rs : list (list spec_float)) (v : list spec_float) :
  rectangular w rs -> length v = w -> rectangular w (broadcast op rs v).
Proof.
  intros Hrect Hv. unfold rectangular, broadcast. apply Forall_fmap.
  eapply Forall_impl; [exact Hrect |]. intros r Hr. cbv beta.
  apply zip_with_rectangular; assumption.
Qed.

Lemma mean0_length (t : dtype) (w : nat) (rs : list (list spec_float)) :
  rectangular w rs -> rs <> [] -> length (mean0 t rs) = w.
Proof.
  intros Hrect Hne. unfold mean0. rewrite length_map.
  apply add_reduce0_length; assumption.
Qed.

Lemma std0_length (t : dtype) (w : nat) (rs : list (list spec_float)) :
  rectangular w rs -> rs <> [] -> length (std0 t rs) = w.
Proof.
  intros Hrect Hne. unfold std0. rewrite length_map.
  apply add_reduce0_length.
  - unfold rectangular. apply Forall_fmap.
    eapply Forall_impl;
      [exact (broadcast_rectangular (sub t) w rs (mean0 t rs) Hrect
                (mean0_length t w rs Hrect Hne)) |].
    intros r Hr. unfold compose. rewrite length_map. exact Hr.
  - destruct rs; [congruence | discriminate].
Qed.

(** X5: normalization keeps the shape and the dtype of the data.  An
    array of [N] rows with [F] features each is normalized into an array
    of [N] rows with [F] features each, in the same floating-point
    format; no row and no column is added or lost. *)
Theorem normalized_keeps_shape (a : ndarray) (w : nat) :
  rectangular w (rows a) ->
  dt (normalized a) = dt a
  /\ length (rows (normalized a)) = length (rows a)
  /\ rectangular w (rows (normalized a)).
Proof.
  intros Hrect. split; [reflexivity |]. split; [apply normalized_length |].
  destruct (rows a) as [|r rs] eqn:Erows.
  - cbn [rows normalized]. rewrite Erows. constructor.
  - assert (Hne : rows a <> []) by (rewrite Erows; discriminate).
    rewrite <- Erows in Hrect. cbn [rows normalized].
    apply broadcast_rectangular; [apply broadcast_rectangular |].
    + exact Hrect.
    + apply mean0_length; assumption.
    + apply std0_length; assumption.
Qed.

Lemma normalized_keeps_shape_witness :
  dt (normalized (data with_nan)) = dt (data with_nan)
  /\ length (rows (normalized (data with_nan))) = length (rows (data with_nan))
  /\ rectangular 2 (rows (normalized (data with_nan))).
Proof.
  apply (normalized_keeps_shape (data with_nan) 2).
  repeat constructor.
Defined.

(** ** NaN in the data *)

Lemma add_nan_l (t : dtype) (x : spec_float) : add t S754_nan x = S754_nan.
Proof. reflexivity. Qed.

Lemma add_nan_r (t : dtype) (x : spec_float) : add t x S754_nan = S754_nan.
Proof. destruct x; reflexivity. Qed.

Lemma sub_nan_r (t : dtype) (x : spec_float) : sub t x S754_nan = S754_nan.
Proof. destruct x; reflexivity. Qed.

Lemma div_nan_l (t : dtype) (x : spec_float) : div t S754_nan x = S754_nan.
Proof. reflexivity. Qed.

Lemma fold_add_nan_acc (t : dtype) (j : nat) (rs : list (list spec_float)) :
  Forall (fun r => (j < length r)%nat) rs ->
  forall acc, acc !! j = Some S754_nan ->
  fold_left (fun acc row => zip_with (add t) acc row) rs acc !! j
  = Some S754_nan.
Proof.
  induction 1 as [|r rs Hr _ IH]; intros acc Hacc; [exact Hacc |].
  cbn [fold_left]. apply IH.
  destruct (lookup_lt_is_Some_2 r j Hr) as [y Hy].
  rewrite lookup_zip_with, Hacc, Hy. reflexivity.
Qed.

Lemma fold_add_nan_row (t : dtype) (j : nat) (rs : list (list spec_float)) :
  Forall (fun r => (j < length r)%nat) rs ->
  (exists r, r ∈ rs /\ r !! j = Some S754_nan) ->
  forall acc, (j < length acc)%nat ->
  fold_left (fun acc row => zip_with (add t) acc row) rs acc !! j
  = Some S754_nan.
Proof.
  induction 1 as [|r rs Hr Hrs IH]; intros (r0 & Hin & Hnan) acc Hacc.
  - inversion Hin.
  - cbn [fold_left].
    destruct (lookup_lt_is_Some_2 acc j Hacc) as [a Ha].
    destruct (lookup_lt_is_Some_2 r j Hr) as [y Hy].
    apply elem_of_cons in Hin as [-> | Hin].
    + apply fold_add_nan_acc; [exact Hrs |].
      rewrite lookup_zip_with, Ha, Hnan. cbn. rewrite add_nan_r. reflexivity.
    + apply IH; [exists r0; split; assumption |].
      rewrite length_zip_with. lia.
Qed.

Lemma sum_from_nan_acc (t : dtype) (xs : list spec_float) :
  sum_from t S754_nan xs = S754_nan.
Proof.
  unfold sum_from. induction xs as [|x xs IH]; [reflexivity |].
  cbn [fold_left]. rewrite add_nan_l. exact IH.
Qed.

Lemma sum_from_nan_elem (t : dtype) (xs : list spec_float) :
  S754_nan ∈ xs -> forall x, sum_from t x xs = S754_nan.
Proof.
  unfold sum_from. induction xs as [|y xs IH]; intros Hin x.
  - inversion Hin.
  - cbn [fold_left]. apply elem_of_cons in Hin as [<- | Hin].
    + rewrite add_nan_r. apply sum_from_nan_acc.
    + apply IH, Hin.
Qed.

Lemma zip_add_nan_l (t : dtype) (a b : list spec_float) :
  length a = length b -> S754_nan ∈ a -> S754_nan ∈ zip_with (add t) a b.
Proof.
  intros Hlen Hin. apply list_elem_of_lookup in Hin as [i Hi].
  destruct (lookup_lt_is_Some_2 b i) as [y Hy].
  { rewrite <- Hlen. eapply lookup_lt_Some, Hi. }
  apply list_elem_of_lookup. exists i.
  rewrite lookup_zip_with, Hi, Hy. reflexivity.
Qed.

Lemma zip_add_nan_r (t : dtype) (a b : list spec_float) :
  length a = length b -> S754_nan ∈ b -> S754_nan ∈ zip_with (add t) a b.
Proof.
  intros Hlen Hin. apply list_elem_of_lookup in Hin as [i Hi].
  destruct (lookup_lt_is_Some_2 a i) as [x Hx].
  { rewrite Hlen. eapply lookup_lt_Some, Hi. }
  apply list_elem_of_lookup. exists i.
  rewrite lookup_zip_with, Hi, Hx. cbn. rewrite add_nan_r. reflexivity.
Qed.

Lemma add_groups_nan (t : dtype) : forall (k : nat) (r xs : list spec_float),
  length r = 8%nat -> (8 * k <= length xs)%nat ->
  S754_nan ∈ r \/ S754_nan ∈ xs ->
  length (add_groups t r xs k).1 = 8%nat
  /\ (S754_nan ∈ (add_groups t r xs k).1
      \/ S754_nan ∈ (add_groups t r xs k).2).
Proof.
  induction k as [|k IH]; intros r xs Hr Hxs Hnan.
  - cbn [add_groups fst snd]. split; assumption.
  - cbn [add_groups].
    assert (Htake : length (take 8 xs) = 8%nat) by (rewrite length_take; lia).
    apply IH.
    + rewrite length_zip_with, Hr, Htake. reflexivity.
    + rewrite length_drop. lia.
    + destruct Hnan as [Hnan | Hnan].
      * left. apply zip_add_nan_l; [congruence | exact Hnan].
      * rewrite <- (take_drop 8 xs) in Hnan.
        apply elem_of_app in Hnan as [Hnan | Hnan].
        -- left. apply zip_add_nan_r; [congruence | exact Hnan].
        -- right. exact Hnan.
Qed.

Lemma add_tree_nan (t : dtype) (r : list spec_float) :
  length r = 8%nat -> S754_nan ∈ r -> add_tree t r = S754_nan.
Proof.
  intros Hlen Hin.
  do 8 (destruct r as [|? r]; [discriminate |]).
  destruct r; [| discriminate].
  cbn [add_tree].
  repeat (apply elem_of_cons in Hin as [<- | Hin]);
    [.. | inversion Hin];
    repeat (rewrite add_nan_l || rewrite add_nan_r); reflexivity.
Qed.

Lemma block_sum_nan (t : dtype) (a : list spec_float) :
  (8 <= length a)%nat -> S754_nan ∈ a -> block_sum t a = S754_nan.
Proof.
  intros Hlen Hin. unfold block_sum.
  assert (Hdiv : (1 <= length a / 8)%nat).
  { apply (Nat.div_le_lower_bound (length a) 8 1); lia. }
  pose proof (Nat.div_mod_eq (length a) 8) as Hdm.
  destruct (add_groups_nan t (length a / 8 - 1) (take 8 a) (drop 8 a))
    as [Hr Hnan].
  { rewrite length_take. lia. }
  { rewrite length_drop. lia. }
  { rewrite <- (take_drop 8 a) in Hin. apply elem_of_app in Hin. exact Hin. }
  destruct (add_groups t (take 8 a) (drop 8 a) (length a / 8 - 1))
    as [r rest]. cbn [fst snd] in Hr, Hnan.
  destruct Hnan as [Hnan | Hnan].
  - rewrite (add_tree_nan t r Hr Hnan). apply sum_from_nan_acc.
  - apply sum_from_nan_elem, Hnan.
Qed.

(** A NaN anywhere in a run makes its pairwise sum NaN. *)
Lemma pairwise_sum_nan (t : dtype) : forall (fuel : nat) (a : list spec_float),
  S754_nan ∈ a -> pairwise_sum t fuel a = S754_nan.
Proof.
  assert (Hsmall : forall a : list spec_float,
            S754_nan ∈ a ->
            match a with
            | [] => S754_zero true
            | x :: xs => sum_from t x xs
            end = S754_nan).
  { intros [|x xs] Hin; [inversion Hin |].
    apply elem_of_cons in Hin as [<- | Hin];
      [apply sum_from_nan_acc | apply sum_from_nan_elem, Hin]. }
  induction fuel as [|fuel IH]; intros a Hin; cbn [pairwise_sum].
  - destruct (Nat.ltb_spec (length a) 8) as [Hlt | Hge]; [apply Hsmall, Hin |].
    destruct (Nat.leb (length a) 128); apply block_sum_nan; assumption.
  - destruct (Nat.ltb_spec (length a) 8) as [Hlt | Hge]; [apply Hsmall, Hin |].
    destruct (Nat.leb (length a) 128); [apply block_sum_nan; assumption |].
    rewrite <- (take_drop (length a / 2 - (length a / 2) mod 8) a) in Hin at 1.
    apply elem_of_app in Hin as [Hin | Hin].
    + rewrite (IH _ Hin). apply add_nan_l.
    + rewrite (IH _ Hin). apply add_nan_r.
Qed.

Lemma pairwise_sum_S (t : dtype) (fuel : nat) (a : list spec_float) :
  pairwise_sum t (S fuel) a
  = if Nat.ltb (length a) 8 then
      match a with
      | [] => S754_zero true
      | x :: xs => sum_from t x xs
      end
    else if Nat.leb (length a) 128 then block_sum t a
    else
      add t
        (pairwise_sum t fuel
           (take (length a / 2 - (length a / 2) mod 8) a))
        (pairwise_sum t fuel
           (drop (length a / 2 - (length a / 2) mod 8) a)).
Proof. reflexivity. Qed.

(** The fuel that [add_reduce0] gives is enough: from the length of the
    run on, more fuel does not change the sum, so the splitting never
    stops for lack of fuel. *)
Lemma pairwise_sum_fuel (t : dtype) : forall (fuel : nat) (a : list spec_float),
  (length a <= 128 + fuel)%nat ->
  pairwise_sum t (S fuel) a = pairwise_sum t fuel a.
Proof.
  induction fuel as [|fuel IH]; intros a Hlen.
  - cbn [pairwise_sum].
    destruct (Nat.ltb (length a) 8); [reflexivity |].
    destruct (Nat.leb_spec (length a) 128) as [Hle | Hgt]; [reflexivity | lia].
  - rewrite (pairwise_sum_S t (S fuel) a), (pairwise_sum_S t fuel a).
    destruct (Nat.ltb (length a) 8); [reflexivity |].
    destruct (Nat.leb_spec (length a) 128) as [Hle | Hgt]; [reflexivity |].
    assert (Hhalf : (64 <= length a / 2)%nat).
    { apply (Nat.div_le_lower_bound (length a) 2 64); lia. }
    assert (Hdown : (length a / 2 < length a)%nat).
    { apply Nat.div_lt; lia. }
    pose proof (Nat.mod_upper_bound (length a / 2) 8 ltac:(lia)) as Hmod.
    rewrite (IH (take (length a / 2 - (length a / 2) mod 8) a))
      by (rewrite length_take; lia).
    rewrite (IH (drop (length a / 2 - (length a / 2) mod 8) a))
      by (rewrite length_drop; lia).
    reflexivity.
Qed.

(** X6: one NaN spoils its whole column.  When some sample has NaN in
    feature [j], the computed mean of feature [j] is NaN and every row of
    the normalized array has NaN in feature [j]. *)
Theorem nan_spoils_column (a : ndarray) (w j : nat) :
  rectangular w (rows a) ->
  (j < w)%nat ->
  (exists r, r ∈ rows a /\ r !! j = Some S754_nan) ->
  mean0 (dt a) (rows a) !! j = Some S754_nan
  /\ forall r', r' ∈ rows (normalized a) -> r' !! j = Some S754_nan.
Proof.
  intros Hrect Hj Hnan.
  assert (Hidx : Forall (fun r => (j < length r)%nat) (rows a)).
  { eapply Forall_impl; [exact Hrect |]. intros r Hr. cbv beta in Hr |- *. lia. }
  assert (Hne : rows a <> []).
  { destruct Hnan as (r & Hin & _). intros Hnil. rewrite Hnil in Hin.
    inversion Hin. }
  assert (Hmean : mean0 (dt a) (rows a) !! j = Some S754_nan).
  { unfold mean0. rewrite list_lookup_fmap.
    assert (Hsum : add_reduce0 (dt a) (rows a) !! j = Some S754_nan).
    { destruct (rows a) as [|r0 rs]; [congruence |].
      inversion Hidx as [|? ? Hr0 Hrs]; subst. cbn [add_reduce0].
      destruct Hnan as (r & Hin & Hr).
      destruct (Nat.eqb_spec (length r0) 1) as [H1 | H1].
      - inversion Hrect as [|? ? Hw _]; subst.
        assert (Hj0 : j = 0%nat) by lia. subst j.
        rewrite pairwise_sum_nan; [reflexivity |].
        apply list_elem_of_In, in_concat. exists r.
        split; apply list_elem_of_In; [exact Hin |].
        eapply list_elem_of_lookup_2, Hr.
      - apply elem_of_cons in Hin as [-> | Hin].
        + apply fold_add_nan_acc; assumption.
        + apply fold_add_nan_row;
            [exact Hrs | exists r; split; assumption | exact Hr0]. }
    rewrite Hsum. reflexivity. }
  split; [exact Hmean |].
  intros r' Hr'. cbn [rows normalized] in Hr'. unfold broadcast in Hr'.
  apply list_elem_of_fmap in Hr' as [y [-> Hy]].
  apply list_elem_of_fmap in Hy as [r [-> Hr]].
  destruct (lookup_lt_is_Some_2 r j) as [x Hx].
  { rewrite Forall_forall in Hidx. apply Hidx, Hr. }
  destruct (lookup_lt_is_Some_2 (std0 (dt a) (rows a)) j) as [sd Hsd].
  { rewrite (std0_length (dt a) w (rows a) Hrect Hne). exact Hj. }
  rewrite !lookup_zip_with, Hx, Hmean, Hsd. cbn.
  rewrite sub_nan_r, div_nan_l. reflexivity.
Qed.

Lemma nan_spoils_column_witness :
  mean0 (dt (data with_nan)) (rows (data with_nan)) !! 0%nat = Some S754_nan
  /\ forall r', r' ∈ rows (normalized (data with_nan)) ->
                r' !! 0%nat = Some S754_nan.
Proof.
  apply (nan_spoils_column (data with_nan) 2 0).
  - repeat constructor.
  - lia.
  - exists [S754_nan; f64 4]. split; [right; left | reflexivity].
Defined.

(** ** The values of [environments] *)

Lemma loop_body_Environments {D} (tr : ndarray -> list Z -> result D)
    (d : nat) (envs : list Z) (o : obj D) :
  loop_body tr d (set_Environments envs o)
  = (set_Environments envs (loop_body tr d o).1, (loop_body tr d o).2).
Proof.
  unfold loop_body, bind, getattr, lift, modify. cbn [data_pkl set_Environments].
  destruct (data_pkl o) as [q|] eqn:Hq; [| reflexivity].
  cbv iota beta. cbn [data_pkl set_Environments]. rewrite ?Hq.
  destruct (select_rows (eq_scalar (domain q) (Z.of_nat d)) (data q))
    as [sel|e]; [| reflexivity].
  cbv iota beta. cbn [data_pkl set_Environments]. rewrite ?Hq.
  destruct (select (eq_scalar (domain q) (Z.of_nat d)) (label q))
    as [lab|e]; [| reflexivity].
  destruct (tr (astype_float32 sel) (astype_int64 lab)) as [ds|e];
    [| reflexivity].
  cbn [datasets set_Environments].
  destruct (datasets o) as [cur|]; reflexivity.
Qed.

Lemma for_each_Environments {D} (tr : ndarray -> list Z -> result D)
    (envs : list Z) (ds : list nat) : forall o : obj D,
  for_each ds (loop_body tr) (set_Environments envs o)
  = (set_Environments envs (for_each ds (loop_body tr) o).1,
     (for_each ds (loop_body tr) o).2).
Proof.
  induction ds as [|d ds IH]; intros o; [reflexivity |].
  cbn [for_each]. unfold bind. rewrite loop_body_Environments.
  destruct (loop_body tr d o) as [o1 [[]|e]]; cbn [fst snd];
    [apply IH | reflexivity].
Qed.

(** X7: the domains are positional.  The constructor uses only the
    number of [environments]: two environment lists of the same length
    give the same outcome (the same return or the same exception), the
    same datasets and the same stored cache, whatever their entries
    are. *)
Theorem environments_only_counted {D : Type} (fs : filesystem)
    (root : option string) (envs1 envs2 shape : list Z) (classes : Z)
    (dataset_transform : ndarray -> list Z -> result D) (o0 : obj D) :
  length envs1 = length envs2 ->
  let run1 := Sine.__init__ fs root envs1 dataset_transform shape classes o0 in
  let run2 := Sine.__init__ fs root envs2 dataset_transform shape classes o0 in
  run1.2 = run2.2
  /\ datasets run1.1 = datasets run2.1
  /\ data_pkl run1.1 = data_pkl run2.1
  /\ Environments run1.1 = Some envs1
  /\ Environments run2.1 = Some envs2.
Proof.
  intros Hlen run1 run2. subst run1 run2.
  unfold Sine.__init__, _load_cache, range. rewrite !bind_modify, Hlen.
  destruct root as [root|]; [| repeat split; reflexivity].
  destruct (fs root) as [p|]; [| repeat split; reflexivity].
  unfold bind, modify, getattr, ret. cbn -[for_each normalized loop_body].
  assert (Hst : forall envs : list Z,
            set_datasets []
              (set_data_pkl (set_data (normalized (data p)) p)
                 (set_data_pkl p
                    (set_normalize true
                       (set_num_classes classes
                          (set_input_shape shape (set_Environments envs o0))))))
            = set_Environments envs (loaded [] shape classes p ([] : list D)))
    by reflexivity.
  rewrite !Hst.
  rewrite (for_each_Environments dataset_transform envs1).
  rewrite (for_each_Environments dataset_transform envs2).
  cbn [fst snd]. repeat split; reflexivity.
Qed.

Lemma environments_only_counted_witness :
  let run1 := Sine.__init__ (one_file "toy.pkl" two_domains)
                (Some "toy.pkl"%string) [0; 1] ToySine.process_dataset
                [1; 1] 2 new_obj in
  let run2 := Sine.__init__ (one_file "toy.pkl" two_domains)
                (Some "toy.pkl"%string) [7; 7] ToySine.process_dataset
                [1; 1] 2 new_obj in
  run1.2 = run2.2
  /\ datasets run1.1 = datasets run2.1
  /\ data_pkl run1.1 = data_pkl run2.1
  /\ Environments run1.1 = Some [0; 1]
  /\ Environments run2.1 = Some [7; 7].
Proof.
  apply (environments_only_counted (one_file "toy.pkl" two_domains)
           (Some "toy.pkl"%string) [0; 1] [7; 7] [1; 1] 2
           ToySine.process_dataset new_obj).
  reflexivity.
Defined.

(* ===================================================================== *)
(** * The feature extractors: further properties                          *)
(* ===================================================================== *)

(** X8: the output shape of [LinearFeatExtractor].  Built with positive
    sizes and, when [mlp_depth > 1], a dropout rate that [nn.Dropout]
    accepts, the forward pass on an input whose last dimension is
    [input_shape[-1]] keeps every leading dimension and replaces the
    last one: by [output_dim] when [mlp_depth > 1], by [mlp_width] when
    [mlp_depth <= 1]; [n_outputs] is [output_dim] in both cases. *)
Theorem LinearFeatExtractor_output_shape (input_shape : list Z)
    (output_dim : Z) (hp : hparams) (n : Z) (x : list Z) :
  0 < n -> 0 < mlp_width hp -> 0 < output_dim ->
  (1 < mlp_depth hp -> rate_in_range (mlp_dropout hp)) ->
  last input_shape = Some n ->
  last x = Some n ->
  exists self,
    LinearFeatExtractor.__init__ input_shape output_dim hp tt = (tt, Ok self)
    /\ LinearFeatExtractor.n_outputs self = output_dim
    /\ LinearFeatExtractor.forward self x tt
       = (tt, Ok (removelast x
                  ++ [if Z.ltb 1 (mlp_depth hp) then output_dim
                      else mlp_width hp])).
Proof.
  intros Hn Hw Hod Hrate Hshape Hx.
  destruct (Z.ltb 1 (mlp_depth hp)) eqn:Hlt.
  - assert (Hdeep : 1 < mlp_depth hp) by (apply Z.ltb_lt; exact Hlt).
    eexists. split; [| split].
    + apply (shape_LinearFeatExtractor_init input_shape output_dim hp n);
        [exact Hshape | exact Hdeep | lia | lia | lia | exact (Hrate Hdeep)].
    + reflexivity.
    + unfold LinearFeatExtractor.forward.
      cbn [LinearFeatExtractor.input LinearFeatExtractor.num_layers
           LinearFeatExtractor.dropout LinearFeatExtractor.hiddens
           LinearFeatExtractor.output attr].
      unfold bind at 1. rewrite (shape_Linear_call n (mlp_width hp) x Hx), Hlt.
      rewrite !bind_ret_l. unfold bind at 1.
      cbn [Dropout_call F_dropout Shape.ops F_relu].
      rewrite bind_ret_l. unfold bind at 1.
      rewrite (shape_hidden_loop _ {| p := mlp_dropout hp; drop_training := true |});
        [| reflexivity | apply last_snoc].
      rewrite bind_ret_l. unfold bind at 1.
      rewrite (shape_Linear_call (mlp_width hp) output_dim) by apply last_snoc.
      rewrite removelast_last. reflexivity.
  - assert (Hshallow : mlp_depth hp <= 1) by (apply Z.ltb_ge; exact Hlt).
    eexists. split; [| split].
    + apply (shape_LinearFeatExtractor_init_shallow input_shape output_dim hp n);
        [exact Hshape | exact Hshallow | lia | lia].
    + reflexivity.
    + unfold LinearFeatExtractor.forward.
      cbn [LinearFeatExtractor.input LinearFeatExtractor.num_layers].
      unfold bind at 1. rewrite (shape_Linear_call n (mlp_width hp) x Hx), Hlt.
      reflexivity.
Qed.

Lemma LinearFeatExtractor_output_shape_witness :
  exists self,
    LinearFeatExtractor.__init__ [1; 2] 3 deep_hparams tt = (tt, Ok self)
    /\ LinearFeatExtractor.n_outputs self = 3
    /\ LinearFeatExtractor.forward self [5; 2] tt
       = (tt, Ok (removelast [5; 2]
                  ++ [if Z.ltb 1 (mlp_depth deep_hparams) then 3
                      else mlp_width deep_hparams])).
Proof.
  apply (LinearFeatExtractor_output_shape [1; 2] 3 deep_hparams 2 [5; 2]);
    try reflexivity.
  intros _. split; reflexivity.
Defined.

Lemma shape_Linear_call_mismatch (a b : Z) (x : list Z) :
  last x <> Some a ->
  Linear_call (shape_Linear a b) x tt = (tt, Raise RuntimeError).
Proof.
  intros Hx. unfold Linear_call, lift, shape_Linear. cbn.
  unfold Shape.linear. destruct (last x) as [d|]; [| reflexivity].
  destruct (Z.eqb_spec d a) as [-> | Hne]; [congruence | reflexivity].
Qed.

(** X9: [LinearFeatExtractor] rejects an input of the wrong width.  For
    a module built with positive sizes and, when [mlp_depth > 1], a
    dropout rate that [nn.Dropout] accepts: when the last dimension of
    the input is not [input_shape[-1]] (or the input has no dimension),
    the forward pass raises at the input layer, for every depth. *)
Theorem LinearFeatExtractor_rejects_wrong_width (input_shape : list Z)
    (output_dim : Z) (hp : hparams) (n : Z) (x : list Z) :
  0 < n -> 0 < mlp_width hp -> 0 < output_dim ->
  (1 < mlp_depth hp -> rate_in_range (mlp_dropout hp)) ->
  last input_shape = Some n ->
  last x <> Some n ->
  exists self,
    LinearFeatExtractor.__init__ input_shape output_dim hp tt = (tt, Ok self)
    /\ LinearFeatExtractor.forward self x tt = (tt, Raise RuntimeError).
Proof.
  intros Hn Hw Hod Hrate Hshape Hx.
  assert (Hfwd : forall self : LinearFeatExtractor.t (list Z),
            LinearFeatExtractor.input self = shape_Linear n (mlp_width hp) ->
            LinearFeatExtractor.forward self x tt = (tt, Raise RuntimeError)).
  { intros self Hin. unfold LinearFeatExtractor.forward. unfold bind at 1.
    rewrite Hin, (shape_Linear_call_mismatch n (mlp_width hp) x Hx).
    reflexivity. }
  destruct (Z.ltb_spec 1 (mlp_depth hp)) as [Hdeep | Hshallow].
  - eexists. split.
    + apply (shape_LinearFeatExtractor_init input_shape output_dim hp n);
        [exact Hshape | exact Hdeep | lia | lia | lia | exact (Hrate Hdeep)].
    + apply Hfwd. reflexivity.
  - eexists. split.
    + apply (shape_LinearFeatExtractor_init_shallow input_shape output_dim hp n);
        [exact Hshape | exact Hshallow | lia | lia].
    + apply Hfwd. reflexivity.
Qed.

Lemma LinearFeatExtractor_rejects_wrong_width_witness :
  exists self,
    LinearFeatExtractor.__init__ [1; 2] 3 deep_hparams tt = (tt, Ok self)
    /\ LinearFeatExtractor.forward self [5; 3] tt = (tt, Raise RuntimeError).
Proof.
  apply (LinearFeatExtractor_rejects_wrong_width [1; 2] 3 deep_hparams 2 [5; 3]).
  - reflexivity.
  - reflexivity.
  - reflexivity.
  - intros _. split; reflexivity.
  - reflexivity.
  - discriminate.
Defined.

(** X10: an empty [input_shape] makes every constructor fail on its
    first index: [LinearFeatExtractor] and [Identity] on
    [input_shape[-1]], [MNIST_CNN] and [ResNet] on [input_shape[0]].
    Each raises [IndexError]; the three that draw parameters do so before
    drawing any. *)
Theorem empty_input_shape_raises_IndexError {T G K : Type} `{Ops T G}
    (output_dim : Z) (hp : hparams) (g : G)
    (torchvision_models : string -> bool -> ResNet.module K)
    (fresh_weight : nat -> nat -> list (list K)) (arch : string)
    (pretrained : bool) (drop_rate : spec_float) :
  LinearFeatExtractor.__init__ [] output_dim hp g = (g, Raise IndexError)
  /\ MNIST_CNN.__init__ [] output_dim hp g = (g, Raise IndexError)
  /\ Identity.__init__ (G := G) [] output_dim hp g = (g, Raise IndexError)
  /\ ResNet.__init__ torchvision_models fresh_weight arch [] pretrained drop_rate
     = Raise IndexError.
Proof.
  repeat split; try reflexivity.
  unfold ResNet.__init__. destruct (String.eqb arch "resnet18"); reflexivity.
Qed.

(** X11: the output shape of [MNIST_CNN].  Built for an [output_dim]
    that is positive and divisible by 8, it maps a batch of [b] images
    with [input_shape[0]] channels, of any height and width, to shape
    [(b, output_dim)], and [n_outputs] is [output_dim].  The one
    exception is a single image with [output_dim = 8] and a height and
    width of at most 2: the last group norm then sees one value per
    group and the forward pass raises [ValueError]. *)
Theorem MNIST_CNN_output_shape (c : Z) (rest : list Z) (output_dim : Z)
    (hp : hparams) (b h w : Z) :
  0 < c -> 0 < output_dim -> output_dim mod 8 = 0 ->
  0 < b -> 0 < h -> 0 < w ->
  exists self,
    MNIST_CNN.__init__ (c :: rest) output_dim hp tt = (tt, Ok self)
    /\ MNIST_CNN.n_outputs self = output_dim
    /\ MNIST_CNN.forward self [b; c; h; w] tt
       = (tt, if Z.eqb b 1 && Z.eqb output_dim 8 && Z.leb h 2 && Z.leb w 2
              then Raise (ValueError
                            "Expected more than 1 value per channel when training")
              else Ok [b; output_dim]).
Proof.
  intros Hc Hout Hmod Hb Hh Hw.
  exact (MNIST_CNN_run c rest output_dim hp b h w Hc Hout Hmod Hb Hh Hw).
Qed.

Lemma MNIST_CNN_output_shape_witness :
  (exists self,
     MNIST_CNN.__init__ [1; 28; 28] 128 deep_hparams tt = (tt, Ok self)
     /\ MNIST_CNN.n_outputs self = 128
     /\ MNIST_CNN.forward self [16; 1; 28; 28] tt = (tt, Ok [16; 128]))
  /\ (exists self,
        MNIST_CNN.__init__ [1; 28; 28] 8 deep_hparams tt = (tt, Ok self)
        /\ MNIST_CNN.n_outputs self = 8
        /\ MNIST_CNN.forward self [1; 1; 2; 2] tt
           = (tt, Raise (ValueError
                           "Expected more than 1 value per channel when training"))).
Proof.
  split.
  - apply (MNIST_CNN_output_shape 1 [28; 28] 128 deep_hparams 16 28 28);
      (lia || reflexivity).
  - apply (MNIST_CNN_output_shape 1 [28; 28] 8 deep_hparams 1 2 2);
      (lia || reflexivity).
Defined.

Lemma nn_Conv2d_returns {T G : Type} `{Ops T G} (c_in c_out k s pad : Z) (g : G) :
  0 <= c_in -> 0 <= c_out -> 0 <= k ->
  exists cv g', nn_Conv2d c_in c_out k s pad g = (g', Ok cv).
Proof.
  intros Hin Hout Hk. unfold nn_Conv2d.
  replace (Z.ltb c_in 0) with false by (symmetry; apply Z.ltb_ge; lia).
  replace (Z.ltb c_out 0) with false by (symmetry; apply Z.ltb_ge; lia).
  replace (Z.ltb k 0) with false by (symmetry; apply Z.ltb_ge; lia).
  cbn [orb]. unfold bind, draw, ret.
  destruct (init_param [c_out; c_in; k; k] g) as [w g1].
  destruct (init_param [c_out] g1) as [b g2].
  eexists. eexists. reflexivity.
Qed.

(** X12: [MNIST_CNN] cannot be built for an [output_dim] that is not a
    multiple of 8.  The four convolutions and the first three group
    norms are created, then [nn.GroupNorm(8, output_dim)] raises
    [ValueError], for every tensor implementation. *)
Theorem MNIST_CNN_needs_multiple_of_8 {T G : Type} `{Ops T G} (c : Z)
    (rest : list Z) (output_dim : Z) (hp : hparams) (g : G) :
  0 < c -> 0 < output_dim ->
  output_dim mod 8 <> 0 ->
  exists g',
    MNIST_CNN.__init__ (c :: rest) output_dim hp g
    = (g', Raise (ValueError "num_channels must be divisible by num_groups")).
Proof.
  intros Hc Hout Hmod.
  assert (Hgn : negb (output_dim mod 8 =? 0) = true).
  { apply negb_true_iff, Z.eqb_neq. exact Hmod. }
  unfold MNIST_CNN.__init__, index_first. rewrite bind_lift.
  destruct (nn_Conv2d_returns c 64 3 1 1 g) as (c1 & g1 & H1); [lia .. |].
  destruct (nn_Conv2d_returns 64 128 3 2 1 g1) as (c2 & g2 & H2); [lia .. |].
  destruct (nn_Conv2d_returns 128 128 3 1 1 g2) as (c3 & g3 & H3); [lia .. |].
  destruct (nn_Conv2d_returns 128 output_dim 3 1 1 g3) as (c4 & g4 & H4);
    [lia .. |].
  unfold bind at 1. rewrite H1. unfold bind at 1. rewrite H2.
  unfold bind at 1. rewrite H3. unfold bind at 1. rewrite H4.
  exists g4. unfold nn_GroupNorm. cbn -[Z.modulo nn_Conv2d].
  unfold bind, ret, raise. cbn -[Z.modulo]. rewrite Hgn. reflexivity.
Qed.

Lemma MNIST_CNN_needs_multiple_of_8_witness :
  exists g',
    MNIST_CNN.__init__ (T := list Z) [1; 28; 28] 10 deep_hparams tt
    = (g', Raise (ValueError "num_channels must be divisible by num_groups")).
Proof.
  apply (MNIST_CNN_needs_multiple_of_8 1 [28; 28] 10 deep_hparams tt).
  - reflexivity.
  - reflexivity.
  - discriminate.
Defined.

(** X13: [MNIST_CNN] rejects a batch with the wrong number of channels:
    when the channel dimension of the input is not [input_shape[0]], the
    first convolution raises. *)
Theorem MNIST_CNN_rejects_wrong_channels (c : Z) (rest : list Z)
    (output_dim : Z) (hp : hparams) (b c' h w : Z) :
  0 < c -> 0 < output_dim -> output_dim mod 8 = 0 ->
  c' <> c ->
  exists self,
    MNIST_CNN.__init__ (c :: rest) output_dim hp tt = (tt, Ok self)
    /\ MNIST_CNN.forward self [b; c'; h; w] tt = (tt, Raise RuntimeError).
Proof.
  intros Hpos Hout Hmod Hc.
  assert (Hgn : negb (output_dim mod 8 =? 0) = false) by (rewrite Hmod; reflexivity).
  eexists. split.
  - shape_MNIST_CNN_init c output_dim Hgn.
  - unfold MNIST_CNN.forward, Conv2d_call. unfold bind at 1.
    cbn [MNIST_CNN.conv1 conv_weight conv_bias stride padding F_conv2d
         Shape.ops lift].
    unfold Shape.conv2d.
    replace (c' =? c) with false by (symmetry; apply Z.eqb_neq; exact Hc).
    reflexivity.
Qed.

Lemma MNIST_CNN_rejects_wrong_channels_witness :
  exists self,
    MNIST_CNN.__init__ [1; 28; 28] 128 deep_hparams tt = (tt, Ok self)
    /\ MNIST_CNN.forward self [16; 3; 28; 28] tt = (tt, Raise RuntimeError).
Proof.
  apply (MNIST_CNN_rejects_wrong_channels 1 [28; 28] 128 deep_hparams 16 3 28 28).
  - reflexivity.
  - reflexivity.
  - reflexivity.
  - discriminate.
Defined.

(* ===================================================================== *)
(** * ResNet: further properties                                          *)
(* ===================================================================== *)

Section TrainFacts.
Context {K : Type}.
Import ResNet.

Lemma Module_train_train (m1 m2 : bool) (m : ResNet.module K) :
  Module_train m2 (Module_train m1 m) = Module_train m2 m.
Proof.
  induction m as [n c t cs IH] using module_rect_nested.
  cbn [Module_train]. f_equal. rewrite map_map.
  apply map_ext_Forall. rewrite Forall_forall in IH |- *.
  intros x Hx. apply IH, Hx.
Qed.

Lemma Module_train_freeze (mode : bool) (m : ResNet.module K) :
  Module_train mode (freeze m) = Module_train mode m.
Proof.
  induction m as [n c t cs IH] using module_rect_nested.
  assert (Hrec : map (Module_train mode) (map freeze cs)
                 = map (Module_train mode) cs).
  { rewrite map_map. apply map_ext_Forall. rewrite Forall_forall in IH |- *.
    intros x Hx. apply IH, Hx. }
  assert (Hsub : map (Module_train mode) (map (Module_train false) cs)
                 = map (Module_train mode) cs).
  { rewrite map_map. apply map_ext. intros x. apply Module_train_train. }
  destruct c; cbn [freeze Module_train]; rewrite ?Hrec, ?Hsub; reflexivity.
Qed.

Lemma freeze_train_false (m : ResNet.module K) :
  freeze (Module_train false m) = Module_train false m.
Proof.
  induction m as [n c t cs IH] using module_rect_nested.
  assert (Hrec : map freeze (map (Module_train false) cs)
                 = map (Module_train false) cs).
  { rewrite map_map. apply map_ext_Forall. rewrite Forall_forall in IH |- *.
    intros x Hx. apply IH, Hx. }
  assert (Hsub : map (Module_train false) (map (Module_train false) cs)
                 = map (Module_train false) cs).
  { rewrite map_map. apply map_ext. intros x. apply Module_train_train. }
  destruct c; cbn [freeze Module_train]; rewrite ?Hrec, ?Hsub; reflexivity.
Qed.

Lemma freeze_idempotent (m : ResNet.module K) : freeze (freeze m) = freeze m.
Proof.
  induction m as [n c t cs IH] using module_rect_nested.
  assert (Hrec : map freeze (map freeze cs) = map freeze cs).
  { rewrite map_map. apply map_ext_Forall. rewrite Forall_forall in IH |- *.
    intros x Hx. apply IH, Hx. }
  assert (Hsub : map (Module_train false) (map (Module_train false) cs)
                 = map (Module_train false) cs).
  { rewrite map_map. apply map_ext. intros x. apply Module_train_train. }
  destruct c; cbn [freeze]; rewrite ?Hrec, ?Hsub; reflexivity.
Qed.

Lemma all_in_mode_train (mode : bool) (m : ResNet.module K) :
  all_in_mode mode (Module_train mode m) = true.
Proof.
  induction m as [n c t cs IH] using module_rect_nested.
  cbn [Module_train all_in_mode]. apply andb_true_intro. split.
  - destruct mode; reflexivity.
  - rewrite forallb_forall. intros m' Hin.
    apply in_map_iff in Hin as [m0 [<- Hin]].
    rewrite Forall_forall in IH. apply IH, list_elem_of_In, Hin.
Qed.

Lemma others_in_mode_freeze_train (mode : bool) (m : ResNet.module K) :
  others_in_mode mode (freeze (Module_train mode m)) = true.
Proof.
  induction m as [n c t cs IH] using module_rect_nested.
  assert (Hrec : forallb (others_in_mode mode)
                   (map freeze (map (Module_train mode) cs)) = true).
  { rewrite forallb_forall. intros m' Hin.
    apply in_map_iff in Hin as [m1 [<- Hin]].
    apply in_map_iff in Hin as [m0 [<- Hin]].
    rewrite Forall_forall in IH. apply IH, list_elem_of_In, Hin. }
  destruct c; cbn [Module_train freeze others_in_mode]; try reflexivity;
    rewrite Hrec; destruct mode; reflexivity.
Qed.

End TrainFacts.

(** X14: [train] keeps no memory of earlier calls.  Calling
    [train(m1)] and then [train(m2)] leaves the object exactly as a
    single [train(m2)] does; in particular switching to eval and back to
    training restores the training state. *)
Theorem train_last_call_wins {K : Type} (r : ResNet.t K) (m1 m2 : bool) :
  ResNet.train (ResNet.train r m1) m2 = ResNet.train r m2.
Proof.
  unfold ResNet.train, ResNet.freeze_bn.
  cbn [ResNet.network ResNet.n_outputs ResNet.dropout ResNet.self_training].
  rewrite Module_train_freeze, Module_train_train. f_equal.
  destruct (ResNet.dropout r) as [d|]; [| reflexivity].
  cbn [option_map]. rewrite Module_train_train. reflexivity.
Qed.

(** X15: [freeze_bn] changes training flags and nothing else, and doing
    it twice is the same as doing it once.  After resetting every flag
    the frozen network equals the original one with every flag reset, so
    names, classes, weights and tree structure are untouched;
    [n_outputs], [dropout] and the ResNet's own flag are kept. *)
Theorem freeze_bn_only_changes_flags {K : Type} (r : ResNet.t K) (mode : bool) :
  ResNet.Module_train mode (ResNet.network (ResNet.freeze_bn r))
  = ResNet.Module_train mode (ResNet.network r)
  /\ ResNet.n_outputs (ResNet.freeze_bn r) = ResNet.n_outputs r
  /\ ResNet.dropout (ResNet.freeze_bn r) = ResNet.dropout r
  /\ ResNet.self_training (ResNet.freeze_bn r) = ResNet.self_training r
  /\ ResNet.freeze_bn (ResNet.freeze_bn r) = ResNet.freeze_bn r.
Proof.
  unfold ResNet.freeze_bn.
  cbn [ResNet.network ResNet.n_outputs ResNet.dropout ResNet.self_training].
  split; [apply Module_train_freeze |]. repeat split.
  rewrite freeze_idempotent. reflexivity.
Qed.

(** X16: [train(False)] is plain eval mode.  With nothing left in
    training mode, freezing the batch norms changes nothing: every module
    of the network and the dropout layer have their flag cleared, and the
    network is the one [nn.Module.train(False)] alone would give. *)
Theorem train_False_is_eval {K : Type} (r : ResNet.t K) :
  ResNet.network (ResNet.train r false)
  = ResNet.Module_train false (ResNet.network r)
  /\ ResNet.all_in_mode false (ResNet.network (ResNet.train r false)) = true
  /\ ResNet.self_training (ResNet.train r false) = false
  /\ match ResNet.dropout (ResNet.train r false) with
     | Some d => ResNet.all_in_mode false d = true
     | None => ResNet.dropout r = None
     end.
Proof.
  unfold ResNet.train, ResNet.freeze_bn.
  cbn [ResNet.network ResNet.n_outputs ResNet.dropout ResNet.self_training].
  rewrite freeze_train_false.
  split; [reflexivity |]. split; [apply all_in_mode_train |].
  split; [reflexivity |].
  destruct (ResNet.dropout r) as [d|]; cbn [option_map];
    [apply all_in_mode_train | reflexivity].
Qed.

(** X17: [train(mode)] does switch the rest of the model.  After the
    call every module of the network that is neither a [BatchNorm2d] nor
    below one has its flag equal to [mode], and so has every module of
    the dropout layer; only the batch norms are exempt. *)
Theorem train_sets_the_other_modules {K : Type} (r : ResNet.t K) (mode : bool) :
  ResNet.others_in_mode mode (ResNet.network (ResNet.train r mode)) = true
  /\ match ResNet.dropout (ResNet.train r mode) with
     | Some d => ResNet.all_in_mode mode d = true
     | None => ResNet.dropout r = None
     end.
Proof.
  unfold ResNet.train, ResNet.freeze_bn.
  cbn [ResNet.network ResNet.n_outputs ResNet.dropout ResNet.self_training].
  split; [apply others_in_mode_freeze_train |].
  destruct (ResNet.dropout r) as [d|]; cbn [option_map];
    [apply all_in_mode_train | reflexivity].
Qed.

Section ResNetInitFacts.
Context {K : Type}.
Import ResNet.
Variable torchvision_models : string -> bool -> ResNet.module K.
Variable fresh_weight : nat -> nat -> list (list K).

Lemma ResNet_init_inv (arch : string) (input_shape : list Z)
    (pretrained : bool) (drop_rate : spec_float) (self : ResNet.t K) :
  ResNet.__init__ torchvision_models fresh_weight arch input_shape pretrained
    drop_rate = Ok self ->
  exists net1 net2,
    adapt_channels fresh_weight input_shape
      (torchvision_models (zoo_name arch) pretrained) = Ok net1
    /\ del_child "fc" net1 = Ok net2
    /\ self = {| network := freeze (set_child "fc"
                                      (Module_ "fc" nn_Identity true []) net2);
                 n_outputs := if String.eqb arch "resnet18" then 512 else 2048;
                 dropout := Some (Module_ "dropout" (nn_Dropout drop_rate) true []);
                 self_training := true |}.
Proof.
  unfold ResNet.__init__, zoo_name.
  destruct (String.eqb arch "resnet18");
    (destruct (adapt_channels _ _ _) as [net1|e]; [| discriminate]);
    (destruct (del_child "fc" net1) as [net2|e] eqn:Hdel; [| discriminate]);
    (destruct (rate_out_of_range drop_rate); [discriminate |]);
    intros Hself; injection Hself as <-; exists net1, net2;
    (split; [reflexivity | split; [exact Hdel | reflexivity]]).
Qed.

Lemma adapt_channels_cls (input_shape : list Z) (net net1 : ResNet.module K) :
  adapt_channels fresh_weight input_shape net = Ok net1 -> cls net1 = cls net.
Proof.
  unfold adapt_channels.
  destruct (index_first input_shape) as [nc|e]; [| discriminate].
  destruct (negb (Z.eqb nc 3)); [| intros H; injection H as <-; reflexivity].
  destruct (conv1_weight net) as [tmp|e]; [| discriminate].
  destruct (Z.ltb nc 0); [discriminate |].
  destruct (copy_channels _ _ _) as [w|e]; [| discriminate].
  intros H. injection H as <-. destruct net. reflexivity.
Qed.

Lemma del_child_cls (a : string) (net net' : ResNet.module K) :
  del_child a net = Ok net' -> cls net' = cls net.
Proof.
  destruct net as [n c t cs]. unfold del_child.
  destruct (remove a cs); [| discriminate].
  intros H. injection H as <-. reflexivity.
Qed.

Lemma fc_after_init (net2 : ResNet.module K) :
  is_BatchNorm2d net2 = false ->
  get_child "fc"
    (freeze (set_child "fc" (Module_ "fc" nn_Identity true []) net2))
  = Ok (Module_ "fc" nn_Identity true []).
Proof.
  destruct net2 as [n c t cs]. intros Hbn.
  assert (Hroot : freeze (set_child "fc" (Module_ "fc" nn_Identity true [])
                            (Module_ n c t cs))
                  = Module_ n c t
                      (map freeze (assign "fc" (Module_ "fc" nn_Identity true []) cs))).
  { cbn [set_child freeze]. destruct c; try reflexivity. discriminate. }
  rewrite Hroot. unfold get_child. cbn [children].
  rewrite find_map_freeze, find_assign_same by reflexivity. reflexivity.
Qed.

End ResNetInitFacts.

Lemma default_drop_rate_in_range : rate_in_range default_drop_rate.
Proof. split; reflexivity. Qed.

(** X18: the classification head is removed.  After the constructor has
    run on a torchvision network with a dropout rate that [nn.Dropout]
    accepts, [self.network.fc] is an [nn.Identity] without parameters or
    submodules, in training mode, for either architecture and every
    number of input channels. *)
Theorem fc_is_replaced_by_Identity {K : Type}
    (torchvision_models : string -> bool -> ResNet.module K)
    (fresh_weight : nat -> nat -> list (list K))
    (arch : string) (nc : Z) (rest : list Z) (pretrained : bool)
    (drop_rate : spec_float) :
  torchvision_resnet (torchvision_models (zoo_name arch) pretrained) ->
  fresh_shaped fresh_weight ->
  0 <= nc ->
  rate_in_range drop_rate ->
  exists self,
    ResNet.__init__ torchvision_models fresh_weight arch (nc :: rest)
      pretrained drop_rate = Ok self
    /\ ResNet.get_child "fc" (ResNet.network self)
       = Ok (ResNet.Module_ "fc" ResNet.nn_Identity true []).
Proof.
  intros Hnet Hfresh Hnc Hrate.
  destruct (ResNet_init_run torchvision_models fresh_weight arch nc rest
              pretrained drop_rate Hnet Hfresh Hnc Hrate) as (self & _ & Hrun & _).
  exists self. split; [exact Hrun |].
  destruct (ResNet_init_inv torchvision_models fresh_weight arch (nc :: rest)
              pretrained drop_rate self Hrun) as (net1 & net2 & Had & Hdel & ->).
  cbn [ResNet.network]. apply fc_after_init.
  unfold ResNet.is_BatchNorm2d.
  rewrite (del_child_cls "fc" net1 net2 Hdel).
  rewrite (adapt_channels_cls fresh_weight (nc :: rest) _ net1 Had).
  exact (proj1 Hnet).
Qed.

Lemma fc_is_replaced_by_Identity_witness :
  exists self,
    ResNet.__init__ tiny_zoo zero_weight "resnet18" [1; 32; 32] true
      default_drop_rate = Ok self
    /\ ResNet.get_child "fc" (ResNet.network self)
       = Ok (ResNet.Module_ "fc" ResNet.nn_Identity true []).
Proof.
  apply (fc_is_replaced_by_Identity tiny_zoo zero_weight "resnet18" 1 [32; 32]
           true default_drop_rate).
  - exact tiny_resnet_torchvision.
  - exact zero_weight_shaped.
  - lia.
  - split; reflexivity.
Defined.

(** X19: any architecture name other than ['resnet18'] selects
    ResNet-50.  The constructor does not check [arch]: for every string
    that is not ['resnet18'] it does exactly what it does for
    ['resnet50'], and a module it returns has [n_outputs = 2048]. *)
Theorem unknown_arch_is_resnet50 {K : Type}
    (torchvision_models : string -> bool -> ResNet.module K)
    (fresh_weight : nat -> nat -> list (list K))
    (arch : string) (input_shape : list Z) (pretrained : bool)
    (drop_rate : spec_float) :
  arch <> "resnet18"%string ->
  ResNet.__init__ torchvision_models fresh_weight arch input_shape pretrained
    drop_rate
  = ResNet.__init__ torchvision_models fresh_weight "resnet50" input_shape
      pretrained drop_rate
  /\ forall self,
       ResNet.__init__ torchvision_models fresh_weight arch input_shape
         pretrained drop_rate = Ok self ->
       ResNet.n_outputs self = 2048.
Proof.
  intros Harch. apply String.eqb_neq in Harch. split.
  - unfold ResNet.__init__. rewrite Harch. reflexivity.
  - intros self Hrun.
    destruct (ResNet_init_inv torchvision_models fresh_weight arch input_shape
                pretrained drop_rate self Hrun) as (net1 & net2 & _ & _ & ->).
    cbn [ResNet.n_outputs]. rewrite Harch. reflexivity.
Qed.

Lemma unknown_arch_is_resnet50_witness :
  ResNet.__init__ tiny_zoo zero_weight "resnet101" [3; 32; 32] false
    default_drop_rate
  = ResNet.__init__ tiny_zoo zero_weight "resnet50" [3; 32; 32] false
      default_drop_rate
  /\ forall self,
       ResNet.__init__ tiny_zoo zero_weight "resnet101" [3; 32; 32] false
         default_drop_rate = Ok self ->
       ResNet.n_outputs self = 2048.
Proof.
  apply (unknown_arch_is_resnet50 tiny_zoo zero_weight "resnet101" [3; 32; 32]
           false default_drop_rate).
  discriminate.
Defined.

(** X20: the registered factories fix the feature width.  [resnet18] and
    [resnet50] ignore [output_dim] and [hparams]: on torchvision
    networks they return, for every [output_dim] and [hparams], a ResNet
    built without pretrained weights whose [n_outputs] is 512 and 2048,
    with a dropout of rate 0.5 and with frozen batch norms. *)
Theorem factories_fix_the_width {K : Type}
    (torchvision_models : string -> bool -> ResNet.module K)
    (fresh_weight : nat -> nat -> list (list K))
    (nc : Z) (rest : list Z) (output_dim : Z) (hp : option hparams) :
  torchvision_resnet (torchvision_models "resnet18"%string false) ->
  torchvision_resnet (torchvision_models "resnet50"%string false) ->
  fresh_shaped fresh_weight ->
  0 <= nc ->
  exists s18 s50,
    resnet18 torchvision_models fresh_weight (nc :: rest) output_dim hp = Ok s18
    /\ resnet50 torchvision_models fresh_weight (nc :: rest) output_dim hp = Ok s50
    /\ ResNet.n_outputs s18 = 512
    /\ ResNet.n_outputs s50 = 2048
    /\ ResNet.dropout s18
       = Some (ResNet.Module_ "dropout" (ResNet.nn_Dropout default_drop_rate) true [])
    /\ ResNet.dropout s50 = ResNet.dropout s18
    /\ ResNet.all_bn_eval (ResNet.network s18) = true
    /\ ResNet.all_bn_eval (ResNet.network s50) = true.
Proof.
  intros H18 H50 Hfresh Hnc. unfold resnet18, resnet50.
  destruct (ResNet_init_run torchvision_models fresh_weight "resnet18" nc rest
              false default_drop_rate H18 Hfresh Hnc default_drop_rate_in_range)
    as (s18 & _ & Hrun18 & Hbn18 & _).
  destruct (ResNet_init_run torchvision_models fresh_weight "resnet50" nc rest
              false default_drop_rate H50 Hfresh Hnc default_drop_rate_in_range)
    as (s50 & _ & Hrun50 & Hbn50 & _).
  exists s18, s50. split; [exact Hrun18 | split; [exact Hrun50 |]].
  destruct (ResNet_init_inv _ _ _ _ _ _ _ Hrun18) as (? & ? & _ & _ & ->).
  destruct (ResNet_init_inv _ _ _ _ _ _ _ Hrun50) as (? & ? & _ & _ & ->).
  repeat split; assumption.
Qed.

Lemma factories_fix_the_width_witness :
  exists s18 s50,
    resnet18 tiny_zoo zero_weight [3; 32; 32] 7 None = Ok s18
    /\ resnet50 tiny_zoo zero_weight [3; 32; 32] 7 None = Ok s50
    /\ ResNet.n_outputs s18 = 512
    /\ ResNet.n_outputs s50 = 2048
    /\ ResNet.dropout s18
       = Some (ResNet.Module_ "dropout" (ResNet.nn_Dropout default_drop_rate) true [])
    /\ ResNet.dropout s50 = ResNet.dropout s18
    /\ ResNet.all_bn_eval (ResNet.network s18) = true
    /\ ResNet.all_bn_eval (ResNet.network s50) = true.
Proof.
  apply (factories_fix_the_width tiny_zoo zero_weight 3 [32; 32] 7 None).
  - exact tiny_resnet_torchvision.
  - exact tiny_resnet_torchvision.
  - exact zero_weight_shaped.
  - lia.
Defined.

(** X21: in eval mode the forward pass is the network's alone.  Given
    that a dropout layer in eval mode returns its input -- what
    [nn.Dropout] does -- the forward pass after [train(False)] is the
    forward pass of the network with every flag cleared: dropout adds
    nothing, and an exception of the network is passed on. *)
Theorem forward_in_eval_mode {K T G : Type}
    (module_call : ResNet.module K -> T -> M G T) (r : ResNet.t K)
    (n : string) (p : spec_float) (t : bool) (x : T) (g : G) :
  (forall name rate y g',
     module_call (ResNet.Module_ name (ResNet.nn_Dropout rate) false []) y g'
     = (g', Ok y)) ->
  ResNet.dropout r = Some (ResNet.Module_ n (ResNet.nn_Dropout p) t []) ->
  ResNet.forward module_call (ResNet.train r false) x g
  = module_call (ResNet.Module_train false (ResNet.network r)) x g.
Proof.
  intros Hdrop Hr. unfold ResNet.forward, ResNet.train, ResNet.freeze_bn.
  cbn [ResNet.network ResNet.dropout]. rewrite Hr, freeze_train_false.
  cbn [option_map ResNet.Module_train map attr].
  transitivity (bind (module_call (ResNet.Module_train false (ResNet.network r)) x)
                  ret g); [| apply bind_ret_r].
  apply bind_ext. intros y g'. rewrite bind_ret_l. apply Hdrop.
Qed.

Lemma forward_in_eval_mode_witness :
  ResNet.forward shape_module_call
    (ResNet.train
       {| ResNet.network := tiny_resnet; ResNet.n_outputs := 512;
          ResNet.dropout :=
            Some (ResNet.Module_ "dropout"
                    (ResNet.nn_Dropout default_drop_rate) true []);
          ResNet.self_training := true |} false) [16; 3; 32; 32] tt
  = shape_module_call (ResNet.Module_train false tiny_resnet) [16; 3; 32; 32] tt.
Proof.
  apply (forward_in_eval_mode shape_module_call
           {| ResNet.network := tiny_resnet; ResNet.n_outputs := 512;
              ResNet.dropout :=
                Some (ResNet.Module_ "dropout"
                        (ResNet.nn_Dropout default_drop_rate) true []);
              ResNet.self_training := true |}
           "dropout" default_drop_rate true [16; 3; 32; 32] tt).
  - intros; reflexivity.
  - reflexivity.
Defined.

Lemma adapt_channels_other_children {K : Type}
    (fresh_weight : nat -> nat -> list (list K)) (input_shape : list Z)
    (net net1 : ResNet.module K) (a : string) :
  ResNet.adapt_channels fresh_weight input_shape net = Ok net1 ->
  a <> "conv1"%string ->
  ResNet.get_child a net1 = ResNet.get_child a net.
Proof.
  unfold ResNet.adapt_channels. intros Had Ha.
  destruct (index_first input_shape) as [nc|e]; [| discriminate].
  destruct (negb (Z.eqb nc 3)); [| injection Had as <-; reflexivity].
  destruct (ResNet.conv1_weight net) as [tmp|e]; [| discriminate].
  destruct (Z.ltb nc 0); [discriminate |].
  destruct (ResNet.copy_channels _ _ _) as [w|e]; [| discriminate].
  injection Had as <-. destruct net as [n c t cs].
  unfold ResNet.get_child. cbn [ResNet.set_child ResNet.children].
  rewrite (find_assign_other "conv1" a) by (reflexivity || congruence).
  reflexivity.
Qed.

(** X22: the constructor leaves the rest of the network alone.  For a
    dropout rate that [nn.Dropout] accepts, every
    submodule of the torchvision network other than [conv1] and [fc] is
    in the constructed ResNet what it was in the torchvision network,
    apart from the training flags that [freeze_bn] clears in it; a name
    that was absent stays absent. *)
Theorem other_submodules_are_kept {K : Type}
    (torchvision_models : string -> bool -> ResNet.module K)
    (fresh_weight : nat -> nat -> list (list K))
    (arch : string) (nc : Z) (rest : list Z) (pretrained : bool)
    (drop_rate : spec_float) (a : string) :
  torchvision_resnet (torchvision_models (zoo_name arch) pretrained) ->
  fresh_shaped fresh_weight ->
  0 <= nc ->
  rate_in_range drop_rate ->
  a <> "conv1"%string ->
  a <> "fc"%string ->
  exists self,
    ResNet.__init__ torchvision_models fresh_weight arch (nc :: rest)
      pretrained drop_rate = Ok self
    /\ ResNet.get_child a (ResNet.network self)
       = match ResNet.get_child a
                 (torchvision_models (zoo_name arch) pretrained) with
         | Ok c => Ok (ResNet.freeze c)
         | Raise e => Raise e
         end.
Proof.
  intros Hnet Hfresh Hnc Hrate Hconv Hfc.
  destruct (ResNet_init_run torchvision_models fresh_weight arch nc rest
              pretrained drop_rate Hnet Hfresh Hnc Hrate) as (self & _ & Hrun & _).
  exists self. split; [exact Hrun |].
  destruct (ResNet_init_inv torchvision_models fresh_weight arch (nc :: rest)
              pretrained drop_rate self Hrun) as (net1 & net2 & Had & Hdel & ->).
  cbn [ResNet.network].
  rewrite <- (adapt_channels_other_children fresh_weight (nc :: rest) _ net1 a
                Had Hconv).
  assert (Hbn : ResNet.is_BatchNorm2d net1 = false).
  { unfold ResNet.is_BatchNorm2d.
    rewrite (adapt_channels_cls fresh_weight (nc :: rest) _ net1 Had).
    exact (proj1 Hnet). }
  destruct net1 as [n c t cs]. unfold ResNet.del_child in Hdel.
  destruct (ResNet.remove "fc" cs) as [cs2|e] eqn:Hrm; [| discriminate].
  injection Hdel as <-.
  assert (Hroot : ResNet.freeze
                    (ResNet.set_child "fc"
                       (ResNet.Module_ "fc" ResNet.nn_Identity true [])
                       (ResNet.Module_ n c t cs2))
                  = ResNet.Module_ n c t
                      (map ResNet.freeze
                         (ResNet.assign "fc"
                            (ResNet.Module_ "fc" ResNet.nn_Identity true []) cs2))).
  { cbn [ResNet.set_child ResNet.freeze]. destruct c; try reflexivity.
    discriminate. }
  rewrite Hroot. unfold ResNet.get_child. cbn [ResNet.children].
  rewrite find_map_freeze.
  rewrite (find_assign_other "fc" a) by (reflexivity || congruence).
  rewrite (find_remove_other "fc" a cs cs2) by (congruence || exact Hrm).
  destruct (List.find _ cs); reflexivity.
Qed.

Lemma other_submodules_are_kept_witness :
  exists self,
    ResNet.__init__ tiny_zoo zero_weight "resnet18" [5; 32; 32] false
      default_drop_rate = Ok self
    /\ ResNet.get_child "layer1" (ResNet.network self)
       = match ResNet.get_child "layer1" (tiny_zoo (zoo_name "resnet18") false) with
         | Ok c => Ok (ResNet.freeze c)
         | Raise e => Raise e
         end.
Proof.
  apply (other_submodules_are_kept tiny_zoo zero_weight "resnet18" 5 [32; 32]
           false default_drop_rate "layer1").
  - exact tiny_resnet_torchvision.
  - exact zero_weight_shaped.
  - lia.
  - split; reflexivity.
  - discriminate.
  - discriminate.
Defined.

(** X23: the size of each [ToySine] dataset.  On a well-formed cache the
    dataset of domain [d] has as many data rows, and as many labels, as
    the ['domain'] array has entries equal to [d]. *)
Theorem ToySine_dataset_sizes (fs : filesystem) (root : string) (p : pickle)
    (shape : list Z) (classes : Z) (o0 : obj TensorDataset) :
  fs root = Some p ->
  well_formed p ->
  exists o ds,
    ToySine.__init__ fs (Some root) shape classes o0 = (o, Ok tt)
    /\ datasets o = Some ds
    /\ forall d td, ds !! d = Some td ->
         len (tensor_x td)
         = length (filter (fun v => v = Z.of_nat d) (domain p))
         /\ length (tensor_y td)
            = length (filter (fun v => v = Z.of_nat d) (domain p)).
Proof.
  intros Hfs Hwf.
  exists (loaded ToySine.environments shape classes p (toy_datasets p)).
  exists (toy_datasets p).
  split; [apply ToySine_run; assumption |]. split; [reflexivity |].
  intros d td Htd.
  assert (Hd : (d < 24)%nat).
  { apply lookup_lt_Some in Htd. unfold toy_datasets in Htd.
    rewrite length_map, length_seq in Htd. exact Htd. }
  rewrite (toy_datasets_lookup p d Hd) in Htd. injection Htd as <-.
  cbn [tensor_x tensor_y]. rewrite (partition_lengths d p Hwf).
  assert (Hy : length (partition_labels d p)
               = length (filter (fun v => v = Z.of_nat d) (domain p))).
  { unfold partition_labels, astype_int64. rewrite length_map.
    apply samples_of_domain_length, Hwf. }
  split; exact Hy.
Qed.

Lemma ToySine_dataset_sizes_witness :
  exists o ds,
    ToySine.__init__ (one_file "toy.pkl" two_domains) (Some "toy.pkl"%string)
      [1; 1] 2 new_obj = (o, Ok tt)
    /\ datasets o = Some ds
    /\ forall d td, ds !! d = Some td ->
         len (tensor_x td)
         = length (filter (fun v => v = Z.of_nat d) (domain two_domains))
         /\ length (tensor_y td)
            = length (filter (fun v => v = Z.of_nat d) (domain two_domains)).
Proof.
  apply (ToySine_dataset_sizes (one_file "toy.pkl" two_domains) "toy.pkl"
           two_domains [1; 1] 2 new_obj).
  - reflexivity.
  - split; reflexivity.
Defined.

(** X24: the layers of [LinearFeatExtractor] fit together.  For every
    tensor implementation the constructor returns, whenever
    [input_shape] is not empty, the sizes are positive and, for
    [mlp_depth > 1], [nn.Dropout] accepts the rate, a module whose input
    layer maps
    [input_shape[-1]] to [mlp_width] features; with [mlp_depth > 1] each
    of the [mlp_depth - 2] hidden layers maps [mlp_width] to [mlp_width],
    the output layer maps [mlp_width] to [output_dim] and the dropout has
    rate [mlp_dropout]; with [mlp_depth <= 1] -- zero and negative depths
    included -- there is no dropout, no hidden list and no output
    layer. *)
Theorem LinearFeatExtractor_layers_chain {T G : Type} `{Ops T G}
    (input_shape : list Z) (output_dim : Z) (hp : hparams) (g : G) (n : Z) :
  0 < n -> 0 < mlp_width hp -> 0 < output_dim ->
  (1 < mlp_depth hp -> rate_in_range (mlp_dropout hp)) ->
  last input_shape = Some n ->
  exists self g',
    LinearFeatExtractor.__init__ input_shape output_dim hp g = (g', Ok self)
    /\ in_features (LinearFeatExtractor.input self) = n
    /\ out_features (LinearFeatExtractor.input self) = mlp_width hp
    /\ (mlp_depth hp <= 1 ->
          LinearFeatExtractor.dropout self = None
          /\ LinearFeatExtractor.hiddens self = None
          /\ LinearFeatExtractor.output self = None)
    /\ (1 < mlp_depth hp ->
          exists d hs out,
            LinearFeatExtractor.dropout self = Some d
            /\ LinearFeatExtractor.hiddens self = Some hs
            /\ LinearFeatExtractor.output self = Some out
            /\ p d = mlp_dropout hp
            /\ Z.of_nat (length hs) = mlp_depth hp - 2
            /\ Forall (fun l => in_features l = mlp_width hp
                                /\ out_features l = mlp_width hp) hs
            /\ in_features out = mlp_width hp
            /\ out_features out = output_dim).
Proof.
  intros Hn Hw Hod Hrate Hlast.
  assert (Hvalid : 1 < mlp_depth hp ->
                   0 <= output_dim /\ rate_in_range (mlp_dropout hp)).
  { intros Hd. split; [lia | exact (Hrate Hd)]. }
  destruct (LinearFeatExtractor_init_run input_shape output_dim hp g n Hlast
              (Z.lt_le_incl _ _ Hn) (Z.lt_le_incl _ _ Hw) Hvalid)
    as (self & g' & Hrun & _ & _ & Hin & Hout & Hshallow & Hdeep).
  exists self, g'. repeat split; try assumption; apply Hshallow; assumption.
Qed.

Lemma LinearFeatExtractor_layers_chain_witness :
  exists (self : LinearFeatExtractor.t (list Z)) (g' : unit),
    LinearFeatExtractor.__init__ [1; 2] 3 deep_hparams tt = (g', Ok self)
    /\ in_features (LinearFeatExtractor.input self) = 2
    /\ out_features (LinearFeatExtractor.input self) = mlp_width deep_hparams
    /\ (mlp_depth deep_hparams <= 1 ->
          LinearFeatExtractor.dropout self = None
          /\ LinearFeatExtractor.hiddens self = None
          /\ LinearFeatExtractor.output self = None)
    /\ (1 < mlp_depth deep_hparams ->
          exists d hs out,
            LinearFeatExtractor.dropout self = Some d
            /\ LinearFeatExtractor.hiddens self = Some hs
            /\ LinearFeatExtractor.output self = Some out
            /\ p d = mlp_dropout deep_hparams
            /\ Z.of_nat (length hs) = mlp_depth deep_hparams - 2
            /\ Forall (fun l => in_features l = mlp_width deep_hparams
                                /\ out_features l = mlp_width deep_hparams) hs
            /\ in_features out = mlp_width deep_hparams
            /\ out_features out = 3).
Proof.
  apply (LinearFeatExtractor_layers_chain [1; 2] 3 deep_hparams tt 2);
    try reflexivity.
  intros _. split; reflexivity.
Defined.
